(** * Avocado: the clustering service (app/services/clustering.py)

    A shallow embedding of the data-preparation-and-clustering pipeline:
    the pandas frame the pipeline works on, the three scikit-learn
    estimators it calls (LabelEncoder, StandardScaler, KMeans), the
    pipeline itself, the JSON export, and a JSON reader to read the export
    back.

    Conventions of the model.
    - Python [float] cells are exact rationals ([Q]); rounding, NaN and
      infinities of IEEE arithmetic are outside the model.  The square
      root used by StandardScaler is a parameter.
    - Python [int] is [Z]; [str] is [string], one [ascii] per code point.
    - A Python [dict] is an association list in insertion order.
    - The parts of the libraries that the pipeline cannot observe through
      its own code (the CSV reader, the centroid search of k-means, the
      printing of floats) are parameters of the development. *)

From Stdlib Require Import String Ascii List Bool Arith ZArith QArith Lia.
From Stdlib Require Import Permutation Sorted DecimalString DecimalZ.
Import ListNotations.
Close Scope Q_scope.

Set Implicit Arguments.
Set Warnings "-register-all".

(** ** Python values and exceptions *)

Inductive pyobj : Type :=
| PyNone
| PyInt (n : Z)
| PyFloat (q : Q)
| PyStr (s : string)
| PyList (items : list pyobj)
| PyDict (items : list (string * pyobj)).

(** The exceptions the service can see.  [ValueError] is the one the
    pipeline raises itself; [EstimatorValueError] is the [ValueError]
    scikit-learn raises from its own input validation (the message is the
    library's); [ParserError] is whatever the CSV reader raises. *)
Inductive Exception : Type :=
| ValueError (msg : string)
| EstimatorValueError
| KeyError (key : string)
| ParserError (msg : string).

Inductive result (A : Type) : Type :=
| Ok (a : A)
| Raise (e : Exception).
Arguments Ok {A} a.
Arguments Raise {A} e.

Definition bind {A B : Type} (m : result A) (f : A -> result B) : result B :=
  match m with
  | Ok a => f a
  | Raise e => Raise e
  end.

Notation "x <- m ;; k" := (bind m (fun x => k))
  (at level 61, m at next level, right associativity).
Notation "' p <- m ;; k" := (bind m (fun x => match x with p => k end))
  (at level 61, p pattern, m at next level, right associativity).

(** ** Python dictionaries *)

Module Dict.

Definition t (V : Type) := list (string * V).

Fixpoint get {V} (d : t V) (key : string) : option V :=
  match d with
  | [] => None
  | (k, v) :: rest => if String.eqb key k then Some v else get rest key
  end.

(** [d[key] = v]: overwrite in place, or append a new entry. *)
Fixpoint set {V} (d : t V) (key : string) (v : V) : t V :=
  match d with
  | [] => [(key, v)]
  | (k, w) :: rest =>
      if String.eqb key k then (k, v) :: rest else (k, w) :: set rest key v
  end.

Definition keys {V} (d : t V) : list string := map fst d.
Definition values {V} (d : t V) : list V := map snd d.

(** [d[key]], raising [KeyError] on a missing key. *)
Definition getitem {V} (d : t V) (key : string) : result V :=
  match get d key with
  | Some v => Ok v
  | None => Raise (KeyError key)
  end.

End Dict.

(** ** Sorting and duplicate removal, generic in the order *)

Section Ordered.
Context {A : Type} (leb eqb : A -> A -> bool).

Fixpoint insert_sorted (x : A) (l : list A) : list A :=
  match l with
  | [] => [x]
  | y :: t => if leb x y then x :: l else y :: insert_sorted x t
  end.

(** Python's [sorted]. *)
Definition sorted (l : list A) : list A := fold_right insert_sorted [] l.

(** [Series.unique()]: distinct values in order of first appearance. *)
Fixpoint unique (l : list A) : list A :=
  match l with
  | [] => []
  | x :: t => x :: filter (fun y => negb (eqb x y)) (unique t)
  end.

(** Position of the first element equal to [x]. *)
Fixpoint index_of (x : A) (l : list A) : nat :=
  match l with
  | [] => 0
  | y :: t => if eqb x y then 0 else S (index_of x t)
  end.
End Ordered.

(** ** The pandas frame *)

Inductive Series : Type :=
| Float64 (vs : list Q)
| Int64 (vs : list Z)
| Object (vs : list string).

Definition DataFrame := list (string * Series).

Module Frame.

Definition series_length (s : Series) : nat :=
  match s with
  | Float64 vs => length vs
  | Int64 vs => length vs
  | Object vs => length vs
  end.

(** [Series.tolist()]. *)
Definition tolist (s : Series) : list pyobj :=
  match s with
  | Float64 vs => map PyFloat vs
  | Int64 vs => map PyInt vs
  | Object vs => map PyStr vs
  end.

Definition columns (df : DataFrame) : list string := map fst df.

(** [col in df.columns]. *)
Definition has_column (col : string) (df : DataFrame) : bool :=
  existsb (String.eqb col) (columns df).

(** [len(df)]. *)
Definition nrows (df : DataFrame) : nat :=
  match df with
  | [] => 0
  | (_, s) :: _ => series_length s
  end.

(** [df[col]]. *)
Definition get_column (df : DataFrame) (col : string) : option Series :=
  Dict.get df col.

(** [df[col] = s]. *)
Definition set_column (df : DataFrame) (col : string) (s : Series) : DataFrame :=
  Dict.set df col s.

(** The dtypes [select_dtypes(include=[np.number])] keeps. *)
Definition is_number (s : Series) : bool :=
  match s with
  | Float64 _ | Int64 _ => true
  | Object _ => false
  end.

Definition select_dtypes_number (df : DataFrame) : DataFrame :=
  filter (fun cs => is_number (snd cs)) df.

(** The values of a numeric column as floats. *)
Definition to_float (s : Series) : list Q :=
  match s with
  | Float64 vs => vs
  | Int64 vs => map inject_Z vs
  | Object _ => []
  end.

(** A frame as a row-major matrix (what an estimator receives). *)
Definition to_matrix (df : DataFrame) : list (list Q) :=
  map (fun i => map (fun cs => nth i (to_float (snd cs)) 0%Q) df)
      (seq 0 (nrows df)).

(** Keep the positions where the mask is true. *)
Fixpoint mask_list {A} (mask : list bool) (l : list A) : list A :=
  match mask, l with
  | b :: mask', x :: l' =>
      if b then x :: mask_list mask' l' else mask_list mask' l'
  | _, _ => []
  end.

Definition mask_series (mask : list bool) (s : Series) : Series :=
  match s with
  | Float64 vs => Float64 (mask_list mask vs)
  | Int64 vs => Int64 (mask_list mask vs)
  | Object vs => Object (mask_list mask vs)
  end.

(** [df[mask]] for a boolean mask. *)
Definition select_rows (df : DataFrame) (mask : list bool) : DataFrame :=
  map (fun cs => (fst cs, mask_series mask (snd cs))) df.

(** [df[col] == v] for an integer column. *)
Definition int_column (df : DataFrame) (col : string) : list Z :=
  match get_column df col with
  | Some (Int64 vs) => vs
  | _ => []
  end.

Definition eq_mask (df : DataFrame) (col : string) (v : Z) : list bool :=
  map (Z.eqb v) (int_column df col).

(** [df.to_dict(orient="records")]. *)
Definition to_dict_records (df : DataFrame) : list pyobj :=
  map (fun i => PyDict (map (fun cs => (fst cs, nth i (tolist (snd cs)) PyNone)) df))
      (seq 0 (nrows df)).

(** What [pd.read_csv] hands over: every column has one cell per row and
    column names are distinct (the reader renames duplicates). *)
Definition well_formed (df : DataFrame) : bool :=
  forallb (fun cs => series_length (snd cs) =? nrows df) df
  && forallb (fun c => count_occ string_dec (columns df) c =? 1) (columns df).

End Frame.

(** ** scikit-learn: the estimators the pipeline calls *)

Module Sklearn.

Definition Qltb (x y : Q) : bool := negb (Qle_bool y x).

(** *** LabelEncoder

    [classes_] are the sorted distinct values; [transform] replaces a
    value by its position in [classes_]. *)
Section LabelEncoder.
Context {A : Type} (leb eqb : A -> A -> bool).

Definition classes_of (y : list A) : list A := sorted leb (unique eqb y).

Definition encode (y : list A) : list Z :=
  map (fun v => Z.of_nat (index_of eqb v (classes_of y))) y.
End LabelEncoder.

(** A fitted encoder: its [classes_]. *)
Definition LabelEncoder := Series.

Definition LabelEncoder_fit_transform (s : Series) : Series * LabelEncoder :=
  match s with
  | Float64 vs => (Int64 (encode Qle_bool Qeq_bool vs),
                   Float64 (classes_of Qle_bool Qeq_bool vs))
  | Int64 vs => (Int64 (encode Z.leb Z.eqb vs),
                 Int64 (classes_of Z.leb Z.eqb vs))
  | Object vs => (Int64 (encode String.leb String.eqb vs),
                  Object (classes_of String.leb String.eqb vs))
  end.

(** *** StandardScaler *)
Section StandardScaler.
(** [np.sqrt]. *)
Variable sqrt : Q -> Q.

Definition Qsum (l : list Q) : Q := fold_right Qplus 0%Q l.

Definition n_samples_of (vs : list Q) : Q := inject_Z (Z.of_nat (length vs)).

Definition mean (vs : list Q) : Q := (Qsum vs / n_samples_of vs)%Q.

(** Population variance: divided by n. *)
Definition variance (vs : list Q) : Q :=
  (Qsum (map (fun v => (v - mean vs) * (v - mean vs)) vs) / n_samples_of vs)%Q.

(** [_handle_zeros_in_scale]: a scale of zero, or of a constant
    feature, becomes 1. *)
Definition handle_zeros_in_scale (constant : bool) (s : Q) : Q :=
  if constant || Qeq_bool s 0 then 1%Q else s.

Definition scale_of (vs : list Q) : Q :=
  handle_zeros_in_scale (Qeq_bool (variance vs) 0) (sqrt (variance vs)).



(** The same with the cells as floats of the model: [scale_of] is
    never zero (lemma [scale_of_nonzero]), so this is [transform_cells]
    with the [Some] removed (lemma [transform_cells_column]). *)
Definition transform_column (vs : list Q) : list Q :=
  map (fun v => ((v - mean vs) / scale_of vs)%Q) vs.

(** A fitted scaler: [mean_], [var_] and [scale_], one per feature. *)
Record StandardScaler : Type := {
  mean_ : list Q;
  var_ : list Q;
  scale_ : list Q
}.

Definition StandardScaler_new : StandardScaler :=
  {| mean_ := []; var_ := []; scale_ := [] |}.

Definition StandardScaler_fit (cols : list (list Q)) : StandardScaler :=
  {| mean_ := map mean cols;
     var_ := map variance cols;
     scale_ := map scale_of cols |}.

(** [fit_transform] on the columns of a frame with [n_samples] rows;
    input validation asks for at least one sample. *)
Definition StandardScaler_fit_transform (n_samples : nat) (cols : list (list Q))
  : result (list (list Q) * StandardScaler) :=
  if n_samples =? 0 then Raise EstimatorValueError
  else Ok (map transform_column cols, StandardScaler_fit cols).
End StandardScaler.

(** *** KMeans *)
Section KMeans.
(** The centroid search (seeding from the random state, [n_init]
    restarts of Lloyd's iteration, best inertia kept): the fitted
    [cluster_centers_]. *)
Variable cluster_centers :
  forall (seed : nat) (n_init : nat) (n_clusters : Z) (X : list (list Q)),
    list (list Q).

Fixpoint sq_dist (x c : list Q) : Q :=
  match x, c with
  | a :: x', b :: c' => ((a - b) * (a - b) + sq_dist x' c')%Q
  | _, _ => 0%Q
  end.

(** Index of the closest centre, the lowest index on a tie. *)
Fixpoint argmin_from (x : list Q) (best : nat) (best_d : Q) (i : nat)
         (centers : list (list Q)) : nat :=
  match centers with
  | [] => best
  | c :: rest =>
      if Qltb (sq_dist x c) best_d
      then argmin_from x i (sq_dist x c) (S i) rest
      else argmin_from x best best_d (S i) rest
  end.

Definition nearest (centers : list (list Q)) (x : list Q) : nat :=
  match centers with
  | [] => 0
  | c :: rest => argmin_from x 0 (sq_dist x c) 1 rest
  end.

(** [labels_]: every sample goes to its closest centre. *)
Definition assign_labels (centers : list (list Q)) (X : list (list Q)) : list Z :=
  map (fun x => Z.of_nat (nearest centers x)) X.

(** [KMeans(n_clusters, random_state, n_init).fit_predict(X)].
    [global_rng] is the state of NumPy's global generator, used only
    when [random_state] is [None]. *)
Definition KMeans_fit_predict (global_rng : nat) (n_clusters : Z)
           (random_state : option nat) (n_init : nat) (X : list (list Q))
  : result (list Z) :=
  if (n_clusters <? 1)%Z then Raise EstimatorValueError
  else if (Z.of_nat (length X) <? n_clusters)%Z then Raise EstimatorValueError
  else
    let seed := match random_state with
                | Some s => s
                | None => global_rng
                end in
    Ok (assign_labels (cluster_centers seed n_init n_clusters X) X).
End KMeans.

End Sklearn.

(** ** The json module: [json.dumps(obj, indent=...)] *)

Module Json.

Definition quote : ascii := ascii_of_nat 34.
Definition backslash : ascii := ascii_of_nat 92.

Definition hex_digit (n : nat) : ascii :=
  if n <? 10 then ascii_of_nat (48 + n) else ascii_of_nat (87 + n).

(** One character of [py_encode_basestring_ascii]. *)
Definition escape_char (c : ascii) : string :=
  let n := nat_of_ascii c in
  if n =? 34 then String backslash (String quote EmptyString)
  else if n =? 92 then String backslash (String backslash EmptyString)
  else if n =? 10 then String backslash "n"
  else if n =? 13 then String backslash "r"
  else if n =? 9 then String backslash "t"
  else if n =? 8 then String backslash "b"
  else if n =? 12 then String backslash "f"
  else if (32 <=? n) && (n <=? 126) then String c EmptyString
  else String backslash
         (String "u" (String "0" (String "0"
            (String (hex_digit (n / 16)) (String (hex_digit (n mod 16)) EmptyString))))).

Fixpoint escape (s : string) : string :=
  match s with
  | EmptyString => EmptyString
  | String c rest => (escape_char c ++ escape rest)%string
  end.

Definition encode_str (s : string) : string :=
  String quote (escape s ++ String quote EmptyString)%string.

(** [str(n)] for an integer. *)
Definition str_int (n : Z) : string := NilZero.string_of_int (Z.to_int n).

Definition newline : string := String (ascii_of_nat 10) EmptyString.

Fixpoint spaces (n : nat) : string :=
  match n with
  | O => EmptyString
  | S n' => String " " (spaces n')
  end.

(** A line break followed by the indentation of nesting depth [level]. *)
Definition newline_indent (indent level : nat) : string :=
  (newline ++ spaces (indent * level))%string.

Section Dumps.
(** [float.__repr__]. *)
Variable float_repr : Q -> string.

Variable indent : nat.

Definition join (sep : string) (parts : list string) : string :=
  String.concat sep parts.

Fixpoint encode (level : nat) (o : pyobj) : string :=
  match o with
  | PyNone => "null"
  | PyInt n => str_int n
  | PyFloat q => float_repr q
  | PyStr s => encode_str s
  | PyList items =>
      match items with
      | [] => "[]"
      | _ =>
          ("[" ++ newline_indent indent (S level)
               ++ join ("," ++ newline_indent indent (S level))
                       (map (encode (S level)) items)
               ++ newline_indent indent level ++ "]")%string
      end
  | PyDict items =>
      match items with
      | [] => "{}"
      | _ =>
          ("{" ++ newline_indent indent (S level)
               ++ join ("," ++ newline_indent indent (S level))
                       (map (fun kv => (encode_str (fst kv) ++ ": "
                                        ++ encode (S level) (snd kv))%string)
                            items)
               ++ newline_indent indent level ++ "}")%string
      end
  end.

Definition dumps (o : pyobj) : string := encode 0 o.
End Dumps.

End Json.

(** ** The json module: [json.loads] *)

(** JSON text as a reader sees it: numbers are kept as their tokens. *)
Inductive json : Type :=
| JNull
| JBool (b : bool)
| JNumber (token : string)
| JString (s : string)
| JArray (items : list json)
| JObject (members : list (string * json)).

Module JsonReader.

Definition is_ws (c : ascii) : bool :=
  let n := nat_of_ascii c in
  (n =? 32) || (n =? 10) || (n =? 13) || (n =? 9).

Fixpoint skip_ws (s : string) : string :=
  match s with
  | EmptyString => EmptyString
  | String c r => if is_ws c then skip_ws r else s
  end.

Definition is_digit (c : ascii) : bool :=
  let n := nat_of_ascii c in (48 <=? n) && (n <=? 57).

(** Characters of a number token. *)
Definition number_char (c : ascii) : bool :=
  let n := nat_of_ascii c in
  is_digit c || (n =? 45) || (n =? 43) || (n =? 46) || (n =? 101) || (n =? 69).

Definition number_start (c : ascii) : bool :=
  is_digit c || (nat_of_ascii c =? 45).

Fixpoint span_number (s : string) : string * string :=
  match s with
  | EmptyString => (EmptyString, EmptyString)
  | String c r =>
      if number_char c
      then let (tok, rest) := span_number r in (String c tok, rest)
      else (EmptyString, s)
  end.

Definition hex_value (c : ascii) : option nat :=
  let n := nat_of_ascii c in
  if (48 <=? n) && (n <=? 57) then Some (n - 48)
  else if (97 <=? n) && (n <=? 102) then Some (n - 87)
  else if (65 <=? n) && (n <=? 70) then Some (n - 55)
  else None.

(** The character an escape letter stands for. *)
Definition unescape (e : ascii) : option ascii :=
  let n := nat_of_ascii e in
  if n =? 34 then Some Json.quote
  else if n =? 92 then Some Json.backslash
  else if n =? 47 then Some "/"%char
  else if n =? 110 then Some (ascii_of_nat 10)
  else if n =? 114 then Some (ascii_of_nat 13)
  else if n =? 116 then Some (ascii_of_nat 9)
  else if n =? 98 then Some (ascii_of_nat 8)
  else if n =? 102 then Some (ascii_of_nat 12)
  else None.

(** A string after its opening quote: the decoded text and what follows
    the closing quote.  Escapes above code point 255 are not read. *)
Fixpoint read_string (s : string) : option (string * string) :=
  match s with
  | EmptyString => None
  | String c r =>
      if Ascii.eqb c Json.quote then Some (EmptyString, r)
      else if Ascii.eqb c Json.backslash then
        match r with
        | String e r1 =>
            if Ascii.eqb e "u" then
              match r1 with
              | String h1 (String h2 (String h3 (String h4 r2))) =>
                  match hex_value h1, hex_value h2, hex_value h3, hex_value h4 with
                  | Some 0, Some 0, Some a, Some b =>
                      match read_string r2 with
                      | Some (t, rest) => Some (String (ascii_of_nat (16 * a + b)) t, rest)
                      | None => None
                      end
                  | _, _, _, _ => None
                  end
              | _ => None
              end
            else
              match unescape e with
              | Some ch =>
                  match read_string r1 with
                  | Some (t, rest) => Some (String ch t, rest)
                  | None => None
                  end
              | None => None
              end
        | EmptyString => None
        end
      else
        match read_string r with
        | Some (t, rest) => Some (String c t, rest)
        | None => None
        end
  end.

Fixpoint strip_prefix (word s : string) : option string :=
  match word with
  | EmptyString => Some s
  | String w word' =>
      match s with
      | String c s' => if Ascii.eqb w c then strip_prefix word' s' else None
      | EmptyString => None
      end
  end.

Definition read_literal (s : string) : option (json * string) :=
  match strip_prefix "null" s with
  | Some rest => Some (JNull, rest)
  | None =>
      match strip_prefix "true" s with
      | Some rest => Some (JBool true, rest)
      | None =>
          match strip_prefix "false" s with
          | Some rest => Some (JBool false, rest)
          | None => None
          end
      end
  end.

Fixpoint read_value (fuel : nat) (s : string) : option (json * string) :=
  match fuel with
  | O => None
  | S fuel =>
      match s with
      | EmptyString => None
      | String c r =>
          if Ascii.eqb c "{" then
            match skip_ws r with
            | String c' r' =>
                if Ascii.eqb c' "}" then Some (JObject [], r')
                else option_map (fun mr => (JObject (fst mr), snd mr)) (read_members fuel r)
            | EmptyString => None
            end
          else if Ascii.eqb c "[" then
            match skip_ws r with
            | String c' r' =>
                if Ascii.eqb c' "]" then Some (JArray [], r')
                else option_map (fun ir => (JArray (fst ir), snd ir)) (read_items fuel r)
            | EmptyString => None
            end
          else if Ascii.eqb c Json.quote then
            option_map (fun tr => (JString (fst tr), snd tr)) (read_string r)
          else if number_start c then
            let (tok, rest) := span_number s in Some (JNumber tok, rest)
          else read_literal s
      end
  end
with read_members (fuel : nat) (s : string) : option (list (string * json) * string) :=
  match fuel with
  | O => None
  | S fuel =>
      match skip_ws s with
      | String q r =>
          if Ascii.eqb q Json.quote then
            match read_string r with
            | Some (key, r1) =>
                match skip_ws r1 with
                | String colon r2 =>
                    if Ascii.eqb colon ":" then
                      match read_value fuel (skip_ws r2) with
                      | Some (v, r3) =>
                          match skip_ws r3 with
                          | String d r4 =>
                              if Ascii.eqb d "," then
                                match read_members fuel r4 with
                                | Some (ms, r5) => Some ((key, v) :: ms, r5)
                                | None => None
                                end
                              else if Ascii.eqb d "}" then Some ([(key, v)], r4)
                              else None
                          | EmptyString => None
                          end
                      | None => None
                      end
                    else None
                | EmptyString => None
                end
            | None => None
            end
          else None
      | EmptyString => None
      end
  end
with read_items (fuel : nat) (s : string) : option (list json * string) :=
  match fuel with
  | O => None
  | S fuel =>
      match read_value fuel (skip_ws s) with
      | Some (v, r1) =>
          match skip_ws r1 with
          | String d r2 =>
              if Ascii.eqb d "," then
                match read_items fuel r2 with
                | Some (vs, r3) => Some (v :: vs, r3)
                | None => None
                end
              else if Ascii.eqb d "]" then Some ([v], r2)
              else None
          | EmptyString => None
          end
      | None => None
      end
  end.

(** [json.loads]: one value between blanks, and nothing else. *)
Definition loads (fuel : nat) (s : string) : option json :=
  match read_value fuel (skip_ws s) with
  | Some (v, rest) =>
      match skip_ws rest with
      | EmptyString => Some v
      | _ => None
      end
  | None => None
  end.

End JsonReader.

(** The JSON value a Python object is written as. *)
Section ToJson.
Variable float_repr : Q -> string.

Fixpoint to_json (o : pyobj) : json :=
  match o with
  | PyNone => JNull
  | PyInt n => JNumber (Json.str_int n)
  | PyFloat q => JNumber (float_repr q)
  | PyStr s => JString s
  | PyList items => JArray (map to_json items)
  | PyDict items => JObject (map (fun kv => (fst kv, to_json (snd kv))) items)
  end.
End ToJson.

(** Nodes of an object, with one more for every entry of a container. *)
Fixpoint size (o : pyobj) : nat :=
  match o with
  | PyList items => S (list_sum (map (fun x => S (size x)) items))
  | PyDict items => S (list_sum (map (fun kv => S (size (snd kv))) items))
  | _ => 1
  end.

(** Texts made of number characters only, and number tokens: a digit or
    a minus sign first, then number characters. *)
Fixpoint number_chars (s : string) : bool :=
  match s with
  | EmptyString => true
  | String c r => JsonReader.number_char c && number_chars r
  end.

Definition number_token (s : string) : bool :=
  match s with
  | EmptyString => false
  | String c r => JsonReader.number_start c && number_chars r
  end.

(** ** app/services/clustering.py *)

Import Frame Sklearn.

Definition is_empty {A} (l : list A) : bool :=
  match l with
  | [] => true
  | _ => false
  end.

Definition candidate_columns : list string :=
  [ "gaming_platform_top1";
    "social_platform_top1";
    "ott_top1";
    "content_creation_freq" ]%string.

(** The body of the encoding loop: [df[col] = encoder.fit_transform(df[col])]
    and [encoders[col] = encoder].  (The loop only visits columns of the
    frame, so the [None] case is not reached.) *)
Definition encode_column (acc : DataFrame * Dict.t LabelEncoder) (col : string)
  : DataFrame * Dict.t LabelEncoder :=
  let (df, encoders) := acc in
  match get_column df col with
  | Some s =>
      let (codes, encoder) := LabelEncoder_fit_transform s in
      (set_column df col codes, Dict.set encoders col encoder)
  | None => acc
  end.

(** Label-encode the supported categorical columns that exist. *)
Definition _encode_categorical_columns (df : DataFrame)
  : DataFrame * Dict.t LabelEncoder :=
  let cat_cols := filter (fun col => has_column col df) candidate_columns in
  if is_empty cat_cols then (df, [])
  else fold_left encode_column cat_cols (df, []).

(** [df[numeric_cols] = values]: the numeric columns, in frame order, take
    the columns of the transformed matrix. *)
Fixpoint assign_numeric (df : DataFrame) (values : list (list Q)) : DataFrame :=
  match df with
  | [] => []
  | (c, s) :: rest =>
      if is_number s then
        match values with
        | v :: values' => (c, Float64 v) :: assign_numeric rest values'
        | [] => (c, s) :: rest
        end
      else (c, s) :: assign_numeric rest values
  end.

Definition msg_missing_name : string :=
  "Dataset must contain a 'name' column for person identification.".

Definition msg_no_numeric : string :=
  "Dataset must contain at least one numeric column for clustering.".

(** [f"Cluster {cluster_id}"]. *)
Definition cluster_label (cluster_id : Z) : string :=
  ("Cluster " ++ Json.str_int cluster_id)%string.

Section Pipeline.
(** [pd.read_csv] on the uploaded bytes. *)
Variable read_csv : string -> result DataFrame.
(** [np.sqrt], as used by StandardScaler. *)
Variable sqrt : Q -> Q.
(** The centroid search of KMeans. *)
Variable cluster_centers : nat -> nat -> Z -> list (list Q) -> list (list Q).

(** Standard-scale the numeric columns if any exist. *)
Definition _scale_numeric_columns (df : DataFrame)
  : result (DataFrame * list string * StandardScaler) :=
  let numeric_cols := columns (select_dtypes_number df) in
  if is_empty numeric_cols then Ok (df, numeric_cols, StandardScaler_new)
  else
    ' (values, scaler) <-
        StandardScaler_fit_transform sqrt (nrows df)
          (map (fun cs => to_float (snd cs)) (select_dtypes_number df)) ;;
    Ok (assign_numeric df values, numeric_cols, scaler).

(** The summary loop: one entry per distinct label, ascending. *)
Definition summarize (df : DataFrame) : Dict.t pyobj :=
  fold_left
    (fun (clusters_summary : Dict.t pyobj) cluster_id =>
       let persons_in_cluster :=
         match get_column (select_rows df (eq_mask df "Cluster" cluster_id)) "name" with
         | Some s => tolist s
         | None => []
         end in
       Dict.set clusters_summary (cluster_label cluster_id) (PyList persons_in_cluster))
    (sorted Z.leb (unique Z.eqb (int_column df "Cluster")))
    [].

(** The pipeline on the parsed frame (everything after [pd.read_csv]).
    [global_rng] is the state of NumPy's global generator when the
    request is served. *)
Definition cluster_frame (global_rng : nat) (df : DataFrame) (k_opt : Z)
  : result pyobj :=
  if negb (has_column "name" df) then Raise (ValueError msg_missing_name)
  else
    let (df, _) := _encode_categorical_columns df in
    ' (df, numeric_cols, _) <- _scale_numeric_columns df ;;
    if is_empty numeric_cols then Raise (ValueError msg_no_numeric)
    else
      let X := select_dtypes_number df in
      labels <- KMeans_fit_predict cluster_centers global_rng k_opt (Some 42) 10
                  (to_matrix X) ;;
      let df := set_column df "Cluster" (Int64 labels) in
      let clusters_summary := summarize df in
      Ok (PyDict [ ("number_of_clusters", PyInt k_opt);
                   ("clusters", PyDict clusters_summary);
                   ("raw_clusters", PyList (to_dict_records df)) ]%string).

Definition run_clustering_pipeline (global_rng : nat) (file_bytes : string)
           (k_opt : Z) : result pyobj :=
  df <- read_csv file_bytes ;;
  cluster_frame global_rng df k_opt.

(** [float.__repr__], for the JSON text. *)
Variable float_repr : Q -> string.

(** Serialize clustering results to a JSON string. *)
Definition serialize_clusters_to_json (clustering_result : Dict.t pyobj)
  : result string :=
  number_of_clusters <- Dict.getitem clustering_result "number_of_clusters" ;;
  clusters <- Dict.getitem clustering_result "clusters" ;;
  let payload := PyDict [ ("number_of_clusters", number_of_clusters);
                          ("clusters", clusters) ]%string in
  Ok (Json.dumps float_repr 2 payload).
End Pipeline.

(** ** Reference instances of the parameters

    Small executable stand-ins for the library parts the development is
    parametric in; the examples run the pipeline with them. *)

Module Reference.

(** Split a text at every occurrence of a separator. *)
Fixpoint split (sep : ascii) (s : string) : list string :=
  match s with
  | EmptyString => [EmptyString]
  | String c rest =>
      match split sep rest with
      | [] => [String c EmptyString]
      | w :: ws =>
          if Ascii.eqb c sep then EmptyString :: w :: ws else String c w :: ws
      end
  end.

Definition parse_int (cell : string) : option Z :=
  option_map Z.of_int (NilZero.int_of_string cell).

Fixpoint parse_ints (cells : list string) : option (list Z) :=
  match cells with
  | [] => Some []
  | c :: rest =>
      match parse_int c, parse_ints rest with
      | Some z, Some zs => Some (z :: zs)
      | _, _ => None
      end
  end.

(** Column type inference: integers when every cell is one, text
    otherwise; a column without cells is text. *)
Definition infer (cells : list string) : Series :=
  match cells with
  | [] => Object []
  | _ =>
      match parse_ints cells with
      | Some zs => Int64 zs
      | None => Object cells
      end
  end.

(** A CSV reader for comma-separated integer and text cells: a header
    line, then one line per row; blank lines are skipped. *)
Definition read_csv (text : string) : result DataFrame :=
  match filter (fun l => negb (String.eqb l "")) (split (ascii_of_nat 10) text) with
  | [] => Raise (ParserError "No columns to parse from file")
  | header :: rows =>
      let table := map (split ",") rows in
      Ok (map (fun jc => (snd jc, infer (map (fun row => nth (fst jc) row ""%string) table)))
              (combine (seq 0 (length (split "," header))) (split "," header)))
  end.

(** Square root by Newton's iteration on the rationals. *)
Fixpoint newton (steps : nat) (x y : Q) : Q :=
  match steps with
  | O => y
  | S n => newton n x (Qred ((y + x / y) / 2))
  end.

Definition sqrt (x : Q) : Q :=
  if Qle_bool x 0 then 0%Q else newton 6 x 1.

(** A centroid search that stops at its seeding: the first [n_clusters]
    samples are the centres. *)
Definition cluster_centers (seed n_init : nat) (n_clusters : Z) (X : list (list Q))
  : list (list Q) :=
  firstn (Z.to_nat n_clusters) X.

(** Floats printed in scientific form with six decimal places: 1.5 is
    written 1500000e-6. *)
Definition float_repr (q : Q) : string :=
  (Json.str_int (Qnum q * 1000000 / Zpos (Qden q)) ++ "e-6")%string.

(** The uploads used in the examples. *)
Definition csv_people : string :=
"name,age,gaming_platform_top1
Alice,20,PC
Bob,45,Console
Carol,22,PC
Dan,50,Console
".

Definition csv_constant : string :=
"name,age
Ann,7
Ben,7
Cho,7
".

Definition csv_numeric_name : string :=
"name
1
2
3
".

Definition csv_no_name : string :=
"Name,age
Ann,31
Ben,47
".

Definition csv_text_only : string :=
"name,city
Ann,Paris
Ben,Rome
".

Definition frame_people : DataFrame :=
  [ ("name", Object ["Alice"; "Bob"; "Carol"; "Dan"]);
    ("age", Int64 [20; 45; 22; 50]%Z);
    ("gaming_platform_top1", Object ["PC"; "Console"; "PC"; "Console"]) ]%string.

Definition frame_constant : DataFrame :=
  [ ("name", Object ["Ann"; "Ben"; "Cho"]);
    ("age", Int64 [7; 7; 7]%Z) ]%string.

Definition frame_numeric_name : DataFrame :=
  [ ("name", Int64 [1; 2; 3]%Z) ]%string.

Definition frame_no_name : DataFrame :=
  [ ("Name", Object ["Ann"; "Ben"]);
    ("age", Int64 [31; 47]%Z) ]%string.

Definition frame_text_only : DataFrame :=
  [ ("name", Object ["Ann"; "Ben"]);
    ("city", Object ["Paris"; "Rome"]) ]%string.

(** The pipeline with the reference instances. *)
Definition run (file_bytes : string) (k_opt : Z) : result pyobj :=
  run_clustering_pipeline read_csv sqrt cluster_centers 0 file_bytes k_opt.

(** What the reference pipeline returns on the examples. *)
Definition result_or_none (m : result pyobj) : pyobj :=
  match m with
  | Ok r => r
  | Raise _ => PyNone
  end.

Definition people_result : pyobj :=
  Eval vm_compute in result_or_none (run csv_people 2).

Definition constant_result : pyobj :=
  Eval vm_compute in result_or_none (run csv_constant 3).

Definition numeric_name_result : pyobj :=
  Eval vm_compute in result_or_none (run csv_numeric_name 2).

Definition people_dict : Dict.t pyobj :=
  Eval vm_compute in
    match people_result with
    | PyDict d => d
    | _ => []
    end.

End Reference.

(** ** app/main.py *)

(** *** The string methods the upload handler uses *)

Module Text.

(** [str.lower] on one character (code points below 256: the ASCII
    capitals and the Latin-1 capitals, the multiplication sign apart). *)
Definition lower_char (c : ascii) : ascii :=
  let n := nat_of_ascii c in
  if ((65 <=? n) && (n <=? 90))
     || ((192 <=? n) && (n <=? 222) && negb (n =? 215))
  then ascii_of_nat (n + 32)
  else c.

Fixpoint lower (s : string) : string :=
  match s with
  | EmptyString => EmptyString
  | String c r => String (lower_char c) (lower r)
  end.

(** [s.endswith(suffix)]. *)
Definition endswith (s suffix : string) : bool :=
  (String.length suffix <=? String.length s)
  && String.eqb (String.substring (String.length s - String.length suffix)
                                  (String.length suffix) s)
                suffix.

End Text.

(** *** TaskManager: the in-memory task registry *)

Module TaskManager.

(** One entry of [_tasks]: the dictionary with the keys "status",
    "result" and "error" that every method writes whole. *)
Record Task : Type := {
  t_status : string;
  t_result : pyobj;
  t_error : pyobj
}.

(** [self._tasks]. *)
Definition t := Dict.t Task.

Definition init : t := [].

Definition create_task (tasks : t) (task_id : string) : t :=
  Dict.set tasks task_id
    {| t_status := "processing"; t_result := PyNone; t_error := PyNone |}.

Definition set_result (tasks : t) (task_id : string) (r : pyobj) : t :=
  Dict.set tasks task_id
    {| t_status := "completed"; t_result := r; t_error := PyNone |}.

Definition set_error (tasks : t) (task_id : string) (error : string) : t :=
  Dict.set tasks task_id
    {| t_status := "failed"; t_result := PyNone; t_error := PyStr error |}.

Definition get (tasks : t) (task_id : string) : result Task :=
  Dict.getitem tasks task_id.

End TaskManager.

(** *** The responses of the handlers *)

Inductive Response : Type :=
| HTTPException (status_code : nat) (detail : string)
| RedirectResponse (url : string) (status_code : nat)
| TemplateResponse (name : string) (context : Dict.t pyobj)
| JSONResponse (content : Dict.t pyobj)
| ContentResponse (content : string) (media_type : string)
                  (headers : Dict.t string)
| InternalServerError.

Section Service.
Variable read_csv : string -> result DataFrame.
Variable sqrt : Q -> Q.
Variable cluster_centers : nat -> nat -> Z -> list (list Q) -> list (list Q).
Variable float_repr : Q -> string.
(** [str(exc)] for the exceptions whose text is the libraries'. *)
Variable library_text : Exception -> string.
(** [request.url_for(name, task_id=...)]. *)
Variable url_for : string -> string -> string.

(** [str(exc)]: the message of a [ValueError] the pipeline raised. *)
Definition str_exception (exc : Exception) : string :=
  match exc with
  | ValueError msg => msg
  | _ => library_text exc
  end.

(** Background task that runs the clustering pipeline (with the default
    [k_opt=3]). *)
Definition process_file_task (global_rng : nat) (tasks : TaskManager.t)
           (task_id : string) (file_bytes : string) : TaskManager.t :=
  match run_clustering_pipeline read_csv sqrt cluster_centers global_rng file_bytes 3 with
  | Raise exc => TaskManager.set_error tasks task_id (str_exception exc)
  | Ok r => TaskManager.set_result tasks task_id r
  end.

(** [GET /]. *)
Definition upload_form : Response := TemplateResponse "upload.html" [].

(** [POST /upload]: the registry after the request, the background task
    it scheduled (task id and bytes), and the response.  [new_id] is what
    [generate_task_id()] returns if it is called. *)
Definition upload_file (tasks : TaskManager.t) (new_id : string)
           (filename : option string) (file_bytes : string)
  : TaskManager.t * option (string * string) * Response :=
  match filename with
  | None | Some EmptyString =>
      (tasks, None, HTTPException 400 "No file selected.")
  | Some name =>
      if negb (Text.endswith (Text.lower name) ".csv") then
        (tasks, None, HTTPException 400 "Only CSV files are supported.")
      else if String.eqb file_bytes "" then
        (tasks, None, HTTPException 400 "Uploaded file is empty.")
      else
        let task_id := new_id in
        let tasks := TaskManager.create_task tasks task_id in
        (tasks, Some (task_id, file_bytes),
         RedirectResponse (url_for "processing_view" task_id) 303)
  end.

(** [GET /processing/{task_id}]. *)
Definition processing_view (tasks : TaskManager.t) (task_id : string) : Response :=
  match TaskManager.get tasks task_id with
  | Raise _ => HTTPException 404 "Task not found."
  | Ok _ => TemplateResponse "processing.html" [("task_id", PyStr task_id)]%string
  end.

(** [GET /status/{task_id}]. *)
Definition task_status (tasks : TaskManager.t) (task_id : string) : Response :=
  match TaskManager.get tasks task_id with
  | Raise _ => HTTPException 404 "Task not found."
  | Ok task =>
      let payload : Dict.t pyobj :=
        [("status", PyStr (TaskManager.t_status task))]%string in
      let payload :=
        if String.eqb (TaskManager.t_status task) "completed" then
          Dict.set payload "redirect_url" (PyStr ("/results/" ++ task_id))
        else if String.eqb (TaskManager.t_status task) "failed" then
          Dict.set payload "error" (TaskManager.t_error task)
        else payload in
      JSONResponse payload
  end.

(** [GET /results/{task_id}]. *)
Definition results_view (tasks : TaskManager.t) (task_id : string) : Response :=
  match TaskManager.get tasks task_id with
  | Raise _ => HTTPException 404 "Task not found."
  | Ok task =>
      if String.eqb (TaskManager.t_status task) "processing" then
        RedirectResponse (url_for "processing_view" task_id) 303
      else if String.eqb (TaskManager.t_status task) "failed" then
        TemplateResponse "results.html"
          [ ("task_id", PyStr task_id);
            ("result", PyNone);
            ("error", TaskManager.t_error task) ]%string
      else
        TemplateResponse "results.html"
          [ ("task_id", PyStr task_id);
            ("result", TaskManager.t_result task);
            ("error", PyNone) ]%string
  end.

(** The [Content-Disposition] value of a download. *)
Definition content_disposition (task_id : string) : string :=
  ("attachment; filename=" ++ String Json.quote ("clusters_" ++ task_id ++ ".json")
     ++ String Json.quote EmptyString)%string.

(** [GET /download/{task_id}].  The export is ASCII text, so its UTF-8
    bytes are the text.  A result that cannot be serialized is an
    unhandled exception. *)
Definition download_result (tasks : TaskManager.t) (task_id : string) : Response :=
  match TaskManager.get tasks task_id with
  | Raise _ => HTTPException 404 "Task not found."
  | Ok task =>
      if negb (String.eqb (TaskManager.t_status task) "completed") then
        HTTPException 400 "Result not available."
      else
        match TaskManager.t_result task with
        | PyDict clustering_result =>
            match serialize_clusters_to_json float_repr clustering_result with
            | Ok result_json =>
                ContentResponse result_json "application/json"
                  [ ("Content-Disposition", content_disposition task_id);
                    ("Cache-Control", "no-store") ]%string
            | Raise _ => InternalServerError
            end
        | _ => InternalServerError
        end
  end.
End Service.

(** ** Vocabulary of the statements *)

(** The row numbers, counted from [i], that a mask keeps. *)
Fixpoint positions (mask : list bool) (i : nat) : list nat :=
  match mask with
  | [] => []
  | b :: mask' => if b then i :: positions mask' (S i) else positions mask' (S i)
  end.

(** The rows carrying label [c]. *)
Definition rows_with (labels : list Z) (c : Z) : list nat :=
  positions (map (Z.eqb c) labels) 0.

(** Every column has [n] cells. *)
Definition uniform (n : nat) (df : DataFrame) : Prop :=
  Forall (fun cs => series_length (snd cs) = n) df.

(** What scaling does to one column, and to a frame: the numeric columns
    are replaced by their standardized values, the others are kept. *)
Definition standardize_series (f : list Q -> list Q) (s : Series) : Series :=
  if is_number s then Float64 (f (to_float s)) else s.

Definition standardize (f : list Q -> list Q) (df : DataFrame) : DataFrame :=
  map (fun cs => (fst cs, standardize_series f (snd cs))) df.

(** The frame after encoding and scaling. *)
Definition prepare (sqrt : Q -> Q) (df : DataFrame) : DataFrame :=
  standardize (transform_column sqrt) (fst (_encode_categorical_columns df)).

(** The result dictionary of a run. *)
Definition result_of (k_opt : Z) (df : DataFrame) : pyobj :=
  PyDict [ ("number_of_clusters", PyInt k_opt);
           ("clusters", PyDict (summarize df));
           ("raw_clusters", PyList (to_dict_records df)) ]%string.

(** [result[key]] as an option. *)
Definition field (r : pyobj) (key : string) : option pyobj :=
  match r with
  | PyDict d => Dict.get d key
  | _ => None
  end.

(** [result["clusters"]]: label and members of every cluster. *)
Definition clusters_of (r : pyobj) : Dict.t pyobj :=
  match field r "clusters" with
  | Some (PyDict c) => c
  | _ => []
  end.

Definition members (v : pyobj) : list pyobj :=
  match v with
  | PyList l => l
  | _ => []
  end.

(** The identifier of every row, as the pipeline reports it: the "name"
    column of the prepared frame. *)
Definition identifiers (sqrt : Q -> Q) (df : DataFrame) : list pyobj :=
  match get_column (prepare sqrt df) "name" with
  | Some s => tolist s
  | None => []
  end.

(** The feature matrix handed to KMeans. *)
Definition feature_matrix (sqrt : Q -> Q) (df : DataFrame) : list (list Q) :=
  to_matrix (select_dtypes_number (prepare sqrt df)).

(** The error taxonomy of the specification, read on the exceptions of the
    code: a schema error is a [ValueError] the pipeline raises itself, a
    clustering error is one raised by the estimators. *)
Definition SchemaError (e : Exception) : bool :=
  match e with
  | ValueError _ => true
  | _ => false
  end.

Definition ClusteringError (e : Exception) : bool :=
  match e with
  | EstimatorValueError => true
  | _ => false
  end.

(** [result["raw_clusters"]]: the per-row records. *)
Definition records_of (r : pyobj) : list pyobj :=
  match field r "raw_clusters" with
  | Some (PyList l) => l
  | _ => []
  end.

(** The cluster label of every row, read off the records. *)
Definition assigned_labels (r : pyobj) : list Z :=
  flat_map (fun rec => match field rec "Cluster" with
                       | Some (PyInt l) => [l]
                       | _ => []
                       end)
           (records_of r).

(** The numeric columns after encoding, as the code counts them: the
    identifier column is one of them when its cells are numbers. *)
Definition numeric_after_encoding (df : DataFrame) : list string :=
  columns (select_dtypes_number (fst (_encode_categorical_columns df))).

(** The same set as the specification counts it (section 4.1), with the
    identifier column left out. *)
Definition numeric_features (df : DataFrame) : list string :=
  filter (fun c => negb (String.eqb c "name")) (numeric_after_encoding df).

(** The cells of the "name" column. *)
Definition name_cells (df : DataFrame) : list pyobj :=
  match get_column df "name" with
  | Some s => tolist s
  | None => []
  end.

(** Row [i] of a frame as a record. *)
Definition record_of (df : DataFrame) (i : nat) : Dict.t pyobj :=
  map (fun cs => (fst cs, nth i (tolist (snd cs)) PyNone)) df.

(** *** Vocabulary of the round trip through JSON text *)

(** A text that starts a value: not a blank, not a closing bracket. *)
Definition opens (s : string) : bool :=
  match s with
  | EmptyString => false
  | String c _ => negb (JsonReader.is_ws c) && negb (Ascii.eqb c "]") && negb (Ascii.eqb c "}")
  end.

(** What may follow a number token: nothing, or a character that is not
    part of a number. *)
Definition terminated (rest : string) : bool :=
  match rest with
  | EmptyString => true
  | String c _ => negb (JsonReader.number_char c)
  end.

(** [lead p1 , lead p2 , ... lead pn tail]: the inside of a container. *)
Fixpoint chain (lead : string) (parts : list string) (tail : string) : string :=
  match parts with
  | [] => tail
  | p :: ps =>
      (lead ++ p ++ match ps with
                    | [] => tail
                    | _ => String "," (chain lead ps tail)
                    end)%string
  end.

Definition items_size (items : list pyobj) : nat :=
  list_sum (map (fun x => S (size x)) items).

Definition members_size (items : list (string * pyobj)) : nat :=
  list_sum (map (fun kv => S (size (snd kv))) items).

(** The reader undoes the writer on every value (list of items, list of
    members) that the fuel covers. *)
Definition reads_values (float_repr : Q -> string) (indent fuel : nat) : Prop :=
  forall o level rest,
    size o <= fuel -> terminated rest = true ->
    JsonReader.read_value fuel (Json.encode float_repr indent level o ++ rest)
    = Some (to_json float_repr o, rest).

Definition reads_items (float_repr : Q -> string) (indent fuel : nat) : Prop :=
  forall items a b c rest,
    items <> [] -> items_size items <= fuel ->
    JsonReader.read_items fuel
      (chain (Json.newline_indent indent a)
             (map (Json.encode float_repr indent b) items)
             (Json.newline_indent indent c ++ String "]" rest))
    = Some (map (to_json float_repr) items, rest).

Definition reads_members (float_repr : Q -> string) (indent fuel : nat) : Prop :=
  forall items a b c rest,
    items <> [] -> members_size items <= fuel ->
    JsonReader.read_members fuel
      (chain (Json.newline_indent indent a)
             (map (fun kv => (Json.encode_str (fst kv) ++ ": "
                                ++ Json.encode float_repr indent b (snd kv))%string)
                  items)
             (Json.newline_indent indent c ++ String "}" rest))
    = Some (map (fun kv => (fst kv, to_json float_repr (snd kv))) items, rest).

(** What the two preparation steps do to one column: a recognised
    column is label-encoded, and a column that is numeric by then is
    standardized. *)
Definition encoded_series (col : string) (s : Series) : Series :=
  if existsb (String.eqb col) candidate_columns
  then fst (LabelEncoder_fit_transform s)
  else s.

Definition prepared_series (sqrt : Q -> Q) (col : string) (s : Series) : Series :=
  standardize_series (transform_column sqrt) (encoded_series col s).

(** *** Vocabulary of the service *)

(** An upload that passes the three checks of [upload_file], in their
    order: a file name, ending in ".csv" when lowered, and some bytes. *)
Definition acceptable (filename : option string) (file_bytes : string) : Prop :=
  exists name,
    filename = Some name /\ name <> EmptyString /\
    Text.endswith (Text.lower name) ".csv" = true /\
    file_bytes <> EmptyString.

(** The three shapes of an entry of the registry. *)
Definition pending (task : TaskManager.Task) : Prop :=
  TaskManager.t_status task = "processing"%string /\
  TaskManager.t_result task = PyNone /\
  TaskManager.t_error task = PyNone.

Definition finished (task : TaskManager.Task) : Prop :=
  TaskManager.t_status task = "completed"%string /\
  TaskManager.t_error task = PyNone /\
  exists summary records,
    TaskManager.t_result task
    = PyDict [ ("number_of_clusters", PyInt 3);
               ("clusters", PyDict summary);
               ("raw_clusters", PyList records) ]%string.

Definition broken (task : TaskManager.Task) : Prop :=
  TaskManager.t_status task = "failed"%string /\
  TaskManager.t_result task = PyNone /\
  exists msg, TaskManager.t_error task = PyStr msg.

Definition coherent (task : TaskManager.Task) : Prop :=
  pending task \/ finished task \/ broken task.

(** The registries the service can be in: it starts empty, and the only
    code that writes to it is [upload_file] and [process_file_task].  (The
    background task is run with any id and bytes here, which covers the
    runs the uploads schedule.) *)
Section Reachability.
Variable read_csv : string -> result DataFrame.
Variable sqrt : Q -> Q.
Variable cluster_centers : nat -> nat -> Z -> list (list Q) -> list (list Q).
Variable library_text : Exception -> string.
Variable url_for : string -> string -> string.

Inductive reachable : TaskManager.t -> Prop :=
| reachable_init : reachable TaskManager.init
| reachable_upload tasks new_id filename file_bytes :
    reachable tasks ->
    reachable (fst (fst (upload_file url_for tasks new_id filename file_bytes)))
| reachable_process global_rng tasks task_id file_bytes :
    reachable tasks ->
    reachable (process_file_task read_csv sqrt cluster_centers library_text
                 global_rng tasks task_id file_bytes).
End Reachability.

(** * Properties *)

(** ** Dictionaries *)

Module DictFacts.
Import Dict.

Lemma get_set_same {V} (d : t V) k v : get (set d k v) k = Some v.
Proof.
  induction d as [|[k' w] d IH]; simpl.
  - now rewrite String.eqb_refl.
  - destruct (String.eqb k k') eqn:E; simpl; rewrite E; auto.
Qed.

Lemma get_set_other {V} (d : t V) k k' v :
  k' <> k -> get (set d k v) k' = get d k'.
Proof.
  intros Hne. induction d as [|[k0 w] d IH]; simpl.
  - destruct (String.eqb k' k) eqn:E; auto.
    apply String.eqb_eq in E. contradiction.
  - destruct (String.eqb k k0) eqn:E; simpl.
    + apply String.eqb_eq in E. subst k0.
      destruct (String.eqb k' k) eqn:E'; auto.
      apply String.eqb_eq in E'. contradiction.
    + now rewrite IH.
Qed.

Lemma get_none_not_in {V} (d : t V) k : get d k = None <-> ~ In k (keys d).
Proof.
  induction d as [|[k0 w] d IH]; simpl.
  - tauto.
  - destruct (String.eqb k k0) eqn:E.
    + apply String.eqb_eq in E. subst. split; [discriminate | tauto].
    + apply String.eqb_neq in E. rewrite IH. split.
      * intros H [H1 | H1]; [congruence | tauto].
      * tauto.
Qed.

Lemma set_fresh {V} (d : t V) k v :
  get d k = None -> set d k v = d ++ [(k, v)].
Proof.
  induction d as [|[k0 w] d IH]; simpl; intros H.
  - reflexivity.
  - destruct (String.eqb k k0); [discriminate | now rewrite IH].
Qed.

Lemma keys_set_present {V} (d : t V) k v w :
  get d k = Some w -> keys (set d k v) = keys d.
Proof.
  unfold keys. induction d as [|[k0 w0] d IH]; simpl; intros H.
  - discriminate.
  - destruct (String.eqb k k0); simpl; [reflexivity | now rewrite IH].
Qed.

(** Inserting a run of fresh, pairwise distinct keys appends them in
    order. *)
Lemma fold_set_fresh {A V} (key : A -> string) (val : A -> V) (l : list A) :
  forall d : t V,
    NoDup (map key l) ->
    (forall a, In a l -> get d (key a) = None) ->
    fold_left (fun acc a => set acc (key a) (val a)) l d
    = d ++ map (fun a => (key a, val a)) l.
Proof.
  induction l as [|a l IH]; simpl; intros d Hnd Hfresh.
  - now rewrite app_nil_r.
  - inversion Hnd as [|? ? Hnotin Hnd']; subst.
    rewrite IH; auto.
    + rewrite set_fresh by auto. now rewrite <- app_assoc.
    + intros b Hb.
      rewrite get_set_other.
      * auto.
      * intros E. apply Hnotin. rewrite <- E. now apply in_map.
Qed.

Lemma get_map_snd {V W} (f : string * V -> W) (d : t V) k :
  get (map (fun kv => (fst kv, f kv)) d) k
  = match find (fun kv => String.eqb k (fst kv)) d with
    | Some kv => Some (f kv)
    | None => None
    end.
Proof.
  induction d as [|[k0 w] d IH]; simpl; auto.
  destruct (String.eqb k k0); auto.
Qed.

Lemma get_find {V} (d : t V) k :
  get d k = match find (fun kv => String.eqb k (fst kv)) d with
            | Some kv => Some (snd kv)
            | None => None
            end.
Proof.
  induction d as [|[k0 w] d IH]; simpl; auto.
  destruct (String.eqb k k0); auto.
Qed.

End DictFacts.

(** ** Sorting and duplicate removal on integers *)

Module OrderFacts.

Lemma insert_sorted_perm (x : Z) l :
  Permutation (insert_sorted Z.leb x l) (x :: l).
Proof.
  induction l as [|y l IH]; simpl; auto.
  destruct (Z.leb x y); auto.
  rewrite IH. apply perm_swap.
Qed.

Lemma sorted_perm (l : list Z) : Permutation (sorted Z.leb l) l.
Proof.
  induction l as [|x l IH]; simpl; auto.
  rewrite insert_sorted_perm. now constructor.
Qed.

Lemma insert_sorted_sorted (x : Z) l :
  StronglySorted Z.le l -> StronglySorted Z.le (insert_sorted Z.leb x l).
Proof.
  induction 1 as [|y l Hs IH Hall]; simpl.
  - repeat constructor.
  - destruct (Z.leb x y) eqn:E.
    + apply Z.leb_le in E. constructor.
      * now constructor.
      * constructor; auto.
        eapply Forall_impl; [|exact Hall]. simpl. intros; lia.
    + apply Z.leb_gt in E. constructor; auto.
      eapply Permutation_Forall.
      * symmetry. apply insert_sorted_perm.
      * constructor; auto. lia.
Qed.

Lemma sorted_sorted (l : list Z) : StronglySorted Z.le (sorted Z.leb l).
Proof.
  induction l; simpl; [constructor | now apply insert_sorted_sorted].
Qed.

Lemma unique_In (x : Z) l : In x (unique Z.eqb l) <-> In x l.
Proof.
  induction l as [|y l IH]; simpl; [tauto|].
  rewrite filter_In, IH.
  destruct (Z.eq_dec y x) as [->|Hne].
  - tauto.
  - split.
    + tauto.
    + intros [H|H]; [tauto|]. right. split; auto.
      apply negb_true_iff. now apply Z.eqb_neq.
Qed.

Lemma unique_NoDup (l : list Z) : NoDup (unique Z.eqb l).
Proof.
  induction l as [|y l IH]; simpl; constructor.
  - rewrite filter_In. intros [_ H].
    now rewrite Z.eqb_refl in H.
  - now apply NoDup_filter.
Qed.

Lemma sorted_In (x : Z) l : In x (sorted Z.leb l) <-> In x l.
Proof.
  split; apply Permutation_in;
    [apply sorted_perm | symmetry; apply sorted_perm].
Qed.

Lemma sorted_NoDup (l : list Z) : NoDup l -> NoDup (sorted Z.leb l).
Proof.
  intros H. eapply Permutation_NoDup; [|exact H].
  symmetry. apply sorted_perm.
Qed.

(** Sorted and without repetition: strictly ascending. *)
Lemma strictly_sorted (l : list Z) :
  StronglySorted Z.le l -> NoDup l -> StronglySorted Z.lt l.
Proof.
  induction 1 as [|y l Hs IH Hall]; intros Hnd; constructor;
    inversion Hnd; subst; auto.
  rewrite Forall_forall in *. intros z Hz.
  specialize (Hall z Hz).
  assert (y <> z) by (intros ->; contradiction). lia.
Qed.

Lemma distinct_labels_ascending (l : list Z) :
  StronglySorted Z.lt (sorted Z.leb (unique Z.eqb l)).
Proof.
  apply strictly_sorted.
  - apply sorted_sorted.
  - apply sorted_NoDup, unique_NoDup.
Qed.

End OrderFacts.

(** ** Cluster labels as text *)

Module LabelFacts.

Lemma to_int_not_nil (z : Z) :
  Z.to_int z <> Decimal.Pos Decimal.Nil /\ Z.to_int z <> Decimal.Neg Decimal.Nil.
Proof.
  assert (H : Z.to_int z = Decimal.norm (Z.to_int z)).
  { rewrite <- DecimalZ.to_of. now rewrite DecimalZ.of_to. }
  split; intros E; rewrite E in H; discriminate H.
Qed.

Lemma str_int_inj (a b : Z) : Json.str_int a = Json.str_int b -> a = b.
Proof.
  unfold Json.str_int. intros H.
  destruct (to_int_not_nil a) as [Ha1 Ha2].
  destruct (to_int_not_nil b) as [Hb1 Hb2].
  pose proof (NilZero.isi _ Ha1 Ha2) as Ia.
  pose proof (NilZero.isi _ Hb1 Hb2) as Ib.
  rewrite H in Ia. rewrite Ia in Ib. injection Ib as Ib.
  rewrite <- (DecimalZ.of_to a), <- (DecimalZ.of_to b). now f_equal.
Qed.

Lemma append_inj_r (p s1 s2 : string) :
  (p ++ s1)%string = (p ++ s2)%string -> s1 = s2.
Proof.
  induction p; simpl; intros H; [assumption|].
  injection H as H. auto.
Qed.

Lemma cluster_label_inj (a b : Z) : cluster_label a = cluster_label b -> a = b.
Proof.
  unfold cluster_label. intros H.
  apply str_int_inj. eapply append_inj_r. exact H.
Qed.

Lemma cluster_label_NoDup (l : list Z) :
  NoDup l -> NoDup (map cluster_label l).
Proof.
  induction 1 as [|x l Hx Hnd IH]; simpl; constructor; auto.
  rewrite in_map_iff. intros [y [Hy Hin]].
  apply cluster_label_inj in Hy. now subst.
Qed.

End LabelFacts.

(** ** Boolean masks and the rows they select *)

Module MaskFacts.

Lemma positions_shift mask i :
  positions mask (S i) = map S (positions mask i).
Proof.
  revert i. induction mask as [|b mask IH]; simpl; intros i; auto.
  destruct b; simpl; now rewrite IH.
Qed.

Lemma mask_list_positions {A} (d : A) mask (l : list A) :
  length l = length mask ->
  mask_list mask l = map (fun i => nth i l d) (positions mask 0).
Proof.
  revert l. induction mask as [|b mask IH]; intros [|x l]; simpl; try discriminate; auto.
  intros H. injection H as H.
  destruct b; simpl; rewrite positions_shift, map_map; simpl;
    now rewrite IH.
Qed.

Lemma positions_bounds mask i :
  Forall (fun j => i <= j < i + length mask) (positions mask i).
Proof.
  revert i. induction mask as [|b mask IH]; simpl; intros i; [constructor|].
  assert (H : Forall (fun j => i <= j < i + S (length mask)) (positions mask (S i))).
  { eapply Forall_impl; [|apply IH]. simpl. intros; lia. }
  destruct b; auto. constructor; auto. lia.
Qed.

(** A mask keeps rows in their original order. *)
Lemma positions_ascending mask i : StronglySorted lt (positions mask i).
Proof.
  revert i. induction mask as [|b mask IH]; simpl; intros i; [constructor|].
  destruct b; auto. constructor; auto.
  eapply Forall_impl; [|apply positions_bounds]. simpl. intros; lia.
Qed.

Lemma positions_nonempty (labels : list Z) c i :
  In c labels -> positions (map (Z.eqb c) labels) i <> [].
Proof.
  revert i. induction labels as [|x labels IH]; simpl; intros i; [tauto|].
  intros [->|H].
  - rewrite Z.eqb_refl. discriminate.
  - destruct (Z.eqb c x); [discriminate | auto].
Qed.

Lemma concat_one_hit (P : Z -> list nat) (x : Z) (i : nat) (cs : list Z) :
  NoDup cs -> In x cs ->
  Permutation
    (concat (map (fun c => (if Z.eqb c x then [i] else []) ++ P c) cs))
    (i :: concat (map P cs)).
Proof.
  induction 1 as [|c cs Hc Hnd IH]; simpl; [tauto|].
  intros [->|Hin].
  - rewrite Z.eqb_refl. simpl. constructor.
    apply Permutation_app_head.
    clear IH Hnd. induction cs as [|c cs IH]; simpl; auto.
    destruct (Z.eqb c x) eqn:E.
    + apply Z.eqb_eq in E. subst. simpl in Hc. tauto.
    + simpl. apply Permutation_app_head. apply IH. simpl in Hc. tauto.
  - destruct (Z.eqb c x) eqn:E.
    + apply Z.eqb_eq in E. subst. contradiction.
    + simpl. rewrite IH by assumption. symmetry. apply Permutation_middle.
Qed.

(** The masks of a duplicate-free list of labels that covers every
    label in use split the rows: each row is kept by exactly one. *)
Lemma positions_partition (cs labels : list Z) :
  NoDup cs -> (forall x, In x labels -> In x cs) ->
  forall i,
    Permutation (concat (map (fun c => positions (map (Z.eqb c) labels) i) cs))
                (seq i (length labels)).
Proof.
  intros Hnd. induction labels as [|x labels IH]; intros Hcov i; simpl.
  - clear Hcov Hnd. induction cs; simpl; auto.
  - rewrite <- IH by (intros; apply Hcov; now right).
    rewrite <- (@concat_one_hit
                  (fun c => positions (map (Z.eqb c) labels) (S i)) x i cs Hnd)
      by (apply Hcov; now left).
    apply Permutation_refl'. f_equal. apply map_ext. intros c.
    destruct (Z.eqb c x); reflexivity.
Qed.

Lemma rows_partition (labels : list Z) :
  Permutation
    (concat (map (rows_with labels) (sorted Z.leb (unique Z.eqb labels))))
    (seq 0 (length labels)).
Proof.
  unfold rows_with. apply positions_partition.
  - apply OrderFacts.sorted_NoDup, OrderFacts.unique_NoDup.
  - intros x Hx. now apply OrderFacts.sorted_In, OrderFacts.unique_In.
Qed.

End MaskFacts.

(** ** Frames *)

Module FrameFacts.

Lemma well_formed_uniform df : well_formed df = true -> uniform (nrows df) df.
Proof.
  unfold well_formed, uniform. intros H.
  apply andb_true_iff in H. destruct H as [H _].
  rewrite forallb_forall in H. apply Forall_forall.
  intros cs Hcs. apply Nat.eqb_eq. auto.
Qed.

Lemma uniform_nrows n df : uniform n df -> df <> [] -> nrows df = n.
Proof.
  intros H Hne. destruct df as [|[c s] df]; [congruence|].
  inversion H; subst. reflexivity.
Qed.

Lemma uniform_get n df c s :
  uniform n df -> get_column df c = Some s -> series_length s = n.
Proof.
  unfold get_column. induction 1 as [|[c0 s0] df Hs Hdf IH]; simpl; [discriminate|].
  destruct (String.eqb c c0); auto.
  intros [= <-]. exact Hs.
Qed.

Lemma uniform_set n df c s :
  uniform n df -> series_length s = n -> uniform n (set_column df c s).
Proof.
  unfold set_column. intros H Hs.
  induction H as [|[c0 s0] df Hs0 Hdf IH]; simpl.
  - repeat constructor. exact Hs.
  - destruct (String.eqb c c0); constructor; auto.
Qed.

Lemma has_column_get df c :
  has_column c df = true <-> exists s, get_column df c = Some s.
Proof.
  unfold has_column, get_column, columns.
  induction df as [|[c0 s0] df IH]; simpl.
  - split; [discriminate | intros [s H]; discriminate].
  - destruct (String.eqb c c0); simpl; [|exact IH].
    split; eauto.
Qed.

Lemma has_column_columns df df' c :
  columns df = columns df' -> has_column c df = has_column c df'.
Proof. unfold has_column. now intros ->. Qed.

Lemma tolist_length s : length (tolist s) = series_length s.
Proof. destruct s; simpl; apply length_map. Qed.


(** *** Row selection *)

Lemma tolist_mask mask s : tolist (mask_series mask s) = mask_list mask (tolist s).
Proof.
  assert (H : forall A B (f : A -> B) m l,
             map f (mask_list m l) = mask_list m (map f l)).
  { intros A B f m. induction m as [|b m IH]; intros [|x l]; simpl; auto.
    destruct b; simpl; now rewrite IH. }
  destruct s; simpl; apply H.
Qed.

Lemma get_select_rows df mask c :
  get_column (select_rows df mask) c
  = option_map (mask_series mask) (get_column df c).
Proof.
  unfold get_column, select_rows.
  induction df as [|[c0 s0] df IH]; simpl; auto.
  destruct (String.eqb c c0); auto.
Qed.

(** *** The label encoder leaves the shape of the frame alone *)

Lemma fit_transform_length s :
  series_length (fst (LabelEncoder_fit_transform s)) = series_length s.
Proof. destruct s; simpl; unfold encode; apply length_map. Qed.

Lemma fit_transform_number s :
  is_number (fst (LabelEncoder_fit_transform s)) = true.
Proof. destruct s; reflexivity. Qed.

Lemma encode_column_uniform n acc col :
  uniform n (fst acc) -> uniform n (fst (encode_column acc col)).
Proof.
  destruct acc as [df encs]. unfold encode_column. simpl. intros H.
  destruct (get_column df col) as [s|] eqn:E; simpl; auto.
  pose proof (fit_transform_length s) as L.
  destruct (LabelEncoder_fit_transform s) as [codes enc]. simpl in *.
  apply uniform_set; auto.
  rewrite L. eapply uniform_get; eauto.
Qed.

Lemma encode_column_columns acc col :
  columns (fst (encode_column acc col)) = columns (fst acc).
Proof.
  destruct acc as [df encs]. unfold encode_column. simpl.
  destruct (get_column df col) as [s|] eqn:E; simpl; auto.
  destruct (LabelEncoder_fit_transform s) as [codes enc]. simpl.
  eapply DictFacts.keys_set_present. exact E.
Qed.

Lemma encode_column_get acc col c :
  c <> col ->
  get_column (fst (encode_column acc col)) c = get_column (fst acc) c.
Proof.
  destruct acc as [df encs]. unfold encode_column. simpl. intros Hne.
  destruct (get_column df col) as [s|] eqn:E; simpl; auto.
  destruct (LabelEncoder_fit_transform s) as [codes enc]. simpl.
  now apply DictFacts.get_set_other.
Qed.

Lemma fold_encode_invariant (P : DataFrame -> Prop) cols :
  (forall acc col, In col cols -> P (fst acc) -> P (fst (encode_column acc col))) ->
  forall acc, P (fst acc) -> P (fst (fold_left encode_column cols acc)).
Proof.
  induction cols as [|col cols IH]; simpl; intros Hstep acc H; [exact H|].
  apply IH; [intros; apply Hstep; auto | apply Hstep; auto].
Qed.

Lemma encode_invariant (P : DataFrame -> Prop) df :
  (forall acc col, In col candidate_columns ->
                   P (fst acc) -> P (fst (encode_column acc col))) ->
  P df -> P (fst (_encode_categorical_columns df)).
Proof.
  intros Hstep H. unfold _encode_categorical_columns.
  set (cat_cols := filter _ candidate_columns).
  assert (Hsub : forall c, In c cat_cols -> In c candidate_columns).
  { intros c Hc. apply filter_In in Hc. tauto. }
  clearbody cat_cols.
  destruct (is_empty cat_cols); [exact H|].
  apply fold_encode_invariant; auto.
Qed.

Lemma encode_uniform n df :
  uniform n df -> uniform n (fst (_encode_categorical_columns df)).
Proof.
  apply encode_invariant. intros. now apply encode_column_uniform.
Qed.

Lemma encode_columns df :
  columns (fst (_encode_categorical_columns df)) = columns df.
Proof.
  apply (encode_invariant (fun d => columns d = columns df)); auto.
  intros acc col _ H. now rewrite encode_column_columns.
Qed.

Lemma encode_get df c :
  ~ In c candidate_columns ->
  get_column (fst (_encode_categorical_columns df)) c = get_column df c.
Proof.
  intros Hc.
  apply (encode_invariant (fun d => get_column d c = get_column df c)); auto.
  intros acc col Hin H. rewrite encode_column_get; auto.
  intros ->. contradiction.
Qed.

Lemma columns_nil (df : DataFrame) : columns df = [] -> df = [].
Proof. destruct df; [reflexivity | discriminate]. Qed.

Lemma encode_nrows df :
  nrows (fst (_encode_categorical_columns df)) = nrows df.
Proof.
  assert (H : forall d, (columns d = columns df /\ nrows d = nrows df) ->
                        forall col, let d' := fst (encode_column (d, []) col) in
                                    columns d' = columns df /\ nrows d' = nrows df).
  { intros d [Hc Hn] col. split.
    - now rewrite encode_column_columns.
    - unfold encode_column.
      destruct (get_column d col) as [s|] eqn:E; simpl; auto.
      pose proof (fit_transform_length s) as L.
      destruct (LabelEncoder_fit_transform s) as [codes enc]. simpl in *.
      rewrite <- Hn. unfold get_column, set_column in *.
      destruct d as [|[c0 s0] d]; simpl in *; [discriminate|].
      destruct (String.eqb col c0); simpl; auto.
      injection E as <-. exact L. }
  apply (encode_invariant (fun d => columns d = columns df /\ nrows d = nrows df)); auto.
  intros [d encs] col _ Hd. simpl in Hd.
  specialize (H d Hd col). simpl in H.
  unfold encode_column in *.
  destruct (get_column d col) as [s|]; simpl in *; auto.
  destruct (LabelEncoder_fit_transform s); simpl in *; auto.
Qed.

End FrameFacts.

(** ** Standardization *)

Module ScaleFacts.
Import FrameFacts.

Lemma assign_numeric_standardize f df :
  assign_numeric df
    (map f (map (fun cs => to_float (snd cs)) (select_dtypes_number df)))
  = standardize f df.
Proof.
  unfold standardize, standardize_series, select_dtypes_number.
  induction df as [|[c s] df IH]; simpl; auto.
  destruct (is_number s); simpl; now rewrite IH.
Qed.

Lemma standardize_columns f df : columns (standardize f df) = columns df.
Proof. unfold standardize, columns. rewrite map_map. reflexivity. Qed.

Lemma standardize_get f df c :
  get_column (standardize f df) c
  = option_map (standardize_series f) (get_column df c).
Proof.
  unfold get_column, standardize.
  induction df as [|[c0 s0] df IH]; simpl; auto.
  destruct (String.eqb c c0); auto.
Qed.

Lemma standardize_series_number f s :
  is_number (standardize_series f s) = is_number s.
Proof. unfold standardize_series. destruct s; reflexivity. Qed.

Lemma standardize_select f df :
  select_dtypes_number (standardize f df)
  = standardize f (select_dtypes_number df).
Proof.
  unfold select_dtypes_number, standardize.
  induction df as [|[c s] df IH]; simpl; auto.
  rewrite standardize_series_number.
  destruct (is_number s); simpl; now rewrite IH.
Qed.

Section Lengths.
Variable f : list Q -> list Q.
Hypothesis f_length : forall vs, length (f vs) = length vs.

Lemma standardize_series_length s :
  series_length (standardize_series f s) = series_length s.
Proof.
  unfold standardize_series.
  destruct s; simpl; auto; rewrite f_length; auto. apply length_map.
Qed.

Lemma standardize_uniform n df :
  uniform n df -> uniform n (standardize f df).
Proof.
  unfold uniform, standardize. intros H.
  apply Forall_map. eapply Forall_impl; [|exact H].
  simpl. intros cs Hcs. now rewrite standardize_series_length.
Qed.

Lemma standardize_nrows df : nrows (standardize f df) = nrows df.
Proof.
  destruct df as [|[c s] df]; simpl; auto.
  apply standardize_series_length.
Qed.
End Lengths.

Lemma transform_column_length sqrt vs :
  length (transform_column sqrt vs) = length vs.
Proof. unfold transform_column. apply length_map. Qed.

Lemma is_empty_columns (df : DataFrame) : is_empty (columns df) = is_empty df.
Proof. destruct df; reflexivity. Qed.

(** The scaling step, case by case. *)
Lemma scale_numeric_columns_eq sqrt df :
  _scale_numeric_columns sqrt df
  = if is_empty (select_dtypes_number df)
    then Ok (df, [], StandardScaler_new)
    else if nrows df =? 0 then Raise EstimatorValueError
    else Ok (standardize (transform_column sqrt) df,
             columns (select_dtypes_number df),
             StandardScaler_fit sqrt
               (map (fun cs => to_float (snd cs)) (select_dtypes_number df))).
Proof.
  unfold _scale_numeric_columns, StandardScaler_fit_transform.
  rewrite is_empty_columns.
  destruct (is_empty (select_dtypes_number df)) eqn:E.
  - destruct (select_dtypes_number df); [reflexivity | discriminate].
  - destruct (nrows df =? 0); simpl; [reflexivity|].
    now rewrite assign_numeric_standardize.
Qed.

(** *** Arithmetic of a constant column *)

Local Open Scope Q_scope.










End ScaleFacts.

(** ** The pipeline, step by step *)

Module PipelineFacts.
Import FrameFacts ScaleFacts MaskFacts.

Section Steps.
Variable sqrt : Q -> Q.
Variable cluster_centers : nat -> nat -> Z -> list (list Q) -> list (list Q).

(** The pipeline on a frame as a chain of tests. *)
Lemma cluster_frame_eq global_rng df k_opt :
  cluster_frame sqrt cluster_centers global_rng df k_opt
  = if negb (has_column "name" df) then Raise (ValueError msg_missing_name)
    else if is_empty (select_dtypes_number (fst (_encode_categorical_columns df)))
    then Raise (ValueError msg_no_numeric)
    else if nrows df =? 0 then Raise EstimatorValueError
    else
      labels <- KMeans_fit_predict cluster_centers global_rng k_opt (Some 42) 10
                  (feature_matrix sqrt df) ;;
      Ok (result_of k_opt (set_column (prepare sqrt df) "Cluster" (Int64 labels))).
Proof.
  unfold cluster_frame, feature_matrix, prepare.
  destruct (negb (has_column "name" df)); [reflexivity|].
  rewrite <- (encode_nrows df).
  destruct (_encode_categorical_columns df) as [df1 encs]. simpl fst.
  rewrite scale_numeric_columns_eq.
  destruct (is_empty (select_dtypes_number df1)) eqn:E; [reflexivity|].
  destruct (nrows df1 =? 0); [reflexivity|].
  cbn [bind]. rewrite is_empty_columns, E. reflexivity.
Qed.

Lemma run_clustering_pipeline_eq read_csv global_rng file_bytes df k_opt :
  read_csv file_bytes = Ok df ->
  run_clustering_pipeline read_csv sqrt cluster_centers global_rng file_bytes k_opt
  = cluster_frame sqrt cluster_centers global_rng df k_opt.
Proof. unfold run_clustering_pipeline. now intros ->. Qed.

(** *** KMeans *)

Lemma KMeans_ok_inv global_rng k rs n_init X labels :
  KMeans_fit_predict cluster_centers global_rng k rs n_init X = Ok labels ->
  (1 <= k <= Z.of_nat (length X))%Z /\ length labels = length X /\
  exists seed,
    labels = assign_labels (cluster_centers seed n_init k X) X.
Proof.
  unfold KMeans_fit_predict.
  destruct (k <? 1)%Z eqn:E1; [discriminate|].
  destruct (Z.of_nat (length X) <? k)%Z eqn:E2; [discriminate|].
  intros [= <-]. apply Z.ltb_ge in E1, E2.
  repeat split; try lia.
  - unfold assign_labels. apply length_map.
  - eexists. reflexivity.
Qed.

Lemma KMeans_ok global_rng k rs n_init X :
  (1 <= k <= Z.of_nat (length X))%Z ->
  exists labels,
    KMeans_fit_predict cluster_centers global_rng k rs n_init X = Ok labels.
Proof.
  intros [H1 H2]. unfold KMeans_fit_predict.
  apply Z.ltb_ge in H1, H2. rewrite H1, H2. eexists. reflexivity.
Qed.

Lemma KMeans_too_few global_rng k rs n_init X :
  (Z.of_nat (length X) < k)%Z ->
  KMeans_fit_predict cluster_centers global_rng k rs n_init X
  = Raise EstimatorValueError.
Proof.
  intros H. unfold KMeans_fit_predict.
  destruct (k <? 1)%Z; [reflexivity|].
  apply Z.ltb_lt in H. now rewrite H.
Qed.

(** With a seed the estimator ignores the global generator. *)
Lemma KMeans_seeded global_rng global_rng' k seed n_init X :
  KMeans_fit_predict cluster_centers global_rng k (Some seed) n_init X
  = KMeans_fit_predict cluster_centers global_rng' k (Some seed) n_init X.
Proof. reflexivity. Qed.

Lemma argmin_from_bound x centers :
  forall best best_d i,
    best < i ->
    argmin_from x best best_d i centers < i + length centers.
Proof.
  induction centers as [|c rest IH]; simpl; intros best best_d i H; [lia|].
  destruct (Qltb (sq_dist x c) best_d).
  - specialize (IH i (sq_dist x c) (S i)). lia.
  - specialize (IH best best_d (S i)). lia.
Qed.

Lemma nearest_bound centers x :
  centers <> [] -> nearest centers x < length centers.
Proof.
  destruct centers as [|c rest]; [congruence|]. intros _. simpl.
  pose proof (@argmin_from_bound x rest 0 (sq_dist x c) 1). lia.
Qed.

Lemma assign_labels_range centers X :
  centers <> [] ->
  Forall (fun l => (0 <= l < Z.of_nat (length centers))%Z) (assign_labels centers X).
Proof.
  intros H. unfold assign_labels. apply Forall_map, Forall_forall.
  intros x _. pose proof (nearest_bound x H). lia.
Qed.

(** Rows with the same features get the same label. *)
Lemma assign_labels_constant centers (x : list Q) X :
  Forall (eq x) X ->
  Forall (eq (Z.of_nat (nearest centers x))) (assign_labels centers X).
Proof.
  intros H. unfold assign_labels. apply Forall_map.
  eapply Forall_impl; [|exact H]. simpl. now intros y <-.
Qed.

(** *** The shape of the prepared frame *)

Lemma prepare_uniform n df : uniform n df -> uniform n (prepare sqrt df).
Proof.
  intros H. unfold prepare.
  apply standardize_uniform.
  - apply transform_column_length.
  - now apply encode_uniform.
Qed.

Lemma prepare_columns df : columns (prepare sqrt df) = columns df.
Proof. unfold prepare. now rewrite standardize_columns, encode_columns. Qed.

Lemma prepare_nrows df : nrows (prepare sqrt df) = nrows df.
Proof.
  unfold prepare. rewrite standardize_nrows.
  - apply encode_nrows.
  - apply transform_column_length.
Qed.

Lemma to_matrix_length df : length (to_matrix df) = nrows df.
Proof. unfold to_matrix. now rewrite length_map, length_seq. Qed.

Lemma feature_matrix_length df :
  uniform (nrows df) df ->
  is_empty (select_dtypes_number (fst (_encode_categorical_columns df))) = false ->
  length (feature_matrix sqrt df) = nrows df.
Proof.
  intros Hu Hne. unfold feature_matrix. rewrite to_matrix_length.
  apply uniform_nrows.
  - unfold select_dtypes_number.
    apply incl_Forall with (l1 := prepare sqrt df).
    + apply incl_filter.
    + now apply prepare_uniform.
  - unfold prepare. rewrite standardize_select.
    destruct (select_dtypes_number (fst (_encode_categorical_columns df)));
      [discriminate | simpl; discriminate].
Qed.

Lemma identifiers_length df :
  uniform (nrows df) df -> has_column "name" df = true ->
  length (identifiers sqrt df) = nrows df.
Proof.
  intros Hu Hn. unfold identifiers.
  rewrite (@has_column_columns df (prepare sqrt df) "name") in Hn
    by (now rewrite prepare_columns).
  apply has_column_get in Hn. destruct Hn as [s Hs]. rewrite Hs.
  rewrite tolist_length. eapply uniform_get; [|exact Hs].
  now apply prepare_uniform.
Qed.

End Steps.

(** Without a seed it does not: a centroid search that looks at its seed
    can label the same two samples differently under two states of the
    generator. *)
Lemma KMeans_unseeded_reads_global_rng :
  exists cluster_centers X,
    KMeans_fit_predict cluster_centers 0 2 None 10 X
    <> KMeans_fit_predict cluster_centers 1 2 None 10 X.
Proof.
  exists (fun seed _ _ X => if seed =? 0 then X else rev X).
  exists [[0%Q]; [1%Q]]. vm_compute. discriminate.
Qed.

End PipelineFacts.

(** ** The result of a successful run *)

Module ResultFacts.
Import FrameFacts ScaleFacts MaskFacts PipelineFacts.

Lemma mask_list_nil {A} mask : @mask_list A mask [] = [].
Proof. destruct mask as [|[|] mask]; reflexivity. Qed.

Lemma int_column_set df col labels :
  int_column (set_column df col (Int64 labels)) col = labels.
Proof.
  unfold int_column, get_column, set_column.
  now rewrite DictFacts.get_set_same.
Qed.

(** The summary loop computes, for every distinct label in ascending
    order, the identifiers of the rows carrying it. *)
Lemma summarize_labelled df labels :
  summarize (set_column df "Cluster" (Int64 labels))
  = map (fun c => (cluster_label c,
                   PyList (mask_list (map (Z.eqb c) labels) (name_cells df))))
        (sorted Z.leb (unique Z.eqb labels)).
Proof.
  unfold summarize. rewrite int_column_set.
  etransitivity.
  - apply (DictFacts.fold_set_fresh cluster_label
             (fun cluster_id =>
                PyList
                  match get_column
                          (select_rows (set_column df "Cluster" (Int64 labels))
                             (eq_mask (set_column df "Cluster" (Int64 labels))
                                "Cluster" cluster_id)) "name" with
                  | Some s => tolist s
                  | None => []
                  end)).
    + apply LabelFacts.cluster_label_NoDup.
      apply OrderFacts.sorted_NoDup, OrderFacts.unique_NoDup.
    + reflexivity.
  - simpl. apply map_ext. intros c. f_equal. f_equal.
    rewrite get_select_rows. unfold eq_mask. rewrite int_column_set.
    unfold name_cells, get_column, set_column.
    rewrite DictFacts.get_set_other by discriminate.
    destruct (Dict.get df "name") as [s|]; simpl.
    + apply tolist_mask.
    + now rewrite mask_list_nil.
Qed.

Lemma summarize_rows df labels :
  length (name_cells df) = length labels ->
  summarize (set_column df "Cluster" (Int64 labels))
  = map (fun c => (cluster_label c,
                   PyList (map (fun i => nth i (name_cells df) PyNone)
                               (rows_with labels c))))
        (sorted Z.leb (unique Z.eqb labels)).
Proof.
  intros H. rewrite summarize_labelled. apply map_ext. intros c.
  unfold rows_with. rewrite (mask_list_positions PyNone).
  - reflexivity.
  - now rewrite length_map.
Qed.

(** *** Records *)

Lemma nth_map_default {A B} (f : A -> B) (l : list A) d d' i :
  i < length l -> nth i (map f l) d' = f (nth i l d).
Proof.
  intros H. rewrite (nth_indep _ d' (f d)) by (now rewrite length_map).
  apply map_nth.
Qed.



Lemma record_of_get df i c :
  Dict.get (record_of df i) c
  = option_map (fun s => nth i (tolist s) PyNone) (get_column df c).
Proof.
  unfold record_of, get_column.
  rewrite (DictFacts.get_map_snd (fun cs => nth i (tolist (snd cs)) PyNone)).
  rewrite DictFacts.get_find.
  destruct (find _ df); reflexivity.
Qed.

Lemma labelled_nrows n df labels :
  uniform n df -> length labels = n -> df <> [] ->
  nrows (set_column df "Cluster" (Int64 labels)) = n.
Proof.
  intros Hu Hl Hne. apply uniform_nrows.
  - now apply uniform_set.
  - unfold set_column. destruct df as [|[c s] df]; [congruence|].
    cbn [Dict.set]. destruct (String.eqb "Cluster" c); intros E; discriminate E.
Qed.


Lemma has_column_nonempty df c : has_column c df = true -> df <> [].
Proof. destruct df; [discriminate | discriminate]. Qed.

End ResultFacts.

(** ** Successful runs *)

Module RunFacts.
Import FrameFacts ScaleFacts MaskFacts PipelineFacts ResultFacts.

Section Runs.
Variable sqrt : Q -> Q.
Variable cluster_centers : nat -> nat -> Z -> list (list Q) -> list (list Q).

Lemma cluster_frame_ok_inv global_rng df k_opt r :
  cluster_frame sqrt cluster_centers global_rng df k_opt = Ok r ->
  has_column "name" df = true /\
  is_empty (select_dtypes_number (fst (_encode_categorical_columns df))) = false /\
  nrows df <> 0 /\
  exists labels,
    KMeans_fit_predict cluster_centers global_rng k_opt (Some 42) 10
      (feature_matrix sqrt df) = Ok labels /\
    r = result_of k_opt (set_column (prepare sqrt df) "Cluster" (Int64 labels)).
Proof.
  rewrite cluster_frame_eq.
  destruct (has_column "name" df); [|discriminate]. simpl negb. cbv iota.
  destruct (is_empty _); [discriminate|].
  destruct (nrows df =? 0) eqn:E; [discriminate|].
  apply Nat.eqb_neq in E.
  destruct (KMeans_fit_predict _ _ _ _ _ _) as [labels|e]; [|discriminate].
  cbn [bind]. intros [= <-]. repeat split; auto. now exists labels.
Qed.

Lemma map_nth_seq {A} (l : list A) d :
  map (fun i => nth i l d) (seq 0 (length l)) = l.
Proof.
  induction l as [|x l IH]; simpl; auto.
  rewrite <- seq_shift, map_map. simpl. now rewrite IH.
Qed.

Lemma flat_map_singleton {A B} (f : A -> B) (l : list A) :
  flat_map (fun x => [f x]) l = map f l.
Proof. induction l; simpl; congruence. Qed.

Lemma assigned_labels_result k_opt df labels :
  uniform (length labels) df -> df <> [] ->
  assigned_labels (result_of k_opt (set_column df "Cluster" (Int64 labels))) = labels.
Proof.
  intros Hu Hne. unfold assigned_labels, records_of, result_of. simpl field.
  unfold to_dict_records.
  rewrite (@labelled_nrows (length labels) df labels Hu eq_refl Hne).
  rewrite flat_map_concat_map, map_map.
  transitivity (concat (map (fun i => [nth i labels 0%Z]) (seq 0 (length labels)))).
  - f_equal. apply map_ext_in. intros i Hi. apply in_seq in Hi.
    fold (record_of (set_column df "Cluster" (Int64 labels)) i).
    unfold field. rewrite record_of_get.
    unfold get_column, set_column. rewrite DictFacts.get_set_same. simpl.
    rewrite (nth_map_default PyInt labels 0%Z) by lia. reflexivity.
  - rewrite <- flat_map_concat_map, flat_map_singleton. apply map_nth_seq.
Qed.

(** Everything the statements below need to know about a successful run
    on a well-formed frame. *)
Lemma run_shape global_rng df k_opt r :
  well_formed df = true ->
  cluster_frame sqrt cluster_centers global_rng df k_opt = Ok r ->
  exists labels,
    length labels = nrows df /\
    (1 <= k_opt <= Z.of_nat (nrows df))%Z /\
    (exists seed,
        labels = assign_labels
                   (cluster_centers seed 10 k_opt (feature_matrix sqrt df))
                   (feature_matrix sqrt df)) /\
    r = result_of k_opt (set_column (prepare sqrt df) "Cluster" (Int64 labels)) /\
    assigned_labels r = labels /\
    clusters_of r
    = map (fun c => (cluster_label c,
                     PyList (map (fun i => nth i (identifiers sqrt df) PyNone)
                                 (rows_with labels c))))
          (sorted Z.leb (unique Z.eqb labels)) /\
    length (identifiers sqrt df) = nrows df.
Proof.
  intros Hwf Hrun.
  apply well_formed_uniform in Hwf.
  destruct (cluster_frame_ok_inv _ _ _ Hrun) as (Hname & Hnum & Hrows & labels & Hk & ->).
  destruct (KMeans_ok_inv _ _ _ _ _ _ Hk) as (Hrange & Hlen & Hseed).
  rewrite (feature_matrix_length sqrt Hwf Hnum) in Hlen, Hrange.
  pose proof (identifiers_length sqrt Hwf Hname) as Hids.
  exists labels. repeat split; auto; try lia.
  - apply assigned_labels_result.
    + rewrite Hlen. now apply prepare_uniform.
    + intros E. apply (f_equal columns) in E.
      rewrite prepare_columns in E. apply columns_nil in E.
      subst df. discriminate.
  - unfold clusters_of, result_of. simpl.
    apply summarize_rows.
    change (length (identifiers sqrt df) = length labels). congruence.
Qed.

End Runs.

(** The lists of a summary, taken together, are the identifiers. *)
Lemma cluster_lists_sum (ids : list pyobj) (parts : list (list nat)) n :
  Permutation (concat parts) (seq 0 n) ->
  list_sum (map (fun p => length (map (fun i => nth i ids PyNone) p)) parts) = n.
Proof.
  intros H. apply Permutation_length in H. rewrite length_seq in H.
  rewrite <- H, length_concat. f_equal. apply map_ext. intros p.
  apply length_map.
Qed.

End RunFacts.

(** ** The prepared frame *)

Import FrameFacts ScaleFacts MaskFacts PipelineFacts ResultFacts RunFacts.

Module PrepareFacts.

Lemma name_not_categorical : ~ In "name"%string candidate_columns.
Proof. simpl. intuition discriminate. Qed.

Lemma prepare_get sqrt df c :
  ~ In c candidate_columns ->
  get_column (prepare sqrt df) c
  = option_map (standardize_series (transform_column sqrt)) (get_column df c).
Proof.
  intros H. unfold prepare. now rewrite standardize_get, encode_get.
Qed.

Lemma identifiers_text sqrt df names :
  get_column df "name" = Some (Object names) ->
  identifiers sqrt df = map PyStr names.
Proof.
  intros H. unfold identifiers.
  rewrite prepare_get by apply name_not_categorical.
  now rewrite H.
Qed.


End PrepareFacts.

(** ** Outcomes of a run, by the tests the pipeline makes *)

Module OutcomeFacts.

Section Outcomes.
Variable sqrt : Q -> Q.
Variable cluster_centers : nat -> nat -> Z -> list (list Q) -> list (list Q).

Lemma cluster_frame_missing_name global_rng df k_opt :
  has_column "name" df = false ->
  cluster_frame sqrt cluster_centers global_rng df k_opt
  = Raise (ValueError msg_missing_name).
Proof. intros H. rewrite cluster_frame_eq, H. reflexivity. Qed.

Lemma cluster_frame_no_numeric global_rng df k_opt :
  has_column "name" df = true ->
  numeric_after_encoding df = [] ->
  cluster_frame sqrt cluster_centers global_rng df k_opt
  = Raise (ValueError msg_no_numeric).
Proof.
  intros H Hn. rewrite cluster_frame_eq, H.
  unfold numeric_after_encoding in Hn. apply columns_nil in Hn.
  rewrite Hn. reflexivity.
Qed.

Lemma numeric_after_encoding_empty df :
  numeric_after_encoding df <> [] ->
  is_empty (select_dtypes_number (fst (_encode_categorical_columns df))) = false.
Proof.
  unfold numeric_after_encoding.
  destruct (select_dtypes_number _); [intros H; now elim H | reflexivity].
Qed.

Lemma cluster_frame_too_few_rows global_rng df k_opt :
  well_formed df = true ->
  has_column "name" df = true ->
  numeric_after_encoding df <> [] ->
  (Z.of_nat (nrows df) < k_opt)%Z ->
  cluster_frame sqrt cluster_centers global_rng df k_opt
  = Raise EstimatorValueError.
Proof.
  intros Hwf H Hn Hk. apply well_formed_uniform in Hwf.
  apply numeric_after_encoding_empty in Hn.
  rewrite cluster_frame_eq, H, Hn. simpl negb. cbv iota.
  destruct (nrows df =? 0); [reflexivity|].
  rewrite KMeans_too_few; [reflexivity|].
  now rewrite (feature_matrix_length sqrt Hwf Hn).
Qed.

Lemma cluster_frame_ok global_rng df k_opt :
  well_formed df = true ->
  has_column "name" df = true ->
  numeric_after_encoding df <> [] ->
  (1 <= k_opt <= Z.of_nat (nrows df))%Z ->
  exists r, cluster_frame sqrt cluster_centers global_rng df k_opt = Ok r.
Proof.
  intros Hwf H Hn Hk. apply well_formed_uniform in Hwf.
  apply numeric_after_encoding_empty in Hn.
  rewrite cluster_frame_eq, H, Hn. simpl negb. cbv iota.
  destruct (nrows df =? 0) eqn:E.
  - apply Nat.eqb_eq in E. lia.
  - destruct (@KMeans_ok cluster_centers global_rng k_opt (Some 42) 10
                (feature_matrix sqrt df)) as [labels Hl].
    + now rewrite (feature_matrix_length sqrt Hwf Hn).
    + rewrite Hl. cbn [bind]. eexists. reflexivity.
Qed.

(** A successful run never has a key other than the three of the code. *)
Lemma result_keys global_rng df k_opt r :
  cluster_frame sqrt cluster_centers global_rng df k_opt = Ok r ->
  exists d,
    r = PyDict d /\
    Dict.keys d = ["number_of_clusters"; "clusters"; "raw_clusters"]%string.
Proof.
  intros H. apply cluster_frame_ok_inv in H.
  destruct H as (_ & _ & _ & labels & _ & ->).
  eexists. split; reflexivity.
Qed.

(** *** Rows that cannot be told apart *)

Lemma unique_constant (l : Z) labels :
  Forall (eq l) labels -> labels <> [] -> unique Z.eqb labels = [l].
Proof.
  induction 1 as [|x labels Hx Hall IH]; [congruence|]. intros _. subst x.
  simpl. destruct labels as [|y labels]; [reflexivity|].
  rewrite IH by discriminate. simpl. now rewrite Z.eqb_refl.
Qed.

Lemma positions_all (l : Z) labels i :
  Forall (eq l) labels ->
  positions (map (Z.eqb l) labels) i = seq i (length labels).
Proof.
  intros H. revert i. induction H as [|x labels Hx Hall IH]; intros i; simpl; auto.
  subst x. now rewrite Z.eqb_refl, IH.
Qed.

(** When every row has the same features, all rows land in one cluster,
    whatever the centres are, and the summary has a single entry. *)
Lemma single_cluster global_rng df k_opt r (x : list Q) :
  well_formed df = true ->
  Forall (eq x) (feature_matrix sqrt df) ->
  cluster_frame sqrt cluster_centers global_rng df k_opt = Ok r ->
  exists l, clusters_of r = [(cluster_label l, PyList (identifiers sqrt df))].
Proof.
  intros Hwf Hx Hrun.
  destruct (run_shape _ _ _ _ _ Hwf Hrun)
    as (labels & Hlen & Hk & (seed & Hseed) & _ & _ & Hclusters & Hids).
  set (centers := cluster_centers seed 10 k_opt (feature_matrix sqrt df)) in *.
  pose proof (assign_labels_constant centers Hx) as Hall.
  rewrite <- Hseed in Hall.
  exists (Z.of_nat (nearest centers x)).
  rewrite Hclusters, (unique_constant Hall).
  - simpl. unfold rows_with. rewrite (positions_all _ Hall), Hlen, <- Hids.
    now rewrite map_nth_seq.
  - intros E. rewrite E in Hlen. simpl in Hlen. lia.
Qed.

End Outcomes.

End OutcomeFacts.

(** ** Labels in use *)

Module LabelUseFacts.

Lemma bounded_distinct_length (k : Z) (l : list Z) :
  NoDup l -> Forall (fun c => (0 <= c < k)%Z) l -> length l <= Z.to_nat k.
Proof.
  intros Hnd Hall.
  rewrite <- (length_seq (Z.to_nat k) 0).
  rewrite <- (length_map Z.of_nat (seq 0 (Z.to_nat k))).
  apply NoDup_incl_length; [exact Hnd|].
  intros c Hc. rewrite Forall_forall in Hall. specialize (Hall c Hc).
  apply in_map_iff. exists (Z.to_nat c). split; [lia|].
  apply in_seq. lia.
Qed.

Lemma reference_centers_length (seed n_init : nat) (k : Z) (X : list (list Q)) :
  (1 <= k <= Z.of_nat (length X))%Z ->
  length (Reference.cluster_centers seed n_init k X) = Z.to_nat k.
Proof.
  intros H. unfold Reference.cluster_centers. rewrite length_firstn. lia.
Qed.

End LabelUseFacts.

(** ** Reading JSON text back *)

Unset Implicit Arguments.

Module ReaderFacts.
Import JsonReader.

Lemma append_assoc (a b c : string) :
  ((a ++ b) ++ c)%string = (a ++ (b ++ c))%string.
Proof. induction a; simpl; congruence. Qed.

(** *** Strings *)

Lemma read_string_escape_char (c : ascii) (rest : string) :
  read_string (Json.escape_char c ++ rest)
  = match read_string rest with
    | Some (t, r) => Some (String c t, r)
    | None => None
    end.
Proof.
  destruct c as [b0 b1 b2 b3 b4 b5 b6 b7].
  destruct b0, b1, b2, b3, b4, b5, b6, b7; reflexivity.
Qed.

Lemma read_string_escape (s rest : string) :
  read_string (Json.escape s ++ String Json.quote rest) = Some (s, rest).
Proof.
  induction s as [|c s IH]; [reflexivity|].
  cbn [Json.escape]. rewrite append_assoc, read_string_escape_char, IH.
  reflexivity.
Qed.

(** *** Blanks *)

Lemma skip_ws_spaces n (s : string) : skip_ws (Json.spaces n ++ s) = skip_ws s.
Proof. induction n; simpl; auto. Qed.

Lemma skip_ws_newline_indent indent level (s : string) :
  skip_ws (Json.newline_indent indent level ++ s) = skip_ws s.
Proof.
  unfold Json.newline_indent. rewrite append_assoc.
  change (skip_ws (Json.spaces (indent * level) ++ s) = skip_ws s).
  apply skip_ws_spaces.
Qed.

Lemma opens_skip_ws s : opens s = true -> skip_ws s = s.
Proof.
  destruct s as [|c r]; [discriminate|]. simpl.
  destruct (is_ws c); [discriminate | reflexivity].
Qed.

(** *** Numbers *)

Lemma span_number_token (tok rest : string) :
  number_chars tok = true -> terminated rest = true ->
  span_number (tok ++ rest) = (tok, rest).
Proof.
  intros Htok Hrest. induction tok as [|c tok IH]; simpl.
  - destruct rest as [|c r]; [reflexivity|]. simpl in *.
    destruct (number_char c); [discriminate | reflexivity].
  - simpl in Htok. apply andb_true_iff in Htok. destruct Htok as [Hc Htok].
    now rewrite Hc, IH.
Qed.

Lemma number_start_dispatch (c : ascii) :
  number_start c = true ->
  is_ws c = false /\ Ascii.eqb c "{" = false /\ Ascii.eqb c "[" = false /\
  Ascii.eqb c Json.quote = false /\ number_char c = true /\
  Ascii.eqb c "]" = false /\ Ascii.eqb c "}" = false.
Proof.
  destruct c as [b0 b1 b2 b3 b4 b5 b6 b7].
  destruct b0, b1, b2, b3, b4, b5, b6, b7; intros H;
    try discriminate H; repeat split; reflexivity.
Qed.

Lemma uint_digits (d : Decimal.uint) :
  number_chars (NilEmpty.string_of_uint d) = true.
Proof. induction d; simpl; auto. Qed.

Lemma uint_token (d : Decimal.uint) :
  number_token (NilZero.string_of_uint d) = true.
Proof. destruct d; simpl; auto using uint_digits. Qed.

Lemma token_chars (s : string) : number_token s = true -> number_chars s = true.
Proof.
  destruct s as [|c r]; [discriminate|]. simpl. intros H.
  apply andb_true_iff in H. destruct H as [Hc Hr].
  apply number_start_dispatch in Hc. destruct Hc as (_ & _ & _ & _ & Hc & _).
  now rewrite Hc, Hr.
Qed.

Lemma str_int_token (n : Z) : number_token (Json.str_int n) = true.
Proof.
  unfold Json.str_int. destruct (Z.to_int n) as [d|d]; simpl.
  - apply uint_token.
  - apply token_chars, uint_token.
Qed.

Lemma number_chars_app (a b : string) :
  number_chars (a ++ b) = number_chars a && number_chars b.
Proof.
  induction a as [|c a IH]; simpl; [reflexivity|].
  now rewrite IH, andb_assoc.
Qed.

Lemma reference_float_repr_token (q : Q) :
  number_token (Reference.float_repr q) = true.
Proof.
  unfold Reference.float_repr.
  pose proof (str_int_token (Qnum q * 1000000 / Zpos (Qden q))) as H.
  destruct (Json.str_int _) as [|c r]; [discriminate|].
  simpl in *. apply andb_true_iff in H. destruct H as [Hc Hr].
  now rewrite Hc, number_chars_app, Hr.
Qed.

End ReaderFacts.

Module RoundTrip.
Import JsonReader ReaderFacts.

Lemma join_chain (lead : string) (parts : list string) (tail : string) :
  parts <> [] ->
  (lead ++ Json.join ("," ++ lead) parts ++ tail)%string = chain lead parts tail.
Proof.
  induction parts as [|p ps IH]; [congruence|]. intros _.
  destruct ps as [|q ps].
  - reflexivity.
  - change (Json.join ("," ++ lead) (p :: q :: ps))
      with (p ++ ("," ++ lead) ++ Json.join ("," ++ lead) (q :: ps))%string.
    change (chain lead (p :: q :: ps) tail)
      with (lead ++ p ++ String "," (chain lead (q :: ps) tail))%string.
    rewrite <- IH by discriminate.
    rewrite !append_assoc. reflexivity.
Qed.

Section Encoded.
Variable float_repr : Q -> string.
Hypothesis float_repr_token : forall q, number_token (float_repr q) = true.
Variable indent : nat.

Lemma encode_list_cons level x items rest :
  (Json.encode float_repr indent level (PyList (x :: items)) ++ rest)%string
  = String "[" (chain (Json.newline_indent indent (S level)) (map (Json.encode float_repr indent (S level)) (x :: items))
                      (Json.newline_indent indent level ++ String "]" rest)).
Proof.
  rewrite <- join_chain by discriminate.
  cbn [Json.encode]. rewrite !append_assoc. reflexivity.
Qed.

Lemma encode_dict_cons level kv items rest :
  (Json.encode float_repr indent level (PyDict (kv :: items)) ++ rest)%string
  = String "{" (chain (Json.newline_indent indent (S level))
                      (map (fun kv => (Json.encode_str (fst kv) ++ ": "
                                         ++ Json.encode float_repr indent (S level) (snd kv))%string)
                           (kv :: items))
                      (Json.newline_indent indent level ++ String "}" rest)).
Proof.
  rewrite <- join_chain by discriminate.
  cbn [Json.encode]. rewrite !append_assoc. reflexivity.
Qed.

Lemma token_opens (tok rest : string) :
  number_token tok = true -> opens (tok ++ rest) = true.
Proof.
  destruct tok as [|c r]; [discriminate|]. simpl. intros H.
  apply andb_true_iff in H. destruct H as [Hc _].
  apply number_start_dispatch in Hc.
  destruct Hc as (H1 & _ & _ & _ & _ & H2 & H3). now rewrite H1, H2, H3.
Qed.

Lemma encode_opens level o rest : opens (Json.encode float_repr indent level o ++ rest) = true.
Proof.
  destruct o as [|n|q|s|items|items]; try reflexivity.
  - apply token_opens, str_int_token.
  - apply token_opens, float_repr_token.
  - destruct items; reflexivity.
  - destruct items; reflexivity.
Qed.

(** *** One step of the reader on each kind of text *)

Lemma read_value_number f c r :
  number_start c = true ->
  read_value (S f) (String c r)
  = (let (tok, rest) := span_number (String c r) in Some (JNumber tok, rest)).
Proof.
  intros H. destruct (number_start_dispatch c H) as (_ & H1 & H2 & H3 & _).
  cbn [read_value]. now rewrite H1, H2, H3, H.
Qed.

Lemma read_value_token f (tok rest : string) :
  number_token tok = true -> terminated rest = true ->
  read_value (S f) (tok ++ rest) = Some (JNumber tok, rest).
Proof.
  intros Htok Hrest. pose proof (token_chars tok Htok) as Hchars.
  destruct tok as [|c r]; [discriminate|].
  simpl in Htok. apply andb_true_iff in Htok. destruct Htok as [Hc _].
  change (String c r ++ rest)%string with (String c (r ++ rest)).
  rewrite read_value_number by exact Hc.
  change (String c (r ++ rest)) with (String c r ++ rest)%string.
  now rewrite span_number_token.
Qed.

Lemma read_value_quote f r :
  read_value (S f) (String Json.quote r)
  = option_map (fun tr => (JString (fst tr), snd tr)) (read_string r).
Proof. reflexivity. Qed.

Lemma read_value_bracket f r :
  opens (skip_ws r) = true ->
  read_value (S f) (String "[" r)
  = option_map (fun ir => (JArray (fst ir), snd ir)) (read_items f r).
Proof.
  intros H. cbn [read_value].
  change (Ascii.eqb "[" "{") with false. change (Ascii.eqb "[" "[") with true.
  cbv iota. destruct (skip_ws r) as [|c' r']; [discriminate|].
  simpl in H. destruct (Ascii.eqb c' "]"); [|reflexivity].
  rewrite andb_false_r in H. discriminate.
Qed.

Lemma read_value_brace f r :
  opens (skip_ws r) = true ->
  read_value (S f) (String "{" r)
  = option_map (fun mr => (JObject (fst mr), snd mr)) (read_members f r).
Proof.
  intros H. cbn [read_value].
  change (Ascii.eqb "{" "{") with true.
  cbv iota. destruct (skip_ws r) as [|c' r']; [discriminate|].
  simpl in H. destruct (Ascii.eqb c' "}"); [|reflexivity].
  rewrite andb_false_r in H. discriminate.
Qed.

Lemma read_items_step f s :
  read_items (S f) s
  = match read_value f (skip_ws s) with
    | Some (v, r1) =>
        match skip_ws r1 with
        | String d r2 =>
            if Ascii.eqb d "," then
              match read_items f r2 with
              | Some (vs, r3) => Some (v :: vs, r3)
              | None => None
              end
            else if Ascii.eqb d "]" then Some ([v], r2)
            else None
        | EmptyString => None
        end
    | None => None
    end.
Proof. reflexivity. Qed.

Lemma read_members_step f s :
  read_members (S f) s
  = match skip_ws s with
    | String q r =>
        if Ascii.eqb q Json.quote then
          match read_string r with
          | Some (key, r1) =>
              match skip_ws r1 with
              | String colon r2 =>
                  if Ascii.eqb colon ":" then
                    match read_value f (skip_ws r2) with
                    | Some (v, r3) =>
                        match skip_ws r3 with
                        | String d r4 =>
                            if Ascii.eqb d "," then
                              match read_members f r4 with
                              | Some (ms, r5) => Some ((key, v) :: ms, r5)
                              | None => None
                              end
                            else if Ascii.eqb d "}" then Some ([(key, v)], r4)
                            else None
                        | EmptyString => None
                        end
                    | None => None
                    end
                  else None
              | EmptyString => None
              end
          | None => None
          end
        else None
    | EmptyString => None
    end.
Proof. reflexivity. Qed.

(** *** The reader undoes the writer *)

Lemma size_positive o : 1 <= size o.
Proof. destruct o; simpl; lia. Qed.

Lemma terminated_newline_indent level (s : string) :
  terminated (Json.newline_indent indent level ++ s) = true.
Proof. reflexivity. Qed.

Lemma skip_ws_closing level (c : ascii) (rest : string) :
  is_ws c = false -> skip_ws (Json.newline_indent indent level ++ String c rest) = String c rest.
Proof.
  intros H. rewrite skip_ws_newline_indent. simpl. now rewrite H.
Qed.

Lemma reads_items_step f :
  reads_values float_repr indent f -> reads_items float_repr indent f ->
  reads_items float_repr indent (S f).
Proof.
  intros HV HI items a b c rest Hne Hsize.
  destruct items as [|x items]; [congruence|].
  assert (Hx : size x <= f /\ items_size items <= f).
  { unfold items_size in *. simpl in Hsize. lia. }
  destruct Hx as [Hx Hitems]. clear Hsize.
  rewrite read_items_step.
  destruct items as [|y items].
  - change (chain (Json.newline_indent indent a) (map (Json.encode float_repr indent b) [x]) (Json.newline_indent indent c ++ String "]" rest))
      with (Json.newline_indent indent a ++ Json.encode float_repr indent b x ++ (Json.newline_indent indent c ++ String "]" rest))%string.
    rewrite skip_ws_newline_indent.
    rewrite (opens_skip_ws _ (encode_opens b x _)).
    rewrite HV; [|exact Hx|apply terminated_newline_indent].
    rewrite skip_ws_closing by reflexivity. reflexivity.
  - change (chain (Json.newline_indent indent a) (map (Json.encode float_repr indent b) (x :: y :: items)) (Json.newline_indent indent c ++ String "]" rest))
      with (Json.newline_indent indent a ++ Json.encode float_repr indent b x
              ++ String "," (chain (Json.newline_indent indent a) (map (Json.encode float_repr indent b) (y :: items))
                                   (Json.newline_indent indent c ++ String "]" rest)))%string.
    rewrite skip_ws_newline_indent.
    rewrite (opens_skip_ws _ (encode_opens b x _)).
    rewrite HV; [|exact Hx|reflexivity].
    change (skip_ws (String "," ?s)) with (String "," s).
    change (Ascii.eqb "," ",") with true. cbv iota.
    rewrite (HI (y :: items) a b c rest); [reflexivity|discriminate|exact Hitems].
Qed.

Lemma read_key (k : string) (s : string) :
  read_string (Json.escape k ++ String Json.quote EmptyString ++ s)
  = Some (k, s).
Proof. apply read_string_escape. Qed.

Lemma reads_members_step f :
  reads_values float_repr indent f -> reads_members float_repr indent f ->
  reads_members float_repr indent (S f).
Proof.
  intros HV HM items a b c rest Hne Hsize.
  destruct items as [|[k v] items]; [congruence|].
  assert (Hx : size v <= f /\ members_size items <= f).
  { unfold members_size in *. simpl in Hsize. lia. }
  destruct Hx as [Hv Hitems]. clear Hsize.
  rewrite read_members_step.
  set (entry := fun kv : string * pyobj =>
                  (Json.encode_str (fst kv) ++ ": " ++ Json.encode float_repr indent b (snd kv))%string).
  assert (Hhead : forall tail : string,
             skip_ws (Json.newline_indent indent a ++ entry (k, v) ++ tail)
             = String Json.quote
                      (Json.escape k ++ String Json.quote EmptyString
                         ++ String ":" (String " " (Json.encode float_repr indent b v ++ tail)))).
  { intros tail. rewrite skip_ws_newline_indent.
    unfold entry, Json.encode_str. cbn [fst snd].
    rewrite !append_assoc.
    change (String Json.quote (Json.escape k ++ String Json.quote "")
              ++ ": " ++ Json.encode float_repr indent b v ++ tail)%string
      with (String Json.quote
              ((Json.escape k ++ String Json.quote "")
                 ++ ": " ++ Json.encode float_repr indent b v ++ tail))%string.
    rewrite !append_assoc. reflexivity. }
  destruct items as [|kv items].
  - change (chain (Json.newline_indent indent a) (map entry [(k, v)]) (Json.newline_indent indent c ++ String "}" rest))
      with (Json.newline_indent indent a ++ entry (k, v) ++ (Json.newline_indent indent c ++ String "}" rest))%string.
    rewrite Hhead. change (Ascii.eqb Json.quote Json.quote) with true. cbv iota.
    rewrite read_key.
    change (skip_ws (String ":" ?s)) with (String ":" s).
    change (Ascii.eqb ":" ":") with true. cbv iota.
    change (skip_ws (String " " ?s)) with (skip_ws s).
    rewrite (opens_skip_ws _ (encode_opens b v _)).
    rewrite HV; [|exact Hv|apply terminated_newline_indent].
    rewrite skip_ws_closing by reflexivity. reflexivity.
  - change (chain (Json.newline_indent indent a) (map entry ((k, v) :: kv :: items)) (Json.newline_indent indent c ++ String "}" rest))
      with (Json.newline_indent indent a ++ entry (k, v)
              ++ String "," (chain (Json.newline_indent indent a) (map entry (kv :: items))
                                   (Json.newline_indent indent c ++ String "}" rest)))%string.
    rewrite Hhead. change (Ascii.eqb Json.quote Json.quote) with true. cbv iota.
    rewrite read_key.
    change (skip_ws (String ":" ?s)) with (String ":" s).
    change (Ascii.eqb ":" ":") with true. cbv iota.
    change (skip_ws (String " " ?s)) with (skip_ws s).
    rewrite (opens_skip_ws _ (encode_opens b v _)).
    rewrite HV; [|exact Hv|reflexivity].
    change (skip_ws (String "," ?s)) with (String "," s).
    change (Ascii.eqb "," ",") with true. cbv iota.
    unfold entry.
    rewrite (HM (kv :: items) a b c rest); [reflexivity|discriminate|exact Hitems].
Qed.

Lemma reads_values_step f :
  reads_items float_repr indent f -> reads_members float_repr indent f ->
  reads_values float_repr indent (S f).
Proof.
  intros HI HM o level rest Hsize Hrest.
  destruct o as [|n|q|s|items|items].
  - reflexivity.
  - apply read_value_token; [apply str_int_token | exact Hrest].
  - apply read_value_token; [apply float_repr_token | exact Hrest].
  - cbn [Json.encode to_json]. unfold Json.encode_str.
    change (String Json.quote (Json.escape s ++ String Json.quote "") ++ rest)%string
      with (String Json.quote ((Json.escape s ++ String Json.quote "") ++ rest)%string).
    rewrite read_value_quote, append_assoc.
    change (String Json.quote "" ++ rest)%string with (String Json.quote rest).
    now rewrite read_string_escape.
  - destruct items as [|x items]; [reflexivity|].
    rewrite encode_list_cons.
    assert (Hitems : items_size (x :: items) <= f).
    { unfold items_size. simpl in Hsize. simpl. lia. }
    rewrite read_value_bracket.
    + rewrite HI; [reflexivity | discriminate | exact Hitems].
    + destruct items as [|y items].
      * change (chain ?l (map ?g [x]) ?t) with (l ++ g x ++ t)%string.
        rewrite skip_ws_newline_indent.
        now rewrite (opens_skip_ws _ (encode_opens _ x _)), encode_opens.
      * change (chain ?l (map ?g (x :: y :: items)) ?t)
          with (l ++ g x ++ String "," (chain l (map g (y :: items)) t))%string.
        rewrite skip_ws_newline_indent.
        now rewrite (opens_skip_ws _ (encode_opens _ x _)), encode_opens.
  - destruct items as [|[k v] items]; [reflexivity|].
    rewrite encode_dict_cons.
    assert (Hitems : members_size ((k, v) :: items) <= f).
    { unfold members_size. simpl in Hsize. simpl. lia. }
    rewrite read_value_brace.
    + rewrite HM; [reflexivity | discriminate | exact Hitems].
    + destruct items as [|kv items].
      * change (chain ?l (map ?g [(k, v)]) ?t) with (l ++ g (k, v) ++ t)%string.
        rewrite skip_ws_newline_indent. reflexivity.
      * change (chain ?l (map ?g ((k, v) :: kv :: items)) ?t)
          with (l ++ g (k, v) ++ String "," (chain l (map g (kv :: items)) t))%string.
        rewrite skip_ws_newline_indent. reflexivity.
Qed.

Lemma reads_all fuel :
  reads_values float_repr indent fuel /\
  reads_items float_repr indent fuel /\
  reads_members float_repr indent fuel.
Proof.
  induction fuel as [|f (HV & HI & HM)].
  - repeat split.
    + intros o level rest H. pose proof (size_positive o). lia.
    + intros [|x items] a b c rest Hne H; [congruence|].
      unfold items_size in H. simpl in H. lia.
    + intros [|x items] a b c rest Hne H; [congruence|].
      unfold members_size in H. simpl in H. lia.
  - repeat split.
    + now apply reads_values_step.
    + now apply reads_items_step.
    + now apply reads_members_step.
Qed.

(** Reading back what [json.dumps] wrote gives the value that was
    written, as soon as the fuel covers its size. *)
Lemma loads_dumps (o : pyobj) (fuel : nat) :
  size o <= fuel ->
  loads fuel (Json.dumps float_repr indent o) = Some (to_json float_repr o).
Proof.
  intros H. unfold loads, Json.dumps.
  destruct (reads_all fuel) as (HV & _).
  specialize (HV o 0 EmptyString H eq_refl).
  assert (E : forall s : string, (s ++ "")%string = s).
  { induction s; simpl; congruence. }
  rewrite E in HV.
  pose proof (encode_opens 0 o EmptyString) as Ho.
  rewrite E in Ho.
  rewrite (opens_skip_ws _ Ho), HV. reflexivity.
Qed.

End Encoded.
End RoundTrip.

Set Implicit Arguments.

(** ** The export and the records *)

Module ExportFacts.

(** The layout of an object with two entries at the top level. *)
Lemma dumps_two_entries float_repr (k1 k2 : string) (v1 v2 : pyobj) :
  Json.dumps float_repr 2 (PyDict [(k1, v1); (k2, v2)])
  = ("{" ++ Json.newline ++ "  "
         ++ Json.encode_str k1 ++ ": " ++ Json.encode float_repr 2 1 v1
         ++ "," ++ Json.newline ++ "  "
         ++ Json.encode_str k2 ++ ": " ++ Json.encode float_repr 2 1 v2
         ++ Json.newline ++ "}")%string.
Proof.
  unfold Json.dumps. cbn [Json.encode map fst snd Json.join String.concat].
  unfold Json.newline_indent. cbn [Json.spaces Nat.mul Nat.add].
  rewrite !ReaderFacts.append_assoc. reflexivity.
Qed.

Lemma serialize_eq float_repr (d : Dict.t pyobj) (n c : pyobj) :
  Dict.get d "number_of_clusters" = Some n ->
  Dict.get d "clusters" = Some c ->
  serialize_clusters_to_json float_repr d
  = Ok (Json.dumps float_repr 2
          (PyDict [("number_of_clusters", n); ("clusters", c)]%string)).
Proof.
  intros Hn Hc. unfold serialize_clusters_to_json, Dict.getitem.
  rewrite Hn, Hc. reflexivity.
Qed.

End ExportFacts.

Module RecordFacts.

Section Records.
Variable sqrt : Q -> Q.
Variable cluster_centers : nat -> nat -> Z -> list (list Q) -> list (list Q).



End Records.

End RecordFacts.

(** * The claims *)

(** The scenario of the specification: four people, two age groups, k = 2.
    The reference run puts Alice and Carol in one cluster, Bob and Dan in
    the other. *)
Example people_are_split_by_age :
  clusters_of Reference.people_result
  = [ ("Cluster 0", PyList [PyStr "Alice"; PyStr "Carol"]);
      ("Cluster 1", PyList [PyStr "Bob"; PyStr "Dan"]) ]%string.
Proof. reflexivity. Qed.

Import OutcomeFacts ExportFacts RecordFacts.

(** C1.  For every valid input table the clusters mapping of a run is a
    total partition of the rows.  The member lists are the identifiers at
    the row numbers [parts]; every row number occurs in exactly one part
    (the parts together are a permutation of [0, ..., n-1]); inside a part
    the row numbers ascend, so identifiers keep the order of the table; and
    the lengths of the lists add up to the number of rows.  When the "name"
    cells are text, the identifiers are the names as uploaded. *)
Theorem clusters_partition_the_rows
  (read_csv : string -> result DataFrame) (sqrt : Q -> Q)
  (cluster_centers : nat -> nat -> Z -> list (list Q) -> list (list Q))
  (global_rng : nat) (file_bytes : string) (df : DataFrame) (k_opt : Z)
  (r : pyobj) :
  read_csv file_bytes = Ok df ->
  well_formed df = true ->
  run_clustering_pipeline read_csv sqrt cluster_centers global_rng file_bytes k_opt
  = Ok r ->
  exists parts : list (list nat),
    map (fun kv => members (snd kv)) (clusters_of r)
    = map (map (fun i => nth i (identifiers sqrt df) PyNone)) parts /\
    Permutation (concat parts) (seq 0 (nrows df)) /\
    Forall (StronglySorted lt) parts /\
    list_sum (map (fun kv => length (members (snd kv))) (clusters_of r))
    = nrows df /\
    length (identifiers sqrt df) = nrows df /\
    (forall names,
        get_column df "name" = Some (Object names) ->
        identifiers sqrt df = map PyStr names).
Proof.
  intros Hread Hwf Hrun.
  rewrite (run_clustering_pipeline_eq _ _ _ _ _ _ Hread) in Hrun.
  destruct (run_shape _ _ _ _ _ Hwf Hrun)
    as (labels & Hlen & _ & _ & _ & _ & Hclusters & Hids).
  set (cs := sorted Z.leb (unique Z.eqb labels)) in *.
  assert (Hperm : Permutation (concat (map (rows_with labels) cs)) (seq 0 (nrows df))).
  { rewrite <- Hlen. apply rows_partition. }
  exists (map (rows_with labels) cs). repeat split.
  - rewrite Hclusters, !map_map. reflexivity.
  - exact Hperm.
  - apply Forall_map, Forall_forall. intros c _. apply positions_ascending.
  - rewrite Hclusters, map_map. simpl.
    rewrite <- (@cluster_lists_sum (identifiers sqrt df) _ _ Hperm), map_map.
    reflexivity.
  - exact Hids.
  - intros names. apply PrepareFacts.identifiers_text.
Qed.

Lemma clusters_partition_the_rows_witness :
  Reference.read_csv Reference.csv_people = Ok Reference.frame_people /\
  well_formed Reference.frame_people = true /\
  Reference.run Reference.csv_people 2 = Ok Reference.people_result /\
  list_sum (map (fun kv => length (members (snd kv)))
                (clusters_of Reference.people_result)) = 4.
Proof.
  assert (H1 : Reference.read_csv Reference.csv_people = Ok Reference.frame_people)
    by reflexivity.
  assert (H2 : well_formed Reference.frame_people = true) by reflexivity.
  assert (H3 : Reference.run Reference.csv_people 2 = Ok Reference.people_result)
    by (vm_compute; reflexivity).
  destruct (clusters_partition_the_rows _ _ _ _ _ _ H1 H2 H3)
    as (parts & _ & _ & _ & Hsum & _).
  repeat split; assumption.
Defined.


(** C2, as amended.  The clusters mapping has one entry, labelled
    "Cluster i", for every label i that k-means gave to at least one row,
    in ascending order of i, and no other entry: a label without rows is
    left out, no member list is empty, and with a centroid search that
    returns k centres the labels lie in [0, k-1], so there are at most k
    entries. *)
Theorem clusters_list_the_labels_in_use
  (read_csv : string -> result DataFrame) (sqrt : Q -> Q)
  (cluster_centers : nat -> nat -> Z -> list (list Q) -> list (list Q))
  (global_rng : nat) (file_bytes : string) (df : DataFrame) (k_opt : Z)
  (r : pyobj) :
  (forall seed n_init k X,
      (1 <= k <= Z.of_nat (length X))%Z ->
      length (cluster_centers seed n_init k X) = Z.to_nat k) ->
  read_csv file_bytes = Ok df ->
  well_formed df = true ->
  run_clustering_pipeline read_csv sqrt cluster_centers global_rng file_bytes k_opt
  = Ok r ->
  Dict.keys (clusters_of r)
  = map cluster_label (sorted Z.leb (unique Z.eqb (assigned_labels r))) /\
  StronglySorted Z.lt (sorted Z.leb (unique Z.eqb (assigned_labels r))) /\
  (forall c, In (cluster_label c) (Dict.keys (clusters_of r))
             <-> In c (assigned_labels r)) /\
  Forall (fun c => (0 <= c < k_opt)%Z) (assigned_labels r) /\
  Forall (fun kv => members (snd kv) <> []) (clusters_of r) /\
  length (clusters_of r) <= Z.to_nat k_opt /\
  length (assigned_labels r) = nrows df.
Proof.
  intros Hcenters Hread Hwf Hrun.
  rewrite (run_clustering_pipeline_eq _ _ _ _ _ _ Hread) in Hrun.
  destruct (run_shape _ _ _ _ _ Hwf Hrun)
    as (labels & Hlen & Hk & (seed & Hseed) & _ & Hassigned & Hclusters & Hids).
  rewrite Hassigned.
  assert (Hkeys : Dict.keys (clusters_of r)
                  = map cluster_label (sorted Z.leb (unique Z.eqb labels))).
  { rewrite Hclusters. unfold Dict.keys. now rewrite map_map. }
  assert (Hrange : Forall (fun c => (0 <= c < k_opt)%Z) labels).
  { assert (HX : length (feature_matrix sqrt df) = nrows df).
    { apply (f_equal (@length Z)) in Hseed. unfold assign_labels in Hseed.
      rewrite length_map in Hseed. congruence. }
    specialize (Hcenters seed 10 k_opt (feature_matrix sqrt df)).
    rewrite HX in Hcenters. specialize (Hcenters Hk).
    rewrite Hseed.
    eapply Forall_impl; [|apply assign_labels_range].
    - simpl. intros c Hc. rewrite Hcenters in Hc. lia.
    - intros E. rewrite E in Hcenters. simpl in Hcenters. lia. }
  repeat split.
  - exact Hkeys.
  - apply OrderFacts.distinct_labels_ascending.
  - rewrite Hkeys, in_map_iff. intros (c' & E & Hin).
    apply LabelFacts.cluster_label_inj in E. subst c'.
    now apply OrderFacts.unique_In, OrderFacts.sorted_In.
  - intros Hin. rewrite Hkeys. apply in_map.
    now apply OrderFacts.sorted_In, OrderFacts.unique_In.
  - exact Hrange.
  - rewrite Hclusters. apply Forall_map, Forall_forall. intros c Hc. simpl.
    rewrite OrderFacts.sorted_In, OrderFacts.unique_In in Hc.
    intros E. apply map_eq_nil in E.
    exact (@positions_nonempty labels c 0 Hc E).
  - rewrite Hclusters, length_map.
    apply LabelUseFacts.bounded_distinct_length.
    + apply OrderFacts.sorted_NoDup, OrderFacts.unique_NoDup.
    + rewrite Forall_forall in *. intros c Hc. apply Hrange.
      now apply OrderFacts.unique_In, OrderFacts.sorted_In.
  - exact Hlen.
Qed.

Lemma clusters_list_the_labels_in_use_witness :
  Reference.read_csv Reference.csv_people = Ok Reference.frame_people /\
  well_formed Reference.frame_people = true /\
  Reference.run Reference.csv_people 2 = Ok Reference.people_result /\
  Dict.keys (clusters_of Reference.people_result)
  = map cluster_label
        (sorted Z.leb (unique Z.eqb (assigned_labels Reference.people_result))).
Proof.
  assert (H1 : Reference.read_csv Reference.csv_people = Ok Reference.frame_people)
    by reflexivity.
  assert (H2 : well_formed Reference.frame_people = true) by reflexivity.
  assert (H3 : Reference.run Reference.csv_people 2 = Ok Reference.people_result)
    by (vm_compute; reflexivity).
  destruct (@clusters_list_the_labels_in_use
              Reference.read_csv Reference.sqrt Reference.cluster_centers 0
              Reference.csv_people Reference.frame_people 2 Reference.people_result
              LabelUseFacts.reference_centers_length H1 H2 H3) as (Hkeys & _).
  repeat split; assumption.
Defined.

(** C2, the claim as stated fails.  The upload [csv_constant] has three
    rows with the same age and k = 3: whatever the reader's, the square
    root's and the centroid search's details, the run succeeds and the
    clusters mapping has one entry, not the three labels "Cluster 0",
    "Cluster 1", "Cluster 2". *)
Lemma constant_features_give_one_cluster :
  Reference.read_csv Reference.csv_constant = Ok Reference.frame_constant /\
  well_formed Reference.frame_constant = true /\
  (forall read_csv sqrt cluster_centers global_rng,
      read_csv Reference.csv_constant = Ok Reference.frame_constant ->
      exists r,
        run_clustering_pipeline read_csv sqrt cluster_centers global_rng
          Reference.csv_constant 3 = Ok r /\
        length (clusters_of r) = 1 /\
        Dict.keys (clusters_of r) <> map cluster_label [0; 1; 2]%Z).
Proof.
  split; [reflexivity|]. split; [reflexivity|].
  intros read_csv sqrt cluster_centers global_rng Hread.
  rewrite (run_clustering_pipeline_eq _ _ _ _ _ _ Hread).
  destruct (@cluster_frame_ok sqrt cluster_centers global_rng
              Reference.frame_constant 3) as [r Hr];
    try reflexivity.
  - vm_compute. discriminate.
  - vm_compute. split; discriminate.
  - exists r. split; [exact Hr|].
    destruct (@single_cluster sqrt cluster_centers global_rng
                Reference.frame_constant 3 r [0 # 3]%Q) as [l Hl];
      [reflexivity | vm_compute; repeat constructor | exact Hr |].
    rewrite Hl. split; [reflexivity|]. simpl. discriminate.
Qed.

(** C3.  The pipeline is deterministic: two runs on the same bytes with
    the same k give the same result, hence the same clusters, whatever
    the state of the global random generator at either run; k-means is
    always seeded with 42. *)
Theorem pipeline_is_deterministic
  (read_csv : string -> result DataFrame) (sqrt : Q -> Q)
  (cluster_centers : nat -> nat -> Z -> list (list Q) -> list (list Q))
  (rng_first rng_second : nat) (file_bytes : string) (k_opt : Z) :
  run_clustering_pipeline read_csv sqrt cluster_centers rng_first file_bytes k_opt
  = run_clustering_pipeline read_csv sqrt cluster_centers rng_second file_bytes k_opt
  /\
  (forall r1 r2,
      run_clustering_pipeline read_csv sqrt cluster_centers rng_first file_bytes k_opt
      = Ok r1 ->
      run_clustering_pipeline read_csv sqrt cluster_centers rng_second file_bytes k_opt
      = Ok r2 ->
      clusters_of r1 = clusters_of r2).
Proof.
  assert (E : run_clustering_pipeline read_csv sqrt cluster_centers rng_first
                file_bytes k_opt
              = run_clustering_pipeline read_csv sqrt cluster_centers rng_second
                  file_bytes k_opt).
  { unfold run_clustering_pipeline.
    destruct (read_csv file_bytes) as [df|e]; [|reflexivity].
    cbn [bind]. rewrite !cluster_frame_eq.
    unfold KMeans_fit_predict. reflexivity. }
  split; [exact E|].
  intros r1 r2 H1 H2. rewrite E, H2 in H1. now injection H1 as ->.
Qed.

(** C4.  A table without a column named exactly "name" is rejected with
    the pipeline's first [ValueError], a schema error, whatever its other
    columns are; there is no result. *)
Theorem missing_name_is_rejected
  (read_csv : string -> result DataFrame) (sqrt : Q -> Q)
  (cluster_centers : nat -> nat -> Z -> list (list Q) -> list (list Q))
  (global_rng : nat) (file_bytes : string) (df : DataFrame) (k_opt : Z) :
  read_csv file_bytes = Ok df ->
  has_column "name" df = false ->
  run_clustering_pipeline read_csv sqrt cluster_centers global_rng file_bytes k_opt
  = Raise (ValueError msg_missing_name)
  /\ SchemaError (ValueError msg_missing_name) = true.
Proof.
  intros Hread Hname.
  rewrite (run_clustering_pipeline_eq _ _ _ _ _ _ Hread).
  split; [now apply cluster_frame_missing_name | reflexivity].
Qed.

Lemma missing_name_is_rejected_witness :
  Reference.read_csv Reference.csv_no_name = Ok Reference.frame_no_name /\
  has_column "name" Reference.frame_no_name = false /\
  Reference.run Reference.csv_no_name 3 = Raise (ValueError msg_missing_name).
Proof.
  assert (H1 : Reference.read_csv Reference.csv_no_name = Ok Reference.frame_no_name)
    by reflexivity.
  assert (H2 : has_column "name" Reference.frame_no_name = false) by reflexivity.
  destruct (@missing_name_is_rejected
              Reference.read_csv Reference.sqrt Reference.cluster_centers 0
              Reference.csv_no_name Reference.frame_no_name 3 H1 H2) as [H _].
  repeat split; assumption.
Defined.

(** C5, as amended.  A table in which no column at all, the identifier
    included, is numeric after encoding is rejected with a schema error
    and gives no result: the "no numeric column" [ValueError] when it has
    a "name" column, the "missing name" one otherwise. *)
Theorem no_numeric_column_is_rejected
  (read_csv : string -> result DataFrame) (sqrt : Q -> Q)
  (cluster_centers : nat -> nat -> Z -> list (list Q) -> list (list Q))
  (global_rng : nat) (file_bytes : string) (df : DataFrame) (k_opt : Z) :
  read_csv file_bytes = Ok df ->
  numeric_after_encoding df = [] ->
  run_clustering_pipeline read_csv sqrt cluster_centers global_rng file_bytes k_opt
  = Raise (ValueError (if has_column "name" df
                       then msg_no_numeric else msg_missing_name))
  /\ SchemaError (ValueError (if has_column "name" df
                              then msg_no_numeric else msg_missing_name)) = true.
Proof.
  intros Hread Hnum.
  rewrite (run_clustering_pipeline_eq _ _ _ _ _ _ Hread).
  split; [|reflexivity].
  destruct (has_column "name" df) eqn:Hname.
  - now apply cluster_frame_no_numeric.
  - now apply cluster_frame_missing_name.
Qed.

Lemma no_numeric_column_is_rejected_witness :
  Reference.read_csv Reference.csv_text_only = Ok Reference.frame_text_only /\
  numeric_after_encoding Reference.frame_text_only = [] /\
  Reference.run Reference.csv_text_only 3 = Raise (ValueError msg_no_numeric).
Proof.
  assert (H1 : Reference.read_csv Reference.csv_text_only
               = Ok Reference.frame_text_only) by reflexivity.
  assert (H2 : numeric_after_encoding Reference.frame_text_only = []) by reflexivity.
  destruct (@no_numeric_column_is_rejected
              Reference.read_csv Reference.sqrt Reference.cluster_centers 0
              Reference.csv_text_only Reference.frame_text_only 3 H1 H2) as [H _].
  repeat split; assumption.
Defined.

(** C5, the claim as stated fails.  In the upload [csv_numeric_name] the
    only column is "name" and its cells are numbers: with the identifier
    column removed no numeric column is left, yet every run with k = 2
    succeeds. *)
Lemma numeric_name_alone_is_accepted :
  Reference.read_csv Reference.csv_numeric_name = Ok Reference.frame_numeric_name /\
  numeric_features Reference.frame_numeric_name = [] /\
  (forall read_csv sqrt cluster_centers global_rng,
      read_csv Reference.csv_numeric_name = Ok Reference.frame_numeric_name ->
      exists r,
        run_clustering_pipeline read_csv sqrt cluster_centers global_rng
          Reference.csv_numeric_name 2 = Ok r).
Proof.
  split; [reflexivity|]. split; [reflexivity|].
  intros read_csv sqrt cluster_centers global_rng Hread.
  rewrite (run_clustering_pipeline_eq _ _ _ _ _ _ Hread).
  apply cluster_frame_ok; try reflexivity.
  - vm_compute. discriminate.
  - vm_compute. split; discriminate.
Qed.

(** C6, as amended.  A table that passes the schema checks (it has a
    "name" column and a numeric column after encoding) and has fewer rows
    than the requested k is rejected by the estimators' input validation,
    a clustering error; there is no result. *)
Theorem too_few_rows_is_rejected
  (read_csv : string -> result DataFrame) (sqrt : Q -> Q)
  (cluster_centers : nat -> nat -> Z -> list (list Q) -> list (list Q))
  (global_rng : nat) (file_bytes : string) (df : DataFrame) (k_opt : Z) :
  read_csv file_bytes = Ok df ->
  well_formed df = true ->
  has_column "name" df = true ->
  numeric_after_encoding df <> [] ->
  (Z.of_nat (nrows df) < k_opt)%Z ->
  run_clustering_pipeline read_csv sqrt cluster_centers global_rng file_bytes k_opt
  = Raise EstimatorValueError
  /\ ClusteringError EstimatorValueError = true.
Proof.
  intros Hread Hwf Hname Hnum Hk.
  rewrite (run_clustering_pipeline_eq _ _ _ _ _ _ Hread).
  split; [now apply cluster_frame_too_few_rows | reflexivity].
Qed.

Lemma too_few_rows_is_rejected_witness :
  Reference.read_csv Reference.csv_people = Ok Reference.frame_people /\
  (Z.of_nat (nrows Reference.frame_people) < 5)%Z /\
  Reference.run Reference.csv_people 5 = Raise EstimatorValueError.
Proof.
  assert (H1 : Reference.read_csv Reference.csv_people = Ok Reference.frame_people)
    by reflexivity.
  assert (H2 : well_formed Reference.frame_people = true) by reflexivity.
  assert (H3 : has_column "name" Reference.frame_people = true) by reflexivity.
  assert (H4 : numeric_after_encoding Reference.frame_people <> [])
    by (vm_compute; discriminate).
  assert (H5 : (Z.of_nat (nrows Reference.frame_people) < 5)%Z)
    by (vm_compute; reflexivity).
  destruct (@too_few_rows_is_rejected
              Reference.read_csv Reference.sqrt Reference.cluster_centers 0
              Reference.csv_people Reference.frame_people 5 H1 H2 H3 H4 H5)
    as [H _].
  repeat split; assumption.
Defined.

(** C6, the claim as stated fails.  The upload [csv_no_name] has two rows
    and k = 3, so fewer rows than clusters; its columns are "Name" and
    "age", none is called "name", and every run ends in the schema error
    for the missing column, which is not a clustering error. *)
Lemma missing_name_comes_before_row_count :
  Reference.read_csv Reference.csv_no_name = Ok Reference.frame_no_name /\
  (Z.of_nat (nrows Reference.frame_no_name) < 3)%Z /\
  (forall read_csv sqrt cluster_centers global_rng,
      read_csv Reference.csv_no_name = Ok Reference.frame_no_name ->
      run_clustering_pipeline read_csv sqrt cluster_centers global_rng
        Reference.csv_no_name 3 = Raise (ValueError msg_missing_name)) /\
  ClusteringError (ValueError msg_missing_name) = false.
Proof.
  split; [reflexivity|]. split; [vm_compute; reflexivity|]. split; [|reflexivity].
  intros read_csv sqrt cluster_centers global_rng Hread.
  rewrite (run_clustering_pipeline_eq _ _ _ _ _ _ Hread).
  now apply cluster_frame_missing_name.
Qed.

(** C7.  The export of a clustering result is JSON text that reads back
    ([json.loads], with fuel for its size) as an object with exactly the
    two keys "number_of_clusters" and "clusters", holding the values the
    result has under them.  The text opens the object, puts each entry on
    a line of its own behind two spaces, and closes the object on the last
    line.  Nothing else of the result (no row detail) reaches the text.
    Floats are printed as number tokens. *)
Theorem export_has_two_keys_and_two_space_indent
  (float_repr : Q -> string) (clustering_result : Dict.t pyobj) (n c : pyobj) :
  (forall q, number_token (float_repr q) = true) ->
  Dict.get clustering_result "number_of_clusters" = Some n ->
  Dict.get clustering_result "clusters" = Some c ->
  exists text : string,
    serialize_clusters_to_json float_repr clustering_result = Ok text /\
    (forall fuel,
        size n + size c + 3 <= fuel ->
        JsonReader.loads fuel text
        = Some (JObject [ ("number_of_clusters", to_json float_repr n);
                          ("clusters", to_json float_repr c) ]%string)) /\
    text
    = ("{" ++ Json.newline ++ "  "
           ++ Json.encode_str "number_of_clusters" ++ ": "
           ++ Json.encode float_repr 2 1 n
           ++ "," ++ Json.newline ++ "  "
           ++ Json.encode_str "clusters" ++ ": "
           ++ Json.encode float_repr 2 1 c
           ++ Json.newline ++ "}")%string /\
    (forall other : Dict.t pyobj,
        Dict.get other "number_of_clusters" = Some n ->
        Dict.get other "clusters" = Some c ->
        serialize_clusters_to_json float_repr other = Ok text).
Proof.
  intros Htoken Hn Hc.
  exists (Json.dumps float_repr 2
            (PyDict [("number_of_clusters", n); ("clusters", c)]%string)).
  repeat split.
  - now apply serialize_eq.
  - intros fuel Hfuel.
    rewrite (RoundTrip.loads_dumps float_repr Htoken 2); [reflexivity|].
    simpl. lia.
  - apply dumps_two_entries.
  - intros other Hn' Hc'. now apply serialize_eq.
Qed.

Lemma export_has_two_keys_and_two_space_indent_witness :
  Reference.run Reference.csv_people 2 = Ok (PyDict Reference.people_dict) /\
  exists text,
    serialize_clusters_to_json Reference.float_repr Reference.people_dict = Ok text /\
    JsonReader.loads 20 text
    = Some (JObject
              [ ("number_of_clusters", JNumber "2");
                ("clusters",
                 JObject [ ("Cluster 0", JArray [JString "Alice"; JString "Carol"]);
                           ("Cluster 1", JArray [JString "Bob"; JString "Dan"]) ])
              ]%string).
Proof.
  split; [vm_compute; reflexivity|].
  destruct (@export_has_two_keys_and_two_space_indent
              Reference.float_repr Reference.people_dict _ _
              ReaderFacts.reference_float_repr_token eq_refl eq_refl)
    as (text & Htext & Hloads & _).
  exists text. split; [exact Htext|].
  rewrite (Hloads 20) by (vm_compute; lia). reflexivity.
Defined.








(** * Further properties of the code *)

(** ** The encoding step *)

Module EncodeFacts.

Lemma candidate_columns_NoDup : NoDup candidate_columns.
Proof.
  unfold candidate_columns.
  repeat constructor; simpl; intuition discriminate.
Qed.

Lemma fold_left_invariant {A B} (f : A -> B -> A) (P : A -> Prop) (l : list B) :
  (forall a x, In x l -> P a -> P (f a x)) ->
  forall a, P a -> P (fold_left f l a).
Proof.
  induction l as [|x l IH]; simpl; intros Hstep a Ha; [exact Ha|].
  apply IH; [intros; apply Hstep; auto | apply Hstep; auto].
Qed.

Lemma encode_column_hit acc col s :
  get_column (fst acc) col = Some s ->
  encode_column acc col
  = (set_column (fst acc) col (fst (LabelEncoder_fit_transform s)),
     Dict.set (snd acc) col (snd (LabelEncoder_fit_transform s))).
Proof.
  destruct acc as [df encs]. simpl. intros H. unfold encode_column.
  rewrite H. now destruct (LabelEncoder_fit_transform s).
Qed.

Lemma encode_column_encoders_other acc col c :
  c <> col ->
  Dict.get (snd (encode_column acc col)) c = Dict.get (snd acc) c.
Proof.
  destruct acc as [df encs]. unfold encode_column. simpl. intros Hne.
  destruct (get_column df col) as [s|]; simpl; auto.
  destruct (LabelEncoder_fit_transform s) as [codes enc]. simpl.
  now apply DictFacts.get_set_other.
Qed.

(** A column of the loop is encoded once, from its cells in the frame
    the loop started with, and its encoder is stored under its name. *)
Lemma fold_encode_hit cols :
  NoDup cols ->
  forall acc col s,
    In col cols ->
    get_column (fst acc) col = Some s ->
    get_column (fst (fold_left encode_column cols acc)) col
    = Some (fst (LabelEncoder_fit_transform s)) /\
    Dict.get (snd (fold_left encode_column cols acc)) col
    = Some (snd (LabelEncoder_fit_transform s)).
Proof.
  induction 1 as [|c cols Hc Hnd IH]; intros acc col s Hin Hget; [destruct Hin|].
  simpl. destruct Hin as [->|Hin].
  - rewrite (encode_column_hit acc col Hget).
    apply (fold_left_invariant encode_column
             (fun a => get_column (fst a) col
                       = Some (fst (LabelEncoder_fit_transform s)) /\
                       Dict.get (snd a) col
                       = Some (snd (LabelEncoder_fit_transform s)))).
    + intros a x Hx [H1 H2].
      assert (Hne : col <> x) by (intros ->; contradiction).
      split.
      * now rewrite FrameFacts.encode_column_get.
      * now rewrite encode_column_encoders_other.
    + simpl. split.
      * unfold get_column, set_column. apply DictFacts.get_set_same.
      * apply DictFacts.get_set_same.
  - apply IH; auto.
    rewrite FrameFacts.encode_column_get; auto.
    intros ->. contradiction.
Qed.

Lemma encode_hit df col s :
  In col candidate_columns ->
  get_column df col = Some s ->
  get_column (fst (_encode_categorical_columns df)) col
  = Some (fst (LabelEncoder_fit_transform s)) /\
  Dict.get (snd (_encode_categorical_columns df)) col
  = Some (snd (LabelEncoder_fit_transform s)).
Proof.
  intros Hin Hget. unfold _encode_categorical_columns.
  set (cat_cols := filter _ candidate_columns).
  assert (Hcol : In col cat_cols).
  { apply filter_In. split; [exact Hin|].
    apply FrameFacts.has_column_get. now exists s. }
  assert (Hnd : NoDup cat_cols) by (apply NoDup_filter, candidate_columns_NoDup).
  clearbody cat_cols.
  destruct cat_cols as [|c cs]; [destruct Hcol|].
  cbn [is_empty]. now apply fold_encode_hit.
Qed.

Lemma has_column_keys {V} (d : Dict.t V) (c : string) :
  existsb (String.eqb c) (Dict.keys d) = true <-> In c (Dict.keys d).
Proof.
  rewrite existsb_exists. split.
  - intros (x & Hx & E). apply String.eqb_eq in E. now subst.
  - intros H. exists c. split; [exact H | apply String.eqb_refl].
Qed.

(** The loop stores the encoders in the order it visits the columns. *)
Lemma fold_encode_keys cols :
  NoDup cols ->
  forall acc,
    (forall c, In c cols -> has_column c (fst acc) = true) ->
    (forall c, In c cols -> ~ In c (Dict.keys (snd acc))) ->
    Dict.keys (snd (fold_left encode_column cols acc))
    = Dict.keys (snd acc) ++ cols.
Proof.
  induction 1 as [|c cols Hc Hnd IH]; intros acc Hhas Hfresh; simpl.
  - now rewrite app_nil_r.
  - destruct (proj1 (FrameFacts.has_column_get (fst acc) c) (Hhas c (or_introl eq_refl)))
      as [s Hs].
    rewrite IH.
    + rewrite (encode_column_hit acc c Hs). simpl.
      rewrite DictFacts.set_fresh.
      * unfold Dict.keys. rewrite map_app, <- app_assoc. reflexivity.
      * apply DictFacts.get_none_not_in. apply Hfresh. now left.
    + intros c' Hc'.
      rewrite (@FrameFacts.has_column_columns (fst (encode_column acc c)) (fst acc) c').
      * apply Hhas. now right.
      * apply FrameFacts.encode_column_columns.
    + intros c' Hc'. rewrite (encode_column_hit acc c Hs). simpl.
      rewrite DictFacts.set_fresh
        by (apply DictFacts.get_none_not_in; apply Hfresh; now left).
      unfold Dict.keys. rewrite map_app, in_app_iff. simpl.
      intros [H|[H|[]]].
      * apply (Hfresh c'); [now right | exact H].
      * subst c'. contradiction.
Qed.

Lemma encoders_keys df :
  Dict.keys (snd (_encode_categorical_columns df))
  = filter (fun c => has_column c df) candidate_columns.
Proof.
  unfold _encode_categorical_columns.
  set (cat_cols := filter _ candidate_columns).
  assert (Hhas : forall c, In c cat_cols -> has_column c df = true).
  { intros c Hc. apply filter_In in Hc. tauto. }
  assert (Hnd : NoDup cat_cols) by (apply NoDup_filter, candidate_columns_NoDup).
  clearbody cat_cols.
  destruct (is_empty cat_cols) eqn:E.
  - destruct cat_cols; [reflexivity | discriminate].
  - rewrite fold_encode_keys; auto.
Qed.

(** *** Codes and classes of a column of text *)

Section Codes.
Context {A : Type} (leb eqb : A -> A -> bool).
Hypothesis eqb_eq : forall x y, eqb x y = true <-> x = y.

Lemma insert_sorted_perm_gen (x : A) l :
  Permutation (insert_sorted leb x l) (x :: l).
Proof.
  induction l as [|y l IH]; simpl; auto.
  destruct (leb x y); auto.
  rewrite IH. apply perm_swap.
Qed.

Lemma sorted_perm_gen (l : list A) : Permutation (sorted leb l) l.
Proof.
  induction l as [|x l IH]; simpl; auto.
  rewrite insert_sorted_perm_gen. now constructor.
Qed.

Lemma unique_In_gen (x : A) l : In x (unique eqb l) <-> In x l.
Proof.
  induction l as [|y l IH]; simpl; [tauto|].
  rewrite filter_In, IH. split.
  - tauto.
  - intros [H|H]; [tauto|].
    destruct (eqb y x) eqn:E.
    + left. now apply eqb_eq.
    + right. split; [exact H | reflexivity].
Qed.

Lemma unique_NoDup_gen (l : list A) : NoDup (unique eqb l).
Proof.
  induction l as [|y l IH]; simpl; constructor.
  - rewrite filter_In. intros [_ H]. cbv beta in H.
    rewrite (proj2 (eqb_eq y y) eq_refl) in H. discriminate.
  - now apply NoDup_filter.
Qed.

Lemma classes_In (x : A) l : In x (classes_of leb eqb l) <-> In x l.
Proof.
  unfold classes_of. split; intros H.
  - apply (proj1 (unique_In_gen x l)).
    eapply Permutation_in; [apply sorted_perm_gen | exact H].
  - eapply Permutation_in; [symmetry; apply sorted_perm_gen|].
    now apply (proj2 (unique_In_gen x l)).
Qed.

Lemma classes_NoDup (l : list A) : NoDup (classes_of leb eqb l).
Proof.
  unfold classes_of. eapply Permutation_NoDup.
  - symmetry. apply sorted_perm_gen.
  - apply unique_NoDup_gen.
Qed.

Lemma index_of_nth (d x : A) l :
  In x l -> nth (index_of eqb x l) l d = x /\ index_of eqb x l < length l.
Proof.
  induction l as [|y l IH]; simpl; [tauto|]. intros H.
  destruct (eqb x y) eqn:E.
  - apply eqb_eq in E. subst. split; [reflexivity | lia].
  - destruct H as [->|H].
    + rewrite (proj2 (eqb_eq x x) eq_refl) in E. discriminate.
    + destruct (IH H). split; [assumption | lia].
Qed.

(** Decoding the codes with the classes gives the cells back. *)
Lemma decode_encode (d : A) (cells : list A) :
  map (fun code => nth (Z.to_nat code) (classes_of leb eqb cells) d)
      (encode leb eqb cells)
  = cells.
Proof.
  unfold encode. rewrite map_map.
  transitivity (map (fun x : A => x) cells); [|apply map_id].
  apply map_ext_in. intros x Hx.
  rewrite Nat2Z.id. apply index_of_nth. now apply classes_In.
Qed.

Lemma encode_range (cells : list A) :
  Forall (fun code => (0 <= code < Z.of_nat (length (classes_of leb eqb cells)))%Z)
         (encode leb eqb cells).
Proof.
  unfold encode. apply Forall_map, Forall_forall. intros x Hx.
  destruct (index_of_nth x x (classes_of leb eqb cells)) as [_ H].
  - now apply classes_In.
  - lia.
Qed.

End Codes.

End EncodeFacts.

(** ** The scaling step *)

Module StandardizeFacts.

Local Open Scope Q_scope.












End StandardizeFacts.

(** ** More on the steps of the pipeline *)

Unset Implicit Arguments.

Module StepFacts.



Lemma keys_set {V} (d : Dict.t V) k v :
  Dict.keys (Dict.set d k v)
  = if existsb (String.eqb k) (Dict.keys d) then Dict.keys d
    else Dict.keys d ++ [k].
Proof.
  unfold Dict.keys. induction d as [|[k0 w] d IH]; simpl; [reflexivity|].
  destruct (String.eqb k k0); simpl; [reflexivity|].
  rewrite IH. destruct (existsb _ _); reflexivity.
Qed.

Lemma positions_In (labels : list Z) (c : Z) :
  forall i off,
    i < length labels -> nth i labels 0%Z = c ->
    In (off + i) (positions (map (Z.eqb c) labels) off).
Proof.
  induction labels as [|x labels IH]; intros i off Hi Hc; simpl in *; [lia|].
  destruct i as [|i].
  - subst x. rewrite Z.eqb_refl. left. lia.
  - assert (H : In (S off + i) (positions (map (Z.eqb c) labels) (S off))).
    { apply IH; [lia | exact Hc]. }
    replace (off + S i) with (S off + i) by lia.
    destruct (Z.eqb c x); [now right | exact H].
Qed.

Lemma size_result_of k df :
  size (PyInt k) + size (PyDict (summarize df)) + 3 <= size (result_of k df).
Proof. unfold result_of. simpl. lia. Qed.

End StepFacts.

Import EncodeFacts StandardizeFacts StepFacts.

(** X1.  Label encoding keeps the shape of the frame: the same column
    names in the same order and the same number of rows; a column that is
    not one of the four recognised names keeps its cells; a recognised
    column that is present becomes a column of integer codes of the same
    length; and the encoders are stored under the names of the recognised
    columns that are present, in the order of the candidate list. *)
Theorem encoding_keeps_the_frame_shape (df : DataFrame) :
  columns (fst (_encode_categorical_columns df)) = columns df /\
  nrows (fst (_encode_categorical_columns df)) = nrows df /\
  (forall col,
      ~ In col candidate_columns ->
      get_column (fst (_encode_categorical_columns df)) col = get_column df col) /\
  (forall col s,
      In col candidate_columns ->
      get_column df col = Some s ->
      exists codes,
        get_column (fst (_encode_categorical_columns df)) col = Some (Int64 codes) /\
        length codes = series_length s) /\
  Dict.keys (snd (_encode_categorical_columns df))
  = filter (fun col => has_column col df) candidate_columns.
Proof.
  repeat split.
  - apply encode_columns.
  - apply encode_nrows.
  - intros col Hcol. now apply encode_get.
  - intros col s Hin Hget.
    destruct (@encode_hit df col s Hin Hget) as [H _].
    pose proof (fit_transform_length s) as Hlen.
    destruct s as [vs|vs|vs]; simpl in *; eexists; split; eauto.
  - apply encoders_keys.
Qed.

(** X2.  For a recognised column of text, the stored encoder decodes the
    codes back to the cells: the code of a cell is the position of the
    cell's text in the encoder's classes, every code is a valid position,
    and the classes are the distinct texts of the column. *)
Theorem text_codes_decode_to_cells
  (df : DataFrame) (col : string) (cells : list string) :
  In col candidate_columns ->
  get_column df col = Some (Object cells) ->
  exists codes classes,
    get_column (fst (_encode_categorical_columns df)) col = Some (Int64 codes) /\
    Dict.get (snd (_encode_categorical_columns df)) col = Some (Object classes) /\
    map (fun code => nth (Z.to_nat code) classes EmptyString) codes = cells /\
    Forall (fun code => (0 <= code < Z.of_nat (length classes))%Z) codes /\
    NoDup classes /\
    (forall v, In v classes <-> In v cells).
Proof.
  intros Hin Hget.
  destruct (@encode_hit df col (Object cells) Hin Hget) as [H1 H2]. simpl in H1, H2.
  exists (encode String.leb String.eqb cells),
         (classes_of String.leb String.eqb cells).
  repeat split; auto.
  - apply decode_encode. apply String.eqb_eq.
  - apply encode_range. apply String.eqb_eq.
  - apply classes_NoDup. apply String.eqb_eq.
  - apply classes_In. apply String.eqb_eq.
  - apply classes_In. apply String.eqb_eq.
Qed.

Lemma text_codes_decode_to_cells_witness :
  exists codes classes,
    get_column (fst (_encode_categorical_columns Reference.frame_people))
               "gaming_platform_top1" = Some (Int64 codes) /\
    map (fun code => nth (Z.to_nat code) classes EmptyString) codes
    = ["PC"; "Console"; "PC"; "Console"]%string.
Proof.
  destruct (@text_codes_decode_to_cells
              Reference.frame_people "gaming_platform_top1"
              ["PC"; "Console"; "PC"; "Console"]%string)
    as (codes & classes & H1 & _ & H3 & _).
  - simpl. tauto.
  - reflexivity.
  - exists codes, classes. split; assumption.
Defined.

(** X3.  What scaling does to a frame.  Without a numeric column the frame
    comes back as it is, with no column names and an unfitted scaler.
    With a numeric column and no row the scaler's validation raises.
    Otherwise the step succeeds: it reports the numeric column names in
    frame order, keeps the column names and the number of rows, replaces
    the cells of every numeric column by their standardized values and
    leaves every other column alone, and the fitted scaler has one mean,
    variance and scale per numeric column. *)
Theorem scaling_keeps_the_frame_shape (sqrt : Q -> Q) (df : DataFrame) :
  (select_dtypes_number df = [] ->
   _scale_numeric_columns sqrt df = Ok (df, [], StandardScaler_new)) /\
  (select_dtypes_number df <> [] -> nrows df = 0 ->
   _scale_numeric_columns sqrt df = Raise EstimatorValueError) /\
  (select_dtypes_number df <> [] -> nrows df <> 0 ->
   exists df' scaler,
     _scale_numeric_columns sqrt df
     = Ok (df', columns (select_dtypes_number df), scaler) /\
     columns df' = columns df /\
     nrows df' = nrows df /\
     (forall col s,
         get_column df col = Some s ->
         get_column df' col
         = Some (if is_number s
                 then Float64 (transform_column sqrt (to_float s))
                 else s)) /\
     length (mean_ scaler) = length (select_dtypes_number df) /\
     length (var_ scaler) = length (select_dtypes_number df) /\
     length (scale_ scaler) = length (select_dtypes_number df)).
Proof.
  rewrite scale_numeric_columns_eq. repeat split.
  - intros E. now rewrite E.
  - intros Hne Hrows.
    destruct (select_dtypes_number df); [congruence|].
    simpl. now rewrite Hrows.
  - intros Hne Hrows.
    assert (Hemp : is_empty (select_dtypes_number df) = false)
      by (destruct (select_dtypes_number df); [congruence | reflexivity]).
    rewrite Hemp. apply Nat.eqb_neq in Hrows. rewrite Hrows.
    do 2 eexists. split; [reflexivity|]. repeat split.
    + apply standardize_columns.
    + apply standardize_nrows. apply transform_column_length.
    + intros col s Hs. rewrite standardize_get, Hs. reflexivity.
    + simpl. now rewrite !length_map.
    + simpl. now rewrite !length_map.
    + simpl. now rewrite !length_map.
Qed.





(** ** More on the runs of the pipeline *)

Module OutcomeMoreFacts.

Lemma get_map_injective {A V} (f : A -> string) (g : A -> V) (l : list A) (a : A) :
  (forall x y, f x = f y -> x = y) ->
  In a l ->
  Dict.get (map (fun c => (f c, g c)) l) (f a) = Some (g a).
Proof.
  intros Hinj. induction l as [|x l IH]; intros Hin; simpl in *; [destruct Hin|].
  destruct (String.eqb (f a) (f x)) eqn:E.
  - apply String.eqb_eq, Hinj in E. now subst.
  - destruct Hin as [->|Hin]; [|now apply IH].
    now rewrite String.eqb_refl in E.
Qed.


Lemma getitem_some {V} (d : Dict.t V) k v :
  Dict.get d k = Some v -> Dict.getitem d k = Ok v.
Proof. unfold Dict.getitem. now intros ->. Qed.

Lemma getitem_none {V} (d : Dict.t V) k :
  Dict.get d k = None -> Dict.getitem d k = Raise (KeyError k).
Proof. unfold Dict.getitem. now intros ->. Qed.

Lemma run_export read_csv sqrt cluster_centers float_repr
      global_rng file_bytes k_opt r :
  (forall q, number_token (float_repr q) = true) ->
  run_clustering_pipeline read_csv sqrt cluster_centers global_rng file_bytes k_opt
  = Ok r ->
  exists d text,
    r = PyDict d /\
    serialize_clusters_to_json float_repr d = Ok text /\
    forall fuel,
      size r <= fuel ->
      JsonReader.loads fuel text
      = Some (JObject
                [ ("number_of_clusters", JNumber (Json.str_int k_opt));
                  ("clusters",
                   JObject (map (fun kv => (fst kv, to_json float_repr (snd kv)))
                                (clusters_of r))) ]%string).
Proof.
  intros Htoken Hrun.
  unfold run_clustering_pipeline in Hrun.
  destruct (read_csv file_bytes) as [df|e]; [|discriminate].
  simpl in Hrun.
  destruct (@cluster_frame_ok_inv sqrt cluster_centers global_rng df k_opt r Hrun)
    as (_ & _ & _ & labels & _ & ->).
  set (df' := set_column (prepare sqrt df) "Cluster" (Int64 labels)).
  exists [ ("number_of_clusters", PyInt k_opt);
           ("clusters", PyDict (summarize df'));
           ("raw_clusters", PyList (to_dict_records df')) ]%string.
  eexists. split; [reflexivity|]. split.
  - apply (@serialize_eq float_repr _ (PyInt k_opt) (PyDict (summarize df')));
      reflexivity.
  - intros fuel Hfuel.
    rewrite (RoundTrip.loads_dumps float_repr Htoken 2 _ fuel).
    + reflexivity.
    + pose proof (size_result_of k_opt df') as Hsize.
      simpl in Hsize |- *. unfold result_of in Hfuel. simpl in Hfuel. lia.
Qed.

End OutcomeMoreFacts.

Import OutcomeMoreFacts.



(** X7.  The summary and the records of a result agree: the identifier of
    row i is a member of the list stored under "Cluster c", where c is
    the label the record of row i carries. *)
Theorem every_row_is_listed_under_its_label
  (read_csv : string -> result DataFrame) (sqrt : Q -> Q)
  (cluster_centers : nat -> nat -> Z -> list (list Q) -> list (list Q))
  (global_rng : nat) (file_bytes : string) (df : DataFrame) (k_opt : Z)
  (r : pyobj) :
  read_csv file_bytes = Ok df ->
  well_formed df = true ->
  run_clustering_pipeline read_csv sqrt cluster_centers global_rng file_bytes k_opt
  = Ok r ->
  forall i, i < nrows df ->
    exists ms,
      Dict.get (clusters_of r) (cluster_label (nth i (assigned_labels r) 0%Z))
      = Some (PyList ms) /\
      In (nth i (identifiers sqrt df) PyNone) ms.
Proof.
  intros Hread Hwf Hrun i Hi.
  rewrite (@run_clustering_pipeline_eq sqrt cluster_centers read_csv global_rng
             file_bytes df k_opt Hread) in Hrun.
  destruct (@run_shape sqrt cluster_centers global_rng df k_opt r Hwf Hrun)
    as (labels & Hlen & _ & _ & _ & Hlab & Hclusters & _).
  rewrite Hlab, Hclusters.
  set (c := nth i labels 0%Z).
  assert (Hin : In c (sorted Z.leb (unique Z.eqb labels))).
  { apply OrderFacts.sorted_In, OrderFacts.unique_In.
    apply nth_In. lia. }
  eexists. split.
  - apply (get_map_injective cluster_label
             (fun c => PyList (map (fun i => nth i (identifiers sqrt df) PyNone)
                                   (rows_with labels c)))
             _ c LabelFacts.cluster_label_inj Hin).
  - apply in_map_iff. exists i. split; [reflexivity|].
    unfold rows_with.
    apply (positions_In labels c i 0); [lia | reflexivity].
Qed.

Lemma every_row_is_listed_under_its_label_witness :
  Reference.read_csv Reference.csv_people = Ok Reference.frame_people /\
  well_formed Reference.frame_people = true /\
  Reference.run Reference.csv_people 2 = Ok Reference.people_result /\
  exists ms,
    Dict.get (clusters_of Reference.people_result)
             (cluster_label (nth 1 (assigned_labels Reference.people_result) 0%Z))
    = Some (PyList ms) /\
    In (nth 1 (identifiers Reference.sqrt Reference.frame_people) PyNone) ms.
Proof.
  assert (H1 : Reference.read_csv Reference.csv_people = Ok Reference.frame_people)
    by reflexivity.
  assert (H2 : well_formed Reference.frame_people = true) by reflexivity.
  assert (H3 : Reference.run Reference.csv_people 2 = Ok Reference.people_result)
    by reflexivity.
  split; [exact H1|]. split; [exact H2|]. split; [exact H3|].
  apply (every_row_is_listed_under_its_label
           Reference.read_csv Reference.sqrt Reference.cluster_centers 0
           Reference.csv_people Reference.frame_people 2
           Reference.people_result H1 H2 H3 1).
  vm_compute. lia.
Defined.

(** X8.  The export fails exactly when one of its two keys is missing
    from the result, with a [KeyError] that names the first missing key
    in the order "number_of_clusters", "clusters"; no other entry of the
    result matters. *)
Theorem export_needs_both_keys
  (float_repr : Q -> string) (clustering_result : Dict.t pyobj) :
  (Dict.get clustering_result "number_of_clusters" = None ->
   serialize_clusters_to_json float_repr clustering_result
   = Raise (KeyError "number_of_clusters")) /\
  (Dict.get clustering_result "number_of_clusters" <> None ->
   Dict.get clustering_result "clusters" = None ->
   serialize_clusters_to_json float_repr clustering_result
   = Raise (KeyError "clusters")) /\
  ((exists text,
       serialize_clusters_to_json float_repr clustering_result = Ok text)
   <-> Dict.get clustering_result "number_of_clusters" <> None /\
       Dict.get clustering_result "clusters" <> None).
Proof.
  unfold serialize_clusters_to_json, Dict.getitem.
  destruct (Dict.get clustering_result "number_of_clusters") as [n|];
    destruct (Dict.get clustering_result "clusters") as [c|]; simpl.
  - split; [discriminate|]. split; [discriminate|].
    split; [split; discriminate | eauto].
  - split; [discriminate|]. split; [reflexivity|].
    split; [intros [text H]; discriminate | intros [_ H]; congruence].
  - split; [reflexivity|]. split; [congruence|].
    split; [intros [text H]; discriminate | intros [H _]; congruence].
  - split; [reflexivity|]. split; [congruence|].
    split; [intros [text H]; discriminate | intros [H _]; congruence].
Qed.

(** X9.  The export of the result of any successful run succeeds, and its
    text reads back as the object with the requested k under
    "number_of_clusters" and, under "clusters", the member lists of the
    result in their order; none of the per-row records is in it. *)
Theorem export_of_a_run_reads_back
  (read_csv : string -> result DataFrame) (sqrt : Q -> Q)
  (cluster_centers : nat -> nat -> Z -> list (list Q) -> list (list Q))
  (float_repr : Q -> string)
  (global_rng : nat) (file_bytes : string) (k_opt : Z) (r : pyobj) :
  (forall q, number_token (float_repr q) = true) ->
  run_clustering_pipeline read_csv sqrt cluster_centers global_rng file_bytes k_opt
  = Ok r ->
  exists d text,
    r = PyDict d /\
    serialize_clusters_to_json float_repr d = Ok text /\
    forall fuel,
      size r <= fuel ->
      JsonReader.loads fuel text
      = Some (JObject
                [ ("number_of_clusters", JNumber (Json.str_int k_opt));
                  ("clusters",
                   JObject (map (fun kv => (fst kv, to_json float_repr (snd kv)))
                                (clusters_of r))) ]%string).
Proof. apply run_export. Qed.

Lemma export_of_a_run_reads_back_witness :
  (forall q, number_token (Reference.float_repr q) = true) /\
  Reference.run Reference.csv_people 2 = Ok Reference.people_result /\
  exists d text,
    Reference.people_result = PyDict d /\
    serialize_clusters_to_json Reference.float_repr d = Ok text /\
    forall fuel,
      size Reference.people_result <= fuel ->
      JsonReader.loads fuel text
      = Some (JObject
                [ ("number_of_clusters", JNumber (Json.str_int 2));
                  ("clusters",
                   JObject (map (fun kv => (fst kv, to_json Reference.float_repr (snd kv)))
                                (clusters_of Reference.people_result))) ]%string).
Proof.
  assert (H2 : Reference.run Reference.csv_people 2 = Ok Reference.people_result)
    by reflexivity.
  split; [exact ReaderFacts.reference_float_repr_token|]. split; [exact H2|].
  exact (export_of_a_run_reads_back
           Reference.read_csv Reference.sqrt Reference.cluster_centers
           Reference.float_repr 0 Reference.csv_people 2 Reference.people_result
           ReaderFacts.reference_float_repr_token H2).
Defined.

(** X10.  The records of a result have the column names of the upload as
    keys, in the order of the upload, with "Cluster" appended; when the
    upload already has a column called "Cluster" the labels take its
    place and no key is added. *)
Theorem records_carry_the_columns_and_the_label
  (read_csv : string -> result DataFrame) (sqrt : Q -> Q)
  (cluster_centers : nat -> nat -> Z -> list (list Q) -> list (list Q))
  (global_rng : nat) (file_bytes : string) (df : DataFrame) (k_opt : Z)
  (r : pyobj) :
  read_csv file_bytes = Ok df ->
  run_clustering_pipeline read_csv sqrt cluster_centers global_rng file_bytes k_opt
  = Ok r ->
  Forall (fun rec =>
            exists d,
              rec = PyDict d /\
              Dict.keys d = if has_column "Cluster" df then columns df
                            else columns df ++ ["Cluster"%string])
         (records_of r).
Proof.
  intros Hread Hrun.
  rewrite (@run_clustering_pipeline_eq sqrt cluster_centers read_csv global_rng
             file_bytes df k_opt Hread) in Hrun.
  destruct (@cluster_frame_ok_inv sqrt cluster_centers global_rng df k_opt r Hrun)
    as (_ & _ & _ & labels & _ & ->).
  unfold records_of, result_of, field. simpl.
  unfold to_dict_records. apply Forall_map, Forall_forall. intros i _.
  eexists. split; [reflexivity|].
  unfold Dict.keys. rewrite map_map. simpl.
  change (map (fun x : string * Series => fst x)
              (set_column (prepare sqrt df) "Cluster" (Int64 labels)))
    with (Dict.keys (Dict.set (prepare sqrt df) "Cluster"%string (Int64 labels))).
  rewrite keys_set.
  change (Dict.keys (prepare sqrt df)) with (columns (prepare sqrt df)).
  rewrite prepare_columns. reflexivity.
Qed.

Lemma records_carry_the_columns_and_the_label_witness :
  Reference.read_csv Reference.csv_people = Ok Reference.frame_people /\
  Reference.run Reference.csv_people 2 = Ok Reference.people_result /\
  Forall (fun rec =>
            exists d,
              rec = PyDict d /\
              Dict.keys d
              = ["name"; "age"; "gaming_platform_top1"; "Cluster"]%string)
         (records_of Reference.people_result).
Proof.
  assert (H1 : Reference.read_csv Reference.csv_people = Ok Reference.frame_people)
    by reflexivity.
  assert (H2 : Reference.run Reference.csv_people 2 = Ok Reference.people_result)
    by reflexivity.
  split; [exact H1|]. split; [exact H2|].
  exact (records_carry_the_columns_and_the_label
           Reference.read_csv Reference.sqrt Reference.cluster_centers 0
           Reference.csv_people Reference.frame_people 2
           Reference.people_result H1 H2).
Defined.

(** ** The service: registry and handlers *)

Module ServiceFacts.

Lemma lower_app (a b : string) :
  Text.lower (a ++ b) = (Text.lower a ++ Text.lower b)%string.
Proof. induction a as [|c a IH]; simpl; [reflexivity | now rewrite IH]. Qed.

Lemma string_length_app (a b : string) :
  String.length (a ++ b) = String.length a + String.length b.
Proof. induction a as [|c a IH]; simpl; [reflexivity | now rewrite IH]. Qed.

Lemma substring_all (b : string) : String.substring 0 (String.length b) b = b.
Proof. induction b as [|c b IH]; simpl; [reflexivity | now rewrite IH]. Qed.

Lemma substring_suffix (a b : string) :
  String.substring (String.length a) (String.length b) (a ++ b) = b.
Proof. induction a as [|c a IH]; simpl; [apply substring_all | exact IH]. Qed.

Lemma endswith_app (a b : string) : Text.endswith (a ++ b) b = true.
Proof.
  unfold Text.endswith. rewrite string_length_app.
  replace (String.length a + String.length b - String.length b)
    with (String.length a) by lia.
  rewrite substring_suffix, String.eqb_refl.
  apply andb_true_intro. split; [apply Nat.leb_le; lia | reflexivity].
Qed.

Lemma get_known (tasks : TaskManager.t) (task_id : string) :
  In task_id (Dict.keys tasks) <-> exists task, TaskManager.get tasks task_id = Ok task.
Proof.
  unfold TaskManager.get, Dict.getitem.
  pose proof (DictFacts.get_none_not_in tasks task_id) as H.
  destruct (Dict.get tasks task_id) as [task|].
  - split; [eauto|]. intros _.
    destruct (in_dec string_dec task_id (Dict.keys tasks)) as [Hin|Hout]; [exact Hin|].
    apply H in Hout. discriminate.
  - split.
    + intros Hin. exfalso. now apply (proj1 H).
    + intros [task Ht]. discriminate.
Qed.

Lemma get_unknown (tasks : TaskManager.t) (task_id : string) :
  ~ In task_id (Dict.keys tasks)
  <-> TaskManager.get tasks task_id = Raise (KeyError task_id).
Proof.
  unfold TaskManager.get, Dict.getitem.
  rewrite <- DictFacts.get_none_not_in.
  destruct (Dict.get tasks task_id); split; congruence.
Qed.

Lemma get_write_same (tasks : TaskManager.t) task_id (task : TaskManager.Task) :
  TaskManager.get (Dict.set tasks task_id task) task_id = Ok task.
Proof.
  unfold TaskManager.get, Dict.getitem. now rewrite DictFacts.get_set_same.
Qed.

Lemma get_write_other (tasks : TaskManager.t) task_id other (task : TaskManager.Task) :
  other <> task_id ->
  TaskManager.get (Dict.set tasks task_id task) other = TaskManager.get tasks other.
Proof.
  intros H. unfold TaskManager.get, Dict.getitem.
  now rewrite DictFacts.get_set_other.
Qed.

Lemma keys_write (tasks : TaskManager.t) task_id (task : TaskManager.Task) id :
  In id (Dict.keys tasks) -> In id (Dict.keys (Dict.set tasks task_id task)).
Proof.
  intros H. rewrite keys_set.
  destruct (existsb _ _); [exact H | apply in_or_app; now left].
Qed.

Lemma upload_outcome url_for tasks new_id filename file_bytes :
  (acceptable filename file_bytes /\
   upload_file url_for tasks new_id filename file_bytes
   = (TaskManager.create_task tasks new_id, Some (new_id, file_bytes),
      RedirectResponse (url_for "processing_view"%string new_id) 303)) \/
  (~ acceptable filename file_bytes /\
   exists detail,
     upload_file url_for tasks new_id filename file_bytes
     = (tasks, None, HTTPException 400 detail)).
Proof.
  unfold upload_file, acceptable.
  destruct filename as [[|c name]|].
  - right. split; [|eauto]. intros (n & [= <-] & H & _). now apply H.
  - destruct (Text.endswith (Text.lower (String c name)) ".csv") eqn:E; simpl.
    + destruct (String.eqb file_bytes "") eqn:B.
      * right. split; [|eauto]. apply String.eqb_eq in B.
        intros (n & _ & _ & _ & H). now apply H.
      * left. split; [|reflexivity]. apply String.eqb_neq in B.
        exists (String c name). repeat split; [discriminate | exact E | exact B].
    + right. split; [|eauto]. intros (n & [= <-] & _ & H & _). congruence.
  - right. split; [|eauto]. intros (n & H & _). discriminate.
Qed.

Lemma process_outcome read_csv sqrt cluster_centers library_text
      global_rng tasks task_id file_bytes :
  (exists r,
      run_clustering_pipeline read_csv sqrt cluster_centers global_rng file_bytes 3
      = Ok r /\
      process_file_task read_csv sqrt cluster_centers library_text
        global_rng tasks task_id file_bytes
      = TaskManager.set_result tasks task_id r) \/
  (exists e,
      run_clustering_pipeline read_csv sqrt cluster_centers global_rng file_bytes 3
      = Raise e /\
      process_file_task read_csv sqrt cluster_centers library_text
        global_rng tasks task_id file_bytes
      = TaskManager.set_error tasks task_id (str_exception library_text e)).
Proof.
  unfold process_file_task.
  destruct (run_clustering_pipeline _ _ _ _ _ _) as [r|e]; [left | right]; eauto.
Qed.

Lemma run_result_shape read_csv sqrt cluster_centers global_rng file_bytes k_opt r :
  run_clustering_pipeline read_csv sqrt cluster_centers global_rng file_bytes k_opt
  = Ok r ->
  exists summary records,
    r = PyDict [ ("number_of_clusters", PyInt k_opt);
                 ("clusters", PyDict summary);
                 ("raw_clusters", PyList records) ]%string.
Proof.
  intros Hrun. unfold run_clustering_pipeline in Hrun.
  destruct (read_csv file_bytes) as [df|e]; [|discriminate].
  simpl in Hrun.
  destruct (@cluster_frame_ok_inv sqrt cluster_centers global_rng df k_opt r Hrun)
    as (_ & _ & _ & labels & _ & ->).
  unfold result_of. eauto.
Qed.

Lemma reachable_coherent read_csv sqrt cluster_centers library_text url_for tasks :
  reachable read_csv sqrt cluster_centers library_text url_for tasks ->
  forall task_id task,
    TaskManager.get tasks task_id = Ok task -> coherent task.
Proof.
  induction 1 as [|tasks new_id filename file_bytes Hreach IH
                  |global_rng tasks id file_bytes Hreach IH];
    intros task_id task Hget.
  - discriminate.
  - destruct (upload_outcome url_for tasks new_id filename file_bytes)
      as [[_ E]|[_ [detail E]]]; rewrite E in Hget; simpl in Hget.
    + unfold TaskManager.create_task in Hget.
      destruct (string_dec task_id new_id) as [->|Hne].
      * rewrite get_write_same in Hget. injection Hget as <-.
        left. repeat split.
      * rewrite get_write_other in Hget by exact Hne. eauto.
    + eauto.
  - destruct (process_outcome read_csv sqrt cluster_centers library_text
                global_rng tasks id file_bytes)
      as [(r & Hrun & E)|(e & Hrun & E)]; rewrite E in Hget.
    + unfold TaskManager.set_result in Hget.
      destruct (string_dec task_id id) as [->|Hne].
      * rewrite get_write_same in Hget. injection Hget as <-.
        right. left. repeat split.
        apply (run_result_shape _ _ _ _ _ _ _ Hrun).
      * rewrite get_write_other in Hget by exact Hne. eauto.
    + unfold TaskManager.set_error in Hget.
      destruct (string_dec task_id id) as [->|Hne].
      * rewrite get_write_same in Hget. injection Hget as <-.
        right. right. repeat split. simpl. eauto.
      * rewrite get_write_other in Hget by exact Hne. eauto.
Qed.

End ServiceFacts.

Import ServiceFacts.

Module HandlerFacts.

Lemma task_status_of (tasks : TaskManager.t) task_id task :
  TaskManager.get tasks task_id = Ok task ->
  task_status tasks task_id
  = JSONResponse
      (if String.eqb (TaskManager.t_status task) "completed" then
         [ ("status", PyStr (TaskManager.t_status task));
           ("redirect_url", PyStr ("/results/" ++ task_id)) ]%string
       else if String.eqb (TaskManager.t_status task) "failed" then
         [ ("status", PyStr (TaskManager.t_status task));
           ("error", TaskManager.t_error task) ]%string
       else [ ("status", PyStr (TaskManager.t_status task)) ]%string).
Proof.
  intros H. unfold task_status. rewrite H.
  destruct (String.eqb (TaskManager.t_status task) "completed"); [reflexivity|].
  destruct (String.eqb (TaskManager.t_status task) "failed"); reflexivity.
Qed.

Lemma download_of float_repr (tasks : TaskManager.t) task_id task d text :
  TaskManager.get tasks task_id = Ok task ->
  TaskManager.t_status task = "completed"%string ->
  TaskManager.t_result task = PyDict d ->
  serialize_clusters_to_json float_repr d = Ok text ->
  download_result float_repr tasks task_id
  = ContentResponse text "application/json"
      [ ("Content-Disposition", content_disposition task_id);
        ("Cache-Control", "no-store") ]%string.
Proof.
  intros Hget Hstatus Hres Hser. unfold download_result.
  rewrite Hget, Hstatus, Hres, Hser. reflexivity.
Qed.

Lemma download_unfinished float_repr (tasks : TaskManager.t) task_id task :
  TaskManager.get tasks task_id = Ok task ->
  TaskManager.t_status task <> "completed"%string ->
  download_result float_repr tasks task_id
  = HTTPException 400 "Result not available.".
Proof.
  intros Hget Hstatus. unfold download_result. rewrite Hget.
  apply String.eqb_neq in Hstatus. now rewrite Hstatus.
Qed.

Lemma get_missing (tasks : TaskManager.t) task_id e :
  TaskManager.get tasks task_id = Raise e -> ~ In task_id (Dict.keys tasks).
Proof.
  intros H Hin. apply get_known in Hin. destruct Hin as [task Ht]. congruence.
Qed.

Lemma get_present (tasks : TaskManager.t) task_id task :
  TaskManager.get tasks task_id = Ok task -> In task_id (Dict.keys tasks).
Proof. intros H. apply get_known. eauto. Qed.

End HandlerFacts.

Import HandlerFacts.

(** X11.  The registry answers with what was last written: after
    [create_task], [set_result] or [set_error] on an id, [get] on that id
    returns the entry the method wrote, whole, and [get] on any other id
    returns what it returned before. *)
Theorem registry_writes_are_local
  (tasks : TaskManager.t) (task_id other : string) (r : pyobj) (error : string) :
  other <> task_id ->
  (TaskManager.get (TaskManager.create_task tasks task_id) task_id
   = Ok {| TaskManager.t_status := "processing";
           TaskManager.t_result := PyNone;
           TaskManager.t_error := PyNone |} /\
   TaskManager.get (TaskManager.create_task tasks task_id) other
   = TaskManager.get tasks other) /\
  (TaskManager.get (TaskManager.set_result tasks task_id r) task_id
   = Ok {| TaskManager.t_status := "completed";
           TaskManager.t_result := r;
           TaskManager.t_error := PyNone |} /\
   TaskManager.get (TaskManager.set_result tasks task_id r) other
   = TaskManager.get tasks other) /\
  (TaskManager.get (TaskManager.set_error tasks task_id error) task_id
   = Ok {| TaskManager.t_status := "failed";
           TaskManager.t_result := PyNone;
           TaskManager.t_error := PyStr error |} /\
   TaskManager.get (TaskManager.set_error tasks task_id error) other
   = TaskManager.get tasks other).
Proof.
  intros Hne.
  unfold TaskManager.create_task, TaskManager.set_result, TaskManager.set_error.
  repeat split;
    first [apply get_write_same | apply get_write_other; exact Hne].
Qed.

Lemma registry_writes_are_local_witness :
  TaskManager.get
    (TaskManager.set_result (TaskManager.create_task TaskManager.init "a") "b"
                            (PyInt 1)) "a"
  = Ok {| TaskManager.t_status := "processing";
          TaskManager.t_result := PyNone;
          TaskManager.t_error := PyNone |}.
Proof.
  destruct (registry_writes_are_local
              (TaskManager.create_task TaskManager.init "a") "b" "a"
              (PyInt 1) "e") as (_ & (_ & H) & _).
  - discriminate.
  - rewrite H. reflexivity.
Defined.

(** X12.  Each of the four handlers that take a task id answers 404
    "Task not found." exactly when the id is not in the registry. *)
Theorem unknown_task_is_not_found
  (url_for : string -> string -> string) (float_repr : Q -> string)
  (tasks : TaskManager.t) (task_id : string) :
  (processing_view tasks task_id = HTTPException 404 "Task not found."
   <-> ~ In task_id (Dict.keys tasks)) /\
  (task_status tasks task_id = HTTPException 404 "Task not found."
   <-> ~ In task_id (Dict.keys tasks)) /\
  (results_view url_for tasks task_id = HTTPException 404 "Task not found."
   <-> ~ In task_id (Dict.keys tasks)) /\
  (download_result float_repr tasks task_id = HTTPException 404 "Task not found."
   <-> ~ In task_id (Dict.keys tasks)).
Proof.
  unfold processing_view, task_status, results_view, download_result.
  destruct (TaskManager.get tasks task_id) as [task|e] eqn:G.
  - pose proof (get_present tasks task_id task G) as Hin.
    repeat split; try (intros H; contradiction).
    + discriminate.
    + discriminate.
    + destruct (String.eqb _ "processing"); [discriminate|].
      destruct (String.eqb _ "failed"); discriminate.
    + destruct (negb _); [discriminate|].
      destruct (TaskManager.t_result task); try discriminate.
      destruct (serialize_clusters_to_json _ _); discriminate.
  - pose proof (get_missing tasks task_id e G) as Hout.
    repeat split; auto.
Qed.

(** X13.  The background task always leaves its task decided: the entry
    is "completed" with the result of the pipeline (run with k = 3) when
    the pipeline returns, and "failed" with the text of the exception
    when it raises, which is the message itself for a [ValueError].  It
    is never left "processing", and no other entry changes. *)
Theorem background_task_records_the_outcome
  (read_csv : string -> result DataFrame) (sqrt : Q -> Q)
  (cluster_centers : nat -> nat -> Z -> list (list Q) -> list (list Q))
  (library_text : Exception -> string)
  (global_rng : nat) (tasks : TaskManager.t) (task_id file_bytes : string) :
  (forall r,
      run_clustering_pipeline read_csv sqrt cluster_centers global_rng file_bytes 3
      = Ok r ->
      TaskManager.get
        (process_file_task read_csv sqrt cluster_centers library_text
           global_rng tasks task_id file_bytes) task_id
      = Ok {| TaskManager.t_status := "completed";
              TaskManager.t_result := r;
              TaskManager.t_error := PyNone |}) /\
  (forall e,
      run_clustering_pipeline read_csv sqrt cluster_centers global_rng file_bytes 3
      = Raise e ->
      TaskManager.get
        (process_file_task read_csv sqrt cluster_centers library_text
           global_rng tasks task_id file_bytes) task_id
      = Ok {| TaskManager.t_status := "failed";
              TaskManager.t_result := PyNone;
              TaskManager.t_error := PyStr (str_exception library_text e) |}) /\
  (forall msg, str_exception library_text (ValueError msg) = msg) /\
  (exists task,
      TaskManager.get
        (process_file_task read_csv sqrt cluster_centers library_text
           global_rng tasks task_id file_bytes) task_id = Ok task /\
      TaskManager.t_status task <> "processing"%string) /\
  (forall other,
      other <> task_id ->
      TaskManager.get
        (process_file_task read_csv sqrt cluster_centers library_text
           global_rng tasks task_id file_bytes) other
      = TaskManager.get tasks other).
Proof.
  unfold process_file_task, TaskManager.set_result, TaskManager.set_error.
  destruct (run_clustering_pipeline _ _ _ _ _ _) as [r|e].
  - split; [intros r' [= <-]; apply get_write_same|].
    split; [discriminate|]. split; [reflexivity|]. split.
    + eexists. split; [apply get_write_same | discriminate].
    + intros other Hne. now apply get_write_other.
  - split; [discriminate|].
    split; [intros e' [= <-]; apply get_write_same|].
    split; [reflexivity|]. split.
    + eexists. split; [apply get_write_same | discriminate].
    + intros other Hne. now apply get_write_other.
Qed.

(** X14.  An upload is accepted exactly when it has a file name, the name
    lowered ends in ".csv", and the file has at least one byte.  An
    accepted upload creates the task [new_id] as "processing", schedules
    the background task on that id with the uploaded bytes, and redirects
    (303) to the processing view of the id.  A rejected upload answers
    400, leaves the registry as it was and schedules nothing; the checks
    are made in the order name, extension, content. *)
Theorem upload_is_accepted_exactly_when
  (url_for : string -> string -> string)
  (tasks : TaskManager.t) (new_id : string)
  (filename : option string) (file_bytes : string) :
  (acceptable filename file_bytes
   <-> upload_file url_for tasks new_id filename file_bytes
       = (TaskManager.create_task tasks new_id, Some (new_id, file_bytes),
          RedirectResponse (url_for "processing_view"%string new_id) 303)) /\
  (~ acceptable filename file_bytes
   <-> exists detail,
         upload_file url_for tasks new_id filename file_bytes
         = (tasks, None, HTTPException 400 detail)) /\
  (filename = None \/ filename = Some EmptyString ->
   upload_file url_for tasks new_id filename file_bytes
   = (tasks, None, HTTPException 400 "No file selected.")) /\
  (forall name,
      filename = Some name -> name <> EmptyString ->
      Text.endswith (Text.lower name) ".csv" = false ->
      upload_file url_for tasks new_id filename file_bytes
      = (tasks, None, HTTPException 400 "Only CSV files are supported.")) /\
  (forall name,
      filename = Some name -> name <> EmptyString ->
      Text.endswith (Text.lower name) ".csv" = true ->
      file_bytes = EmptyString ->
      upload_file url_for tasks new_id filename file_bytes
      = (tasks, None, HTTPException 400 "Uploaded file is empty.")).
Proof.
  split; [|split; [|split; [|split]]].
  - destruct (upload_outcome url_for tasks new_id filename file_bytes)
      as [[Ha E]|[Hna [detail E]]].
    + tauto.
    + split; [tauto|]. rewrite E. discriminate.
  - destruct (upload_outcome url_for tasks new_id filename file_bytes)
      as [[Ha E]|[Hna [detail E]]].
    + split; [tauto|]. rewrite E. intros [detail H]. discriminate.
    + split; [eauto | tauto].
  - intros [->| ->]; reflexivity.
  - intros name -> Hne Hext. unfold upload_file.
    destruct name as [|c name]; [congruence|]. now rewrite Hext.
  - intros name -> Hne Hext ->. unfold upload_file.
    destruct name as [|c name]; [congruence|]. now rewrite Hext.
Qed.

(** X15.  The extension check ignores letter case: a file name made of
    any stem and an extension that lowers to ".csv" (".CSV", ".Csv", ...)
    is accepted whenever the file is not empty. *)
Theorem csv_extension_in_any_letter_case
  (url_for : string -> string -> string)
  (tasks : TaskManager.t) (new_id stem ext file_bytes : string) :
  Text.lower ext = ".csv"%string ->
  file_bytes <> EmptyString ->
  upload_file url_for tasks new_id (Some (stem ++ ext)%string) file_bytes
  = (TaskManager.create_task tasks new_id, Some (new_id, file_bytes),
     RedirectResponse (url_for "processing_view"%string new_id) 303).
Proof.
  intros Hext Hbytes.
  destruct (upload_outcome url_for tasks new_id (Some (stem ++ ext)%string) file_bytes)
    as [[_ E]|[Hna _]]; [exact E|].
  exfalso. apply Hna. exists (stem ++ ext)%string.
  split; [reflexivity|]. split; [|split; [|exact Hbytes]].
  - intros E. destruct stem; [|discriminate]. simpl in E. subst ext. discriminate.
  - rewrite lower_app, Hext. apply endswith_app.
Qed.

Lemma csv_extension_in_any_letter_case_witness :
  upload_file (fun name task_id => ("/processing/" ++ task_id)%string)
    TaskManager.init "t1" (Some "People.CSV"%string) Reference.csv_people
  = (TaskManager.create_task TaskManager.init "t1",
     Some ("t1"%string, Reference.csv_people),
     RedirectResponse "/processing/t1" 303).
Proof.
  apply (csv_extension_in_any_letter_case
           (fun name task_id => ("/processing/" ++ task_id)%string)
           TaskManager.init "t1" "People" ".CSV" Reference.csv_people).
  - reflexivity.
  - discriminate.
Defined.

(** X16.  Once the background task has run on bytes the pipeline
    accepts, the status endpoint answers "completed" with the link to
    the results, the results view gets the result and no error, and the
    download is the export of that result as "application/json": a text
    that reads back as the object with 3 under "number_of_clusters" and
    the member lists under "clusters". *)
Theorem finished_run_is_served
  (read_csv : string -> result DataFrame) (sqrt : Q -> Q)
  (cluster_centers : nat -> nat -> Z -> list (list Q) -> list (list Q))
  (float_repr : Q -> string) (library_text : Exception -> string)
  (url_for : string -> string -> string)
  (global_rng : nat) (tasks : TaskManager.t) (task_id file_bytes : string)
  (r : pyobj) :
  (forall q, number_token (float_repr q) = true) ->
  run_clustering_pipeline read_csv sqrt cluster_centers global_rng file_bytes 3
  = Ok r ->
  task_status
    (process_file_task read_csv sqrt cluster_centers library_text
       global_rng tasks task_id file_bytes) task_id
  = JSONResponse [ ("status", PyStr "completed");
                   ("redirect_url", PyStr ("/results/" ++ task_id)) ]%string /\
  results_view url_for
    (process_file_task read_csv sqrt cluster_centers library_text
       global_rng tasks task_id file_bytes) task_id
  = TemplateResponse "results.html"
      [ ("task_id", PyStr task_id); ("result", r); ("error", PyNone) ]%string /\
  exists text,
    download_result float_repr
      (process_file_task read_csv sqrt cluster_centers library_text
         global_rng tasks task_id file_bytes) task_id
    = ContentResponse text "application/json"
        [ ("Content-Disposition", content_disposition task_id);
          ("Cache-Control", "no-store") ]%string /\
    forall fuel,
      size r <= fuel ->
      JsonReader.loads fuel text
      = Some (JObject
                [ ("number_of_clusters", JNumber (Json.str_int 3));
                  ("clusters",
                   JObject (map (fun kv => (fst kv, to_json float_repr (snd kv)))
                                (clusters_of r))) ]%string).
Proof.
  intros Htoken Hrun.
  assert (Hget : TaskManager.get
                   (process_file_task read_csv sqrt cluster_centers library_text
                      global_rng tasks task_id file_bytes) task_id
                 = Ok {| TaskManager.t_status := "completed";
                         TaskManager.t_result := r;
                         TaskManager.t_error := PyNone |}).
  { unfold process_file_task. rewrite Hrun. apply get_write_same. }
  split; [|split].
  - rewrite (task_status_of _ _ _ Hget). reflexivity.
  - unfold results_view. rewrite Hget. reflexivity.
  - destruct (run_export read_csv sqrt cluster_centers float_repr
                global_rng file_bytes 3 r Htoken Hrun)
      as (d & text & Hr & Hser & Hload).
    exists text. split; [|exact Hload].
    apply (download_of float_repr _ task_id _ d text Hget);
      [reflexivity | exact Hr | exact Hser].
Qed.

Lemma finished_run_is_served_witness :
  (forall q, number_token (Reference.float_repr q) = true) /\
  (exists r, Reference.run Reference.csv_people 3 = Ok r) /\
  task_status
    (process_file_task Reference.read_csv Reference.sqrt Reference.cluster_centers
       (fun _ => "error"%string) 0
       (TaskManager.create_task TaskManager.init "t1") "t1" Reference.csv_people)
    "t1"
  = JSONResponse [ ("status", PyStr "completed");
                   ("redirect_url", PyStr "/results/t1") ]%string.
Proof.
  split; [exact ReaderFacts.reference_float_repr_token|].
  destruct (Reference.run Reference.csv_people 3) as [r|e] eqn:Hrun;
    [|vm_compute in Hrun; discriminate].
  split; [eauto|].
  exact (proj1 (finished_run_is_served
                  Reference.read_csv Reference.sqrt Reference.cluster_centers
                  Reference.float_repr (fun _ => "error"%string)
                  (fun name task_id => ("/processing/" ++ task_id)%string)
                  0 (TaskManager.create_task TaskManager.init "t1") "t1"
                  Reference.csv_people r
                  ReaderFacts.reference_float_repr_token Hrun)).
Defined.

(** X17.  Once the background task has run on bytes the pipeline
    rejects, the status endpoint answers "failed" with the text of the
    exception, the results view gets that text and no result, and the
    download answers 400 "Result not available.". *)
Theorem failed_run_is_reported_not_served
  (read_csv : string -> result DataFrame) (sqrt : Q -> Q)
  (cluster_centers : nat -> nat -> Z -> list (list Q) -> list (list Q))
  (float_repr : Q -> string) (library_text : Exception -> string)
  (url_for : string -> string -> string)
  (global_rng : nat) (tasks : TaskManager.t) (task_id file_bytes : string)
  (e : Exception) :
  run_clustering_pipeline read_csv sqrt cluster_centers global_rng file_bytes 3
  = Raise e ->
  task_status
    (process_file_task read_csv sqrt cluster_centers library_text
       global_rng tasks task_id file_bytes) task_id
  = JSONResponse [ ("status", PyStr "failed");
                   ("error", PyStr (str_exception library_text e)) ]%string /\
  results_view url_for
    (process_file_task read_csv sqrt cluster_centers library_text
       global_rng tasks task_id file_bytes) task_id
  = TemplateResponse "results.html"
      [ ("task_id", PyStr task_id); ("result", PyNone);
        ("error", PyStr (str_exception library_text e)) ]%string /\
  download_result float_repr
    (process_file_task read_csv sqrt cluster_centers library_text
       global_rng tasks task_id file_bytes) task_id
  = HTTPException 400 "Result not available.".
Proof.
  intros Hrun.
  assert (Hget : TaskManager.get
                   (process_file_task read_csv sqrt cluster_centers library_text
                      global_rng tasks task_id file_bytes) task_id
                 = Ok {| TaskManager.t_status := "failed";
                         TaskManager.t_result := PyNone;
                         TaskManager.t_error := PyStr (str_exception library_text e) |}).
  { unfold process_file_task. rewrite Hrun. apply get_write_same. }
  split; [|split].
  - rewrite (task_status_of _ _ _ Hget). reflexivity.
  - unfold results_view. rewrite Hget. reflexivity.
  - apply (download_unfinished float_repr _ task_id _ Hget). discriminate.
Qed.

Lemma failed_run_is_reported_not_served_witness :
  Reference.run Reference.csv_no_name 3 = Raise (ValueError msg_missing_name) /\
  task_status
    (process_file_task Reference.read_csv Reference.sqrt Reference.cluster_centers
       (fun _ => "error"%string) 0
       (TaskManager.create_task TaskManager.init "t1") "t1" Reference.csv_no_name)
    "t1"
  = JSONResponse [ ("status", PyStr "failed");
                   ("error", PyStr msg_missing_name) ]%string.
Proof.
  assert (Hrun : Reference.run Reference.csv_no_name 3
                 = Raise (ValueError msg_missing_name)) by reflexivity.
  split; [exact Hrun|].
  exact (proj1 (failed_run_is_reported_not_served
                  Reference.read_csv Reference.sqrt Reference.cluster_centers
                  Reference.float_repr (fun _ => "error"%string)
                  (fun name task_id => ("/processing/" ++ task_id)%string)
                  0 (TaskManager.create_task TaskManager.init "t1") "t1"
                  Reference.csv_no_name (ValueError msg_missing_name) Hrun)).
Defined.

(** X18.  Right after an accepted upload, before the background task has
    run, the new task is pending: the processing view renders, the status
    endpoint answers "processing" and nothing else, the results view
    redirects (303) to the processing view, to the same address the
    upload redirected to, and the download answers 400.  This holds also
    when the id was in the registry before: its old entry is replaced. *)
Theorem fresh_upload_is_pending
  (url_for : string -> string -> string) (float_repr : Q -> string)
  (tasks : TaskManager.t) (new_id : string)
  (filename : option string) (file_bytes : string) :
  acceptable filename file_bytes ->
  snd (upload_file url_for tasks new_id filename file_bytes)
  = RedirectResponse (url_for "processing_view"%string new_id) 303 /\
  snd (fst (upload_file url_for tasks new_id filename file_bytes))
  = Some (new_id, file_bytes) /\
  processing_view
    (fst (fst (upload_file url_for tasks new_id filename file_bytes))) new_id
  = TemplateResponse "processing.html" [("task_id", PyStr new_id)]%string /\
  task_status
    (fst (fst (upload_file url_for tasks new_id filename file_bytes))) new_id
  = JSONResponse [("status", PyStr "processing")]%string /\
  results_view url_for
    (fst (fst (upload_file url_for tasks new_id filename file_bytes))) new_id
  = RedirectResponse (url_for "processing_view"%string new_id) 303 /\
  download_result float_repr
    (fst (fst (upload_file url_for tasks new_id filename file_bytes))) new_id
  = HTTPException 400 "Result not available.".
Proof.
  intros Hacc.
  destruct (upload_outcome url_for tasks new_id filename file_bytes)
    as [[_ E]|[Hna _]]; [|contradiction].
  rewrite E. simpl.
  assert (Hget : TaskManager.get (TaskManager.create_task tasks new_id) new_id
                 = Ok {| TaskManager.t_status := "processing";
                         TaskManager.t_result := PyNone;
                         TaskManager.t_error := PyNone |})
    by apply get_write_same.
  split; [reflexivity|]. split; [reflexivity|]. split; [|split; [|split]].
  - unfold processing_view. now rewrite Hget.
  - rewrite (task_status_of _ _ _ Hget). reflexivity.
  - unfold results_view. rewrite Hget. reflexivity.
  - apply (download_unfinished float_repr _ new_id _ Hget). discriminate.
Qed.

Lemma fresh_upload_is_pending_witness :
  acceptable (Some "people.csv"%string) Reference.csv_people /\
  task_status
    (fst (fst (upload_file (fun name task_id => ("/processing/" ++ task_id)%string)
                 TaskManager.init "t1" (Some "people.csv"%string)
                 Reference.csv_people))) "t1"
  = JSONResponse [("status", PyStr "processing")]%string.
Proof.
  assert (Hacc : acceptable (Some "people.csv"%string) Reference.csv_people).
  { exists "people.csv"%string.
    split; [reflexivity|]. split; [discriminate|].
    split; [reflexivity | discriminate]. }
  split; [exact Hacc|].
  exact (proj1 (proj2 (proj2 (proj2
           (fresh_upload_is_pending
              (fun name task_id => ("/processing/" ++ task_id)%string)
              Reference.float_repr TaskManager.init "t1"
              (Some "people.csv"%string) Reference.csv_people Hacc))))).
Defined.

(** X19.  The registry never forgets a task: an id that is in the
    registry is still in it after any upload and after any run of the
    background task, so no later request for it is answered 404. *)
Theorem registry_never_forgets_a_task
  (read_csv : string -> result DataFrame) (sqrt : Q -> Q)
  (cluster_centers : nat -> nat -> Z -> list (list Q) -> list (list Q))
  (library_text : Exception -> string) (url_for : string -> string -> string)
  (tasks : TaskManager.t) (id : string) :
  In id (Dict.keys tasks) ->
  (forall new_id filename file_bytes,
      In id (Dict.keys
               (fst (fst (upload_file url_for tasks new_id filename file_bytes))))) /\
  (forall global_rng task_id file_bytes,
      In id (Dict.keys
               (process_file_task read_csv sqrt cluster_centers library_text
                  global_rng tasks task_id file_bytes))).
Proof.
  intros Hin. split.
  - intros new_id filename file_bytes.
    destruct (upload_outcome url_for tasks new_id filename file_bytes)
      as [[_ E]|[_ [detail E]]]; rewrite E; simpl; [|exact Hin].
    now apply keys_write.
  - intros global_rng task_id file_bytes. unfold process_file_task.
    destruct (run_clustering_pipeline _ _ _ _ _ _); now apply keys_write.
Qed.

Lemma registry_never_forgets_a_task_witness :
  In "t1"%string
     (Dict.keys
        (process_file_task Reference.read_csv Reference.sqrt
           Reference.cluster_centers (fun _ => "error"%string) 0
           (TaskManager.create_task TaskManager.init "t1") "t2"
           Reference.csv_people)).
Proof.
  apply (registry_never_forgets_a_task
           Reference.read_csv Reference.sqrt Reference.cluster_centers
           (fun _ => "error"%string)
           (fun name task_id => ("/processing/" ++ task_id)%string)
           (TaskManager.create_task TaskManager.init "t1") "t1").
  simpl. tauto.
Defined.

(** X20.  Every entry of a registry the service can reach has one of
    three shapes: "processing" with neither result nor error;
    "completed" with no error and a result that is the dictionary of a
    run with k = 3 (its three keys in order); or "failed" with no result
    and an error text. *)
Theorem registry_entries_are_coherent
  (read_csv : string -> result DataFrame) (sqrt : Q -> Q)
  (cluster_centers : nat -> nat -> Z -> list (list Q) -> list (list Q))
  (library_text : Exception -> string) (url_for : string -> string -> string)
  (tasks : TaskManager.t) (task_id : string) (task : TaskManager.Task) :
  reachable read_csv sqrt cluster_centers library_text url_for tasks ->
  TaskManager.get tasks task_id = Ok task ->
  coherent task.
Proof.
  intros Hreach Hget.
  exact (reachable_coherent read_csv sqrt cluster_centers library_text url_for
           tasks Hreach task_id task Hget).
Qed.

Lemma registry_entries_are_coherent_witness :
  reachable Reference.read_csv Reference.sqrt Reference.cluster_centers
    (fun _ => "error"%string)
    (fun name task_id => ("/processing/" ++ task_id)%string)
    (fst (fst (upload_file (fun name task_id => ("/processing/" ++ task_id)%string)
                   TaskManager.init "t1" (Some "people.csv"%string)
                   Reference.csv_people))) /\
  coherent {| TaskManager.t_status := "processing";
              TaskManager.t_result := PyNone;
              TaskManager.t_error := PyNone |}.
Proof.
  assert (Hreach : reachable Reference.read_csv Reference.sqrt Reference.cluster_centers
    (fun _ => "error"%string)
    (fun name task_id => ("/processing/" ++ task_id)%string)
    (fst (fst (upload_file (fun name task_id => ("/processing/" ++ task_id)%string)
                   TaskManager.init "t1" (Some "people.csv"%string)
                   Reference.csv_people))))
    by (apply reachable_upload; apply reachable_init).
  split; [exact Hreach|].
  apply (registry_entries_are_coherent
           Reference.read_csv Reference.sqrt Reference.cluster_centers
           (fun _ => "error"%string)
           (fun name task_id => ("/processing/" ++ task_id)%string)
           (fst (fst (upload_file (fun name task_id => ("/processing/" ++ task_id)%string)
                   TaskManager.init "t1" (Some "people.csv"%string)
                   Reference.csv_people))) "t1" _ Hreach).
  reflexivity.
Defined.



(** ** The preparation, column by column *)

Module ColumnFacts.

Lemma existsb_eqb_In (c : string) (l : list string) :
  existsb (String.eqb c) l = true <-> In c l.
Proof.
  rewrite existsb_exists. split.
  - intros [x [Hx E]]. apply String.eqb_eq in E. now subst.
  - intros H. exists c. split; [exact H | apply String.eqb_refl].
Qed.

Lemma well_formed_NoDup df : well_formed df = true -> NoDup (columns df).
Proof.
  unfold well_formed. intros H. apply andb_true_iff in H. destruct H as [_ H].
  rewrite forallb_forall in H.
  apply (proj2 (NoDup_count_occ' string_dec (columns df))).
  intros c Hc. apply Nat.eqb_eq. now apply H.
Qed.

Lemma get_map_columns (g : string -> Series -> Series) (df : DataFrame) c :
  get_column (map (fun cs => (fst cs, g (fst cs) (snd cs))) df) c
  = option_map (g c) (get_column df c).
Proof.
  unfold get_column. induction df as [|[c0 s0] df IH]; simpl; [reflexivity|].
  destruct (String.eqb c c0) eqn:E; [|exact IH].
  apply String.eqb_eq in E. now subst.
Qed.

Lemma frame_ext (d1 d2 : DataFrame) :
  columns d1 = columns d2 ->
  NoDup (columns d1) ->
  (forall c, get_column d1 c = get_column d2 c) ->
  d1 = d2.
Proof.
  unfold columns, get_column. revert d2.
  induction d1 as [|[c1 s1] d1 IH]; intros [|[c2 s2] d2] Hc Hnd Hget;
    simpl in *; try discriminate; [reflexivity|].
  injection Hc as -> Hc. inversion Hnd as [|? ? Hnotin Hnd']; subst.
  pose proof (Hget c2) as Hhead. rewrite String.eqb_refl in Hhead.
  injection Hhead as ->. f_equal.
  apply IH; [exact Hc | exact Hnd' |].
  intros c. specialize (Hget c).
  destruct (String.eqb c c2) eqn:E; [|exact Hget].
  apply String.eqb_eq in E. subst c.
  assert (H1 : Dict.get d1 c2 = None) by now apply DictFacts.get_none_not_in.
  assert (H2 : Dict.get d2 c2 = None).
  { apply DictFacts.get_none_not_in. unfold Dict.keys. now rewrite <- Hc. }
  congruence.
Qed.

Lemma get_same_columns (d1 d2 : DataFrame) c :
  columns d1 = columns d2 -> get_column d1 c = None -> get_column d2 c = None.
Proof.
  unfold get_column. intros Hc H.
  apply DictFacts.get_none_not_in. apply DictFacts.get_none_not_in in H.
  unfold Dict.keys in *. unfold columns in Hc. now rewrite <- Hc.
Qed.

Lemma encode_column_wise df :
  well_formed df = true ->
  fst (_encode_categorical_columns df)
  = map (fun cs => (fst cs, encoded_series (fst cs) (snd cs))) df.
Proof.
  intros Hwf. apply frame_ext.
  - rewrite encode_columns. unfold columns. now rewrite map_map.
  - rewrite encode_columns. now apply well_formed_NoDup.
  - intros c. rewrite get_map_columns. unfold encoded_series.
    destruct (existsb (String.eqb c) candidate_columns) eqn:E.
    + apply existsb_eqb_In in E.
      destruct (get_column df c) as [s|] eqn:G; simpl.
      * now destruct (@encode_hit df c s E G) as [H _].
      * apply (get_same_columns df); [|exact G].
        symmetry. apply encode_columns.
    + assert (Hc : ~ In c candidate_columns).
      { intros Hin. apply existsb_eqb_In in Hin. congruence. }
      rewrite (@encode_get df c Hc). now destruct (get_column df c).
Qed.

Lemma prepare_column_wise sqrt df :
  well_formed df = true ->
  prepare sqrt df
  = map (fun cs => (fst cs, prepared_series sqrt (fst cs) (snd cs))) df.
Proof.
  intros Hwf. unfold prepare. rewrite (encode_column_wise df Hwf).
  unfold standardize. rewrite map_map. reflexivity.
Qed.

Lemma standardize_no_numeric f (df : DataFrame) :
  select_dtypes_number df = [] -> standardize f df = df.
Proof.
  unfold standardize, select_dtypes_number.
  induction df as [|[c s] df IH]; simpl; [reflexivity|].
  unfold standardize_series at 1.
  destruct (is_number s); [discriminate|].
  intros H. now rewrite IH.
Qed.

Lemma get_skip {V} (a b : Dict.t V) (x : string * V) k :
  k <> fst x -> Dict.get (a ++ x :: b) k = Dict.get (a ++ b) k.
Proof.
  intros Hne. induction a as [|[k0 v0] a IH]; simpl.
  - destruct x as [kx vx]. simpl in Hne.
    apply String.eqb_neq in Hne. now rewrite Hne.
  - now rewrite IH.
Qed.

End ColumnFacts.

Import ColumnFacts.

(** X22.  On a well-formed table the two preparation steps work column
    by column, each column on its own: encoding replaces the cells of a
    recognised column by their codes and keeps every other column, and
    the frame that scaling then returns holds, for every column of the
    upload in its place, the standardized values when the column is
    numeric by then and the column itself otherwise. *)
Theorem preparation_is_column_wise (sqrt : Q -> Q) (df : DataFrame) :
  well_formed df = true ->
  fst (_encode_categorical_columns df)
  = map (fun cs => (fst cs, encoded_series (fst cs) (snd cs))) df /\
  (forall df' numeric_cols scaler,
      _scale_numeric_columns sqrt (fst (_encode_categorical_columns df))
      = Ok (df', numeric_cols, scaler) ->
      df' = map (fun cs => (fst cs, prepared_series sqrt (fst cs) (snd cs))) df).
Proof.
  intros Hwf. split; [now apply encode_column_wise|].
  intros df' numeric_cols scaler H.
  rewrite <- (prepare_column_wise sqrt df Hwf). unfold prepare.
  rewrite scale_numeric_columns_eq in H.
  destruct (select_dtypes_number (fst (_encode_categorical_columns df))) eqn:E.
  - simpl in H. injection H as <- _ _.
    symmetry. now apply standardize_no_numeric.
  - simpl in H. destruct (nrows _ =? 0); [discriminate|].
    now injection H as <- _ _.
Qed.

Lemma preparation_is_column_wise_witness :
  well_formed Reference.frame_people = true /\
  fst (_encode_categorical_columns Reference.frame_people)
  = [ ("name", Object ["Alice"; "Bob"; "Carol"; "Dan"]);
      ("age", Int64 [20; 45; 22; 50]%Z);
      ("gaming_platform_top1", Int64 [1; 0; 1; 0]%Z) ]%string.
Proof.
  assert (H : well_formed Reference.frame_people = true) by reflexivity.
  split; [exact H|].
  rewrite (proj1 (preparation_is_column_wise Reference.sqrt
                    Reference.frame_people H)).
  reflexivity.
Defined.

Module IgnoredColumnFacts.

Section Inserted.
Variable sqrt : Q -> Q.
Variables a b : DataFrame.
Variable col : string.
Variable cells : list string.
Hypothesis Hwf : well_formed (a ++ b) = true.
Hypothesis Hwf' : well_formed (a ++ (col, Object cells) :: b) = true.
Hypothesis Hcol : ~ In col candidate_columns.
Hypothesis Hname : col <> "name"%string.

Lemma encoded_text_column : encoded_series col (Object cells) = Object cells.
Proof.
  unfold encoded_series.
  destruct (existsb (String.eqb col) candidate_columns) eqn:E; [|reflexivity].
  apply existsb_eqb_In in E. contradiction.
Qed.

Lemma encode_inserted :
  select_dtypes_number
    (fst (_encode_categorical_columns (a ++ (col, Object cells) :: b)))
  = select_dtypes_number (fst (_encode_categorical_columns (a ++ b))).
Proof.
  rewrite (encode_column_wise _ Hwf), (encode_column_wise _ Hwf').
  rewrite !map_app. simpl. rewrite encoded_text_column.
  unfold select_dtypes_number. rewrite !filter_app. reflexivity.
Qed.

Lemma prepare_inserted :
  prepare sqrt (a ++ (col, Object cells) :: b)
  = map (fun cs => (fst cs, prepared_series sqrt (fst cs) (snd cs))) a
    ++ (col, Object cells)
    :: map (fun cs => (fst cs, prepared_series sqrt (fst cs) (snd cs))) b.
Proof.
  rewrite (prepare_column_wise sqrt _ Hwf'), map_app. simpl.
  unfold prepared_series at 2. rewrite encoded_text_column. reflexivity.
Qed.

Lemma feature_matrix_inserted :
  feature_matrix sqrt (a ++ (col, Object cells) :: b)
  = feature_matrix sqrt (a ++ b).
Proof.
  unfold feature_matrix.
  rewrite prepare_inserted, (prepare_column_wise sqrt _ Hwf), map_app.
  unfold select_dtypes_number. rewrite !filter_app. reflexivity.
Qed.

Lemma name_cells_inserted :
  name_cells (prepare sqrt (a ++ (col, Object cells) :: b))
  = name_cells (prepare sqrt (a ++ b)).
Proof.
  unfold name_cells, get_column.
  rewrite prepare_inserted, (prepare_column_wise sqrt _ Hwf), map_app.
  rewrite get_skip; [reflexivity|]. simpl. congruence.
Qed.

Lemma get_name_inserted :
  get_column (a ++ (col, Object cells) :: b) "name" = get_column (a ++ b) "name".
Proof. unfold get_column. apply get_skip. simpl. congruence. Qed.

Lemma has_name_inserted :
  has_column "name" (a ++ b) = true ->
  has_column "name" (a ++ (col, Object cells) :: b) = true.
Proof.
  intros H. apply has_column_get. apply has_column_get in H.
  now rewrite get_name_inserted.
Qed.

Lemma nrows_inserted :
  has_column "name" (a ++ b) = true ->
  nrows (a ++ (col, Object cells) :: b) = nrows (a ++ b).
Proof.
  intros H. apply has_column_get in H. destruct H as [s Hs].
  pose proof (@uniform_get _ _ _ _ (well_formed_uniform _ Hwf) Hs) as H1.
  rewrite <- get_name_inserted in Hs.
  pose proof (@uniform_get _ _ _ _ (well_formed_uniform _ Hwf') Hs) as H2.
  congruence.
Qed.

Lemma cluster_frame_inserted cluster_centers global_rng k_opt r :
  cluster_frame sqrt cluster_centers global_rng (a ++ b) k_opt = Ok r ->
  exists r',
    cluster_frame sqrt cluster_centers global_rng
      (a ++ (col, Object cells) :: b) k_opt = Ok r' /\
    clusters_of r' = clusters_of r.
Proof.
  intros Hrun.
  destruct (@cluster_frame_ok_inv sqrt cluster_centers global_rng (a ++ b) k_opt r Hrun)
    as (Hn & Hnum & Hrows & labels & Hk & ->).
  rewrite cluster_frame_eq.
  rewrite (has_name_inserted Hn), encode_inserted, Hnum, (nrows_inserted Hn).
  apply Nat.eqb_neq in Hrows. rewrite Hrows.
  rewrite feature_matrix_inserted, Hk. simpl.
  eexists. split; [reflexivity|].
  unfold clusters_of, result_of. simpl.
  rewrite !summarize_labelled, name_cells_inserted. reflexivity.
Qed.

End Inserted.

End IgnoredColumnFacts.

(** X23.  A column of text that is neither the identifier nor one of the
    four recognised names has no influence on the clusters: take a
    successful run on a table, and insert such a column anywhere in the
    table; the run on the larger table succeeds too, with the same
    clusters mapping. *)
Theorem unrecognised_text_column_is_ignored
  (read_csv : string -> result DataFrame) (sqrt : Q -> Q)
  (cluster_centers : nat -> nat -> Z -> list (list Q) -> list (list Q))
  (global_rng : nat) (file_bytes file_bytes' : string)
  (a b : DataFrame) (col : string) (cells : list string)
  (k_opt : Z) (r : pyobj) :
  read_csv file_bytes = Ok (a ++ b) ->
  read_csv file_bytes' = Ok (a ++ (col, Object cells) :: b) ->
  well_formed (a ++ b) = true ->
  well_formed (a ++ (col, Object cells) :: b) = true ->
  ~ In col candidate_columns ->
  col <> "name"%string ->
  run_clustering_pipeline read_csv sqrt cluster_centers global_rng file_bytes k_opt
  = Ok r ->
  exists r',
    run_clustering_pipeline read_csv sqrt cluster_centers global_rng
      file_bytes' k_opt = Ok r' /\
    clusters_of r' = clusters_of r.
Proof.
  intros Hread Hread' Hwf Hwf' Hcol Hname Hrun.
  rewrite (@run_clustering_pipeline_eq sqrt cluster_centers read_csv global_rng
             file_bytes (a ++ b) k_opt Hread) in Hrun.
  rewrite (@run_clustering_pipeline_eq sqrt cluster_centers read_csv global_rng
             file_bytes' (a ++ (col, Object cells) :: b) k_opt Hread').
  exact (IgnoredColumnFacts.cluster_frame_inserted
           sqrt a b col cells Hwf Hwf' Hcol Hname
           cluster_centers global_rng k_opt r Hrun).
Qed.

Lemma unrecognised_text_column_is_ignored_witness :
  exists r',
    run_clustering_pipeline Reference.read_csv Reference.sqrt
      Reference.cluster_centers 0
"name,city,age,gaming_platform_top1
Alice,Paris,20,PC
Bob,Rome,45,Console
Carol,Oslo,22,PC
Dan,Bern,50,Console
" 2 = Ok r' /\
    clusters_of r' = clusters_of Reference.people_result.
Proof.
  apply (unrecognised_text_column_is_ignored
           Reference.read_csv Reference.sqrt Reference.cluster_centers 0
           Reference.csv_people
"name,city,age,gaming_platform_top1
Alice,Paris,20,PC
Bob,Rome,45,Console
Carol,Oslo,22,PC
Dan,Bern,50,Console
"
           [("name", Object ["Alice"; "Bob"; "Carol"; "Dan"])]%string
           [("age", Int64 [20; 45; 22; 50]%Z);
            ("gaming_platform_top1", Object ["PC"; "Console"; "PC"; "Console"])]%string
           "city" ["Paris"; "Rome"; "Oslo"; "Bern"]%string
           2 Reference.people_result).
  - reflexivity.
  - reflexivity.
  - reflexivity.
  - reflexivity.
  - simpl. intros [H|[H|[H|[H|[]]]]]; discriminate.
  - discriminate.
  - reflexivity.
Defined.
